(** * PortfolioAI: the AI-assisted document generation pipeline

    A shallow embedding of the Python services under [backend/app/services]:

    - [resume_processor.py], [resume_parser.py]: text extraction and the
      post-extraction clean-up of the text,
    - [groq_client.py], [optimizer.py]: the request loop with its retries and
      the interpretation of the model's answer,
    - [cv_generator.py]: the fallback CV, the DOCX and PDF line scanners and
      the driver that writes the output file.

    Python [str] values are sequences of Unicode code points, dictionaries
    are finite maps, exceptions are an explicit result type, and the outside
    world (the completion API, the JSON decoder, the PDF reader, the file
    system) enters through explicit parameters. *)

From Stdlib Require Import ZArith NArith QArith List Ascii String Bool Lia.
From stdpp Require Import gmap list.
Import ListNotations.

Close Scope Q_scope.
Close Scope string_scope.
Open Scope N_scope.

Set Warnings "-register-all".

(** ** Python strings *)

Module Py.

(** A [str] is the list of its code points. *)
Abbreviation pystr := (list N).

(** An ASCII literal as a [str]. *)
Definition u (s : string) : pystr := map N_of_ascii (list_ascii_of_string s).

(** [str.isspace] on one character, which is also what [\s] matches in a
    [str] pattern of [re] and what [str.strip()] removes: the characters
    U+0009..U+000D, U+001C..U+0020, U+0085, U+00A0, U+1680, U+2000..U+200A,
    U+2028, U+2029, U+202F, U+205F and U+3000. *)
Definition isspace (c : N) : bool :=
  ((9 <=? c) && (c <=? 13)) || ((28 <=? c) && (c <=? 32))
  || (c =? 133) || (c =? 160) || (c =? 5760)
  || ((8192 <=? c) && (c <=? 8202))
  || (c =? 8232) || (c =? 8233) || (c =? 8239) || (c =? 8287) || (c =? 12288).

Definition NL : N := 10.
Definition SP : N := 32.

Fixpoint lstrip (s : pystr) : pystr :=
  match s with
  | [] => []
  | c :: r => if isspace c then lstrip r else s
  end.

(** Trailing white space goes: from the point where only white space is
    left, nothing is kept. *)
Fixpoint rstrip (s : pystr) : pystr :=
  match s with
  | [] => []
  | c :: r => if forallb isspace s then [] else c :: rstrip r
  end.

(** [s.strip()] *)
Definition strip (s : pystr) : pystr := rstrip (lstrip s).

Fixpoint eqs (a b : pystr) : bool :=
  match a, b with
  | [], [] => true
  | x :: a', y :: b' => (x =? y) && eqs a' b'
  | _, _ => false
  end.

(** [s.startswith(p)] *)
Fixpoint startswith (p s : pystr) : bool :=
  match p, s with
  | [], _ => true
  | x :: p', y :: s' => (x =? y) && startswith p' s'
  | _ :: _, [] => false
  end.

(** [s.split(sep)] for a separator of one character: never an empty list. *)
Fixpoint split (sep : N) (s : pystr) : list pystr :=
  match s with
  | [] => [[]]
  | c :: r =>
      if c =? sep then [] :: split sep r
      else match split sep r with
           | l :: ls => (c :: l) :: ls
           | [] => [[c]]
           end
  end.

(** [sep.join(parts)] *)
Fixpoint join (sep : pystr) (parts : list pystr) : pystr :=
  match parts with
  | [] => []
  | p :: ps => match ps with
               | [] => p
               | _ :: _ => p ++ sep ++ join sep ps
               end
  end.

(** The first occurrence of [pat] in [s]: the text before it and the text
    after it. *)
Fixpoint find_sub (pat s : pystr) : option (pystr * pystr) :=
  if startswith pat s then Some ([], List.skipn (List.length pat) s)
  else match s with
       | [] => None
       | c :: r => match find_sub pat r with
                   | Some (b, a) => Some (c :: b, a)
                   | None => None
                   end
       end.

(** [pat in s] *)
Definition contains (pat s : pystr) : bool :=
  match find_sub pat s with Some _ => true | None => false end.

(** The longest prefix whose characters satisfy [p], and the rest. *)
Fixpoint span (p : N -> bool) (s : pystr) : pystr * pystr :=
  match s with
  | [] => ([], [])
  | c :: r => if p c then let '(a, b) := span p r in (c :: a, b) else ([], s)
  end.

(** The index of the last [c] in [s]. *)
Fixpoint last_index_of (c : N) (s : pystr) : option nat :=
  match s with
  | [] => None
  | x :: r => match last_index_of c r with
              | Some k => Some (S k)
              | None => if x =? c then Some 0%nat else None
              end
  end.

(** [s[len(p):]] when [s] starts with [p]. *)
Definition strip_prefix (p s : pystr) : option pystr :=
  if startswith p s then Some (List.skipn (List.length p) s) else None.

(** The number of bytes of the UTF-8 encoding. *)
Definition utf8_width (c : N) : nat :=
  if c <? 128 then 1%nat else if c <? 2048 then 2%nat
  else if c <? 65536 then 3%nat else 4%nat.

Definition utf8_len (s : pystr) : nat :=
  fold_right (fun c n => (utf8_width c + n)%nat) 0%nat s.

(** A surrogate code point, U+D800..U+DFFF: UTF-8 does not encode it. *)
Definition is_surrogate (c : N) : bool := (55296 <=? c) && (c <=? 57343).

(** The first run of surrogates of a text and its position, which is what
    [str.encode] reports. *)
Fixpoint surrogates_at (pos : nat) (s : pystr) : option (nat * pystr) :=
  match s with
  | [] => None
  | c :: r =>
      if is_surrogate c then Some (pos, fst (span is_surrogate s))
      else surrogates_at (S pos) r
  end.

(** [str(n)] for a natural number. *)
Fixpoint uint_digits (d : Decimal.uint) : pystr :=
  match d with
  | Decimal.Nil => []
  | Decimal.D0 r => 48 :: uint_digits r
  | Decimal.D1 r => 49 :: uint_digits r
  | Decimal.D2 r => 50 :: uint_digits r
  | Decimal.D3 r => 51 :: uint_digits r
  | Decimal.D4 r => 52 :: uint_digits r
  | Decimal.D5 r => 53 :: uint_digits r
  | Decimal.D6 r => 54 :: uint_digits r
  | Decimal.D7 r => 55 :: uint_digits r
  | Decimal.D8 r => 56 :: uint_digits r
  | Decimal.D9 r => 57 :: uint_digits r
  end.

Definition dec (n : nat) : pystr := uint_digits (Nat.to_uint n).

(** The four hexadecimal digits of a code point below U+10000, in lower
    case, as the escape of a character has them. *)
Definition hex_digit (d : N) : N := if d <? 10 then 48 + d else 87 + d.

Definition hex4 (c : N) : pystr :=
  [hex_digit (c / 4096 mod 16); hex_digit (c / 256 mod 16);
   hex_digit (c / 16 mod 16); hex_digit (c mod 16)].

End Py.
Import Py.

(** ** Exceptions *)

(** The exceptions the services raise or meet.  [CancelledError] derives from
    [BaseException] (Python 3.8 and later; [asyncio.to_thread], which the
    client uses, needs 3.9): an [except Exception] clause does not catch it.
    The others derive from [Exception]. *)
Inductive exn :=
| TimeoutError
| CancelledError
| ValueError (msg : pystr)
| RuntimeError (msg : pystr)
| TypeError (msg : pystr)
| AttributeError (msg : pystr)
| OverflowError (msg : pystr)
| JSONDecodeError (msg : pystr)
| PlainException (msg : pystr)
| OtherError (msg : pystr).

Definition is_Exception (e : exn) : bool :=
  match e with CancelledError => false | _ => true end.

Definition is_TimeoutError (e : exn) : bool :=
  match e with TimeoutError => true | _ => false end.

(** [str(e)] *)
Definition str_exn (e : exn) : pystr :=
  match e with
  | TimeoutError | CancelledError => []
  | ValueError m | RuntimeError m | TypeError m | AttributeError m
  | OverflowError m | JSONDecodeError m | PlainException m | OtherError m => m
  end.

(** What a call does: it returns a value or raises. *)
Inductive res (A : Type) :=
| Ret (a : A)
| Raise (e : exn).
Arguments Ret {A} a.
Arguments Raise {A} e.

(** Sequencing stops at the first exception; [x ← m; k] is stdpp's notation. *)
#[global] Instance res_ret : MRet res := fun A a => Ret a.
#[global] Instance res_bind : MBind res := fun A B k m =>
  match m with Ret a => k a | Raise e => Raise e end.

(** [try: m  except Exception as e: h e] *)
Definition try_except {A} (m : res A) (h : exn -> res A) : res A :=
  match m with
  | Ret a => Ret a
  | Raise e => if is_Exception e then h e else Raise e
  end.

(** ** [resume_processor.py]: class [ResumeProcessor] *)

Module ResumeProcessor.

(** *** [_clean_extracted_text] *)

(** [re.sub(r'\s+', ' ', text)]: every maximal run of white space becomes
    one space.  [in_run] says that the previous character was white space,
    already replaced. *)
Fixpoint sub_ws_from (in_run : bool) (text : pystr) : pystr :=
  match text with
  | [] => []
  | c :: r =>
      if isspace c
      then (if in_run then sub_ws_from true r else SP :: sub_ws_from true r)
      else c :: sub_ws_from false r
  end.

Definition sub_ws (text : pystr) : pystr := sub_ws_from false text.

(** [re.sub(r'\x0c', '', text)] *)
Definition sub_formfeed (text : pystr) : pystr :=
  List.filter (fun c => negb (c =? 12)) text.

(** The replacement text of the bullet: the three characters U+00E2, U+20AC,
    U+00A2 that stand in the source file. *)
Definition bullet_text : pystr := [226; 8364; 162].

(** [re.sub(r'\u2022', bullet_text, text)] *)
Definition sub_bullet (text : pystr) : pystr :=
  flat_map (fun c => if c =? 8226 then bullet_text else [c]) text.

Definition is_upper (c : N) : bool := (65 <=? c) && (c <=? 90).

(** [[A-Z\s]] *)
Definition header_class (c : N) : bool := is_upper c || isspace c.

(** A match of [\s*([A-Z][A-Z\s]{5,})\n] at the start of [r], the text after
    an opening newline: the group and the text after the match.  [\s*] takes
    the whole run of white space, since the next character must be a capital;
    the greedy [[A-Z\s]{5,}] takes the run of capitals and white space and
    gives back characters until a newline follows, so it ends before the
    last newline of the run, and at least five characters must be left. *)
Definition match_header (r : pystr) : option (pystr * pystr) :=
  match lstrip r with
  | [] => None
  | c :: r2 =>
      if is_upper c then
        match last_index_of NL (fst (span header_class r2)) with
        | Some k =>
            if (5 <=? k)%nat
            then Some (c :: List.firstn k r2, List.skipn (S k) r2)
            else None
        | None => None
        end
      else None
  end.

(** [g.title()] for a group [g] of capitals and white space: a capital
    after a capital becomes the small letter. *)
Fixpoint title_from (prev_cased : bool) (g : pystr) : pystr :=
  match g with
  | [] => []
  | c :: r =>
      (if is_upper c && prev_cased then c + 32 else c)
        :: title_from (is_upper c) r
  end.

Definition title (g : pystr) : pystr := title_from false g.

(** The replacement the lambda builds: two newlines, the title, a newline,
    a rule of [=] as long as the title, a newline. *)
Definition header_replacement (g : pystr) : pystr :=
  [NL; NL] ++ title g ++ [NL] ++ List.repeat 61 (List.length (title g)) ++ [NL].

(** [re.sub(r'\n\s*([A-Z][A-Z\s]{5,})\n', ..., text)]: the scan goes on
    after each match.  A step consumes at least one character, so
    [length text] steps are enough. *)
Fixpoint sub_headers_from (fuel : nat) (text : pystr) : pystr :=
  match fuel with
  | O => text
  | S fuel' =>
      match text with
      | [] => []
      | c :: r =>
          match (if c =? NL then match_header r else None) with
          | Some (g, rest) => header_replacement g ++ sub_headers_from fuel' rest
          | None => c :: sub_headers_from fuel' r
          end
      end
  end.

Definition sub_headers (text : pystr) : pystr :=
  sub_headers_from (List.length text) text.

(** What a run of [n] newlines becomes under [re.sub(r'\n{3,}', '\n\n', _)]. *)
Definition newline_run (n : nat) : pystr :=
  if (3 <=? n)%nat then [NL; NL] else List.repeat NL n.

(** [re.sub(r'\n{3,}', '\n\n', text)]; [pending] counts the newlines of the
    run being read. *)
Fixpoint sub_newlines_from (pending : nat) (text : pystr) : pystr :=
  match text with
  | [] => newline_run pending
  | c :: r =>
      if c =? NL then sub_newlines_from (S pending) r
      else newline_run pending ++ c :: sub_newlines_from 0 r
  end.

Definition sub_newlines (text : pystr) : pystr := sub_newlines_from 0 text.

Definition _clean_extracted_text (text : pystr) : pystr :=
  match text with
  | [] => []
  | _ :: _ =>
      let text := strip (sub_ws text) in
      let text := sub_formfeed text in
      let text := sub_bullet text in
      let text := sub_headers text in
      let text := sub_newlines text in
      strip text
  end.

(** The shape of cleaned text: white space is single spaces only ([prev]
    says that the character before was white space). *)
Fixpoint spaced (prev : bool) (s : pystr) : bool :=
  match s with
  | [] => true
  | c :: r =>
      if isspace c then (c =? SP) && negb prev && spaced true r
      else spaced false r
  end.

(** No white space at either end and single spaces inside. *)
Definition tidy (s : pystr) : Prop := spaced true s = true /\ rstrip s = s.

(** *** [_extract_text_from_pdf] *)

(** What [page.extract_text()] does on one page of the reader. *)
Inductive page :=
| PageText (t : pystr)
| PageNone
| PageRaises (e : exn).

(** The body of the page loop: a page that raises is logged and skipped,
    a page without text adds nothing. *)
Fixpoint collect_pages (pages : list page) (text : list pystr) : res (list pystr) :=
  match pages with
  | [] => Ret text
  | p :: rest =>
      match p with
      | PageText ((_ :: _) as t) => collect_pages rest (text ++ [t])
      | PageText [] | PageNone => collect_pages rest text
      | PageRaises e =>
          if is_Exception e then collect_pages rest text else Raise e
      end
  end.

(** [reader] is what opening the file and building the [PdfReader] gives:
    the pages, or the exception of a file that cannot be read.  The outer
    [except] clause logs and raises again. *)
Definition _extract_text_from_pdf (reader : res (list page)) : res pystr :=
  pages ← reader;
  text ← collect_pages pages [];
  match text with
  | [] => Raise (ValueError (u "No text could be extracted from the PDF"))
  | _ :: _ => Ret (join [NL] text)
  end.

(** The texts that the pages yield: those of the pages that return a text
    that is not empty. *)
Definition page_texts (pages : list page) : list pystr :=
  flat_map (fun p => match p with
                     | PageText ((_ :: _) as t) => [t]
                     | _ => []
                     end) pages.

(** The exception of a page is an [Exception]: nothing cancels the
    synchronous extraction. *)
Definition page_ok (p : page) : bool :=
  match p with PageRaises e => is_Exception e | _ => true end.

(** A document whose second page cannot be extracted, and one whose pages
    have no text. *)
Definition damaged_pages : list page :=
  [PageText (u "Alpha"); PageRaises (OtherError (u "bad page")); PageText (u "Gamma")].

Definition blank_pages : list page := [PageText []; PageText []].

End ResumeProcessor.

(** ** [resume_parser.py] *)

Module resume_parser.
Import ResumeProcessor.

(** [text += page.extract_text() + '\n'] over the pages. *)
Fixpoint append_pages (pages : list page) (text : pystr) : res pystr :=
  match pages with
  | [] => Ret text
  | p :: rest =>
      match p with
      | PageText t => append_pages rest (text ++ t ++ [NL])
      | PageNone =>
          Raise (TypeError (u "unsupported operand type(s) for +: 'NoneType' and 'str'"))
      | PageRaises e => Raise e
      end
  end.

(** The result is [Optional[str]]: [None] stands for a failed extraction. *)
Definition extract_text_from_pdf (has_required_deps : bool)
    (reader : res (list page)) : res (option pystr) :=
  if negb has_required_deps then Ret None
  else
    try_except
      (pages ← reader;
       text ← append_pages pages [];
       Ret (Some (strip text)))
      (fun _ => Ret None).

End resume_parser.

(** ** Python values *)

(** A [float]: the finite ones are rationals (every double is one), so what
    holds of all rationals holds of all doubles. *)
Inductive pyfloat :=
| FNaN
| FPosInf
| FNegInf
| FFin (q : Q).

(** What [json.loads] builds, and what the result dictionaries hold. *)
Inductive pyval :=
| VNone
| VBool (b : bool)
| VInt (z : Z)
| VFloat (f : pyfloat)
| VStr (s : pystr)
| VList (l : list pyval)
| VDict (d : gmap pystr pyval).

Abbreviation pydict := (gmap pystr pyval).

(** [type(v).__name__] *)
Definition type_name (v : pyval) : pystr :=
  match v with
  | VNone => u "NoneType"
  | VBool _ => u "bool"
  | VInt _ => u "int"
  | VFloat _ => u "float"
  | VStr _ => u "str"
  | VList _ => u "list"
  | VDict _ => u "dict"
  end.

(** [x < y] and [x > y] between floats; every comparison with a NaN is
    false. *)
Definition float_lt (x y : pyfloat) : bool :=
  match x, y with
  | FNaN, _ | _, FNaN => false
  | FNegInf, FNegInf => false
  | FNegInf, _ => true
  | _, FNegInf => false
  | FPosInf, _ => false
  | FFin _, FPosInf => true
  | FFin a, FFin b => if Qlt_le_dec a b then true else false
  end.

Definition float_of_Z (z : Z) : pyfloat := FFin (inject_Z z).

(** ** [groq_client.py]: class [GroqClient] *)

Module GroqClient.

(** *** [_make_request] *)

(** A chat message is a dictionary that may lack a key. *)
Record message := Message {
  role : option pystr;
  content : option pystr
}.

(** What the completion call gives back: an object without (or with an
    empty list of) choices, or the [message.content] of each choice. *)
Inductive completion :=
| Malformed
| Choices (contents : list (option pystr)).

(** What [await asyncio.wait_for(task, timeout=60)] does in one attempt: it
    returns the completion, or it raises: [TimeoutError] after 60 seconds, the
    exception of the API call, or [CancelledError] when the caller is
    cancelled.  [task_done] is [task.done()] when a handler looks at it. *)
Inductive wait_outcome :=
| Completed (c : completion)
| WaitRaised (e : exn) (task_done : bool).

(** What the loop does to the outside, in order. *)
Inductive event :=
| ERequest (attempt : nat)
| ECancelTask (attempt : nat)
| ESleep (seconds : nat).

Definition max_retries : nat := 2.
Definition retry_delay : nat := 1.

(** How one pass through the loop body ends. *)
Inductive flow (A : Type) :=
| NextAttempt
| Leave (r : res A).
Arguments NextAttempt {A}.
Arguments Leave {A} r.

(** [if task and not task.done(): task.cancel(); await task] *)
Definition cancel_task (attempt : nat) (task_done : bool) : list event :=
  if task_done then [] else [ECancelTask attempt].

(** The inner [try]: the value returned, the exception that leaves it, or
    [None] when the timeout handler has slept and the loop goes on. *)
Definition inner_try (attempt : nat) (o : wait_outcome)
  : option (res (option pystr)) * list event :=
  match o with
  | Completed (Choices (c :: _)) => (Some (Ret c), [])
  | Completed _ =>
      (* ValueError, through [except Exception]: the task is done *)
      (Some (Raise (ValueError (u "Invalid response from Groq API"))),
       cancel_task attempt true)
  | WaitRaised e task_done =>
      if is_TimeoutError e then
        if (attempt =? max_retries)%nat
        then (Some (Raise e), cancel_task attempt task_done)
        else (None, cancel_task attempt task_done
                      ++ [ESleep (retry_delay * (attempt + 1))])
      else if is_Exception e then (Some (Raise e), cancel_task attempt task_done)
      else (Some (Raise e), [])
  end.

(** One pass: the inner [try] under the two outer handlers,
    [except asyncio.CancelledError: raise] and [except Exception]. *)
Definition one_attempt (attempt : nat) (o : wait_outcome)
  : flow (option pystr) * list event :=
  match inner_try attempt o with
  | (None, ev) => (NextAttempt, ev)
  | (Some (Ret c), ev) => (Leave (Ret c), ev)
  | (Some (Raise e), ev) =>
      match e with
      | CancelledError => (Leave (Raise e), ev)
      | _ =>
          if is_Exception e then
            if (attempt =? max_retries)%nat then (Leave (Raise e), ev)
            else (NextAttempt, ev ++ [ESleep (retry_delay * (attempt + 1))])
          else (Leave (Raise e), ev)
      end
  end.

(** [for attempt in range(...)], then the statement after the loop. *)
Fixpoint attempts_loop (api : nat -> wait_outcome) (attempts : list nat)
  : res (option pystr) * list event :=
  match attempts with
  | [] =>
      (Raise (RuntimeError
         (u "Failed to get a valid response from Groq API after all retries")), [])
  | attempt :: rest =>
      match one_attempt attempt (api attempt) with
      | (Leave r, ev) => (r, ERequest attempt :: ev)
      | (NextAttempt, ev) =>
          let '(r, ev') := attempts_loop api rest in
          (r, ERequest attempt :: ev ++ ev')
      end
  end.

Definition well_formed (m : message) : bool :=
  match role m, content m with Some _, Some _ => true | _, _ => false end.

(** [configured] is [self.enabled and self.client]; [api n] is what the
    call of attempt [n] does. *)
Definition _make_request (configured : bool) (api : nat -> wait_outcome)
    (messages : list message) : res (option pystr) * list event :=
  if negb configured then
    (Raise (RuntimeError
       (u "Groq API is not properly configured. "
        ++ u "Please check your API key and client initialization.")), [])
  else if negb (forallb well_formed messages) then
    (Raise (ValueError (u "Each message must have 'role' and 'content' keys")), [])
  else attempts_loop api (seq 0 (max_retries + 1)).

(** An attempt fails when the call times out or raises an [Exception], or
    when the completion has no choice; [failure] is the exception the
    attempt then ends with. *)
Definition fails (o : wait_outcome) : bool :=
  match o with
  | Completed (Choices (_ :: _)) => false
  | Completed _ => true
  | WaitRaised e _ => is_Exception e
  end.

Definition failure (o : wait_outcome) : exn :=
  match o with
  | Completed _ => ValueError (u "Invalid response from Groq API")
  | WaitRaised e _ => e
  end.

Definition is_request (ev : event) : bool :=
  match ev with ERequest _ => true | _ => false end.

(** The requests and the pauses of a trace, without the clean-up of tasks. *)
Definition requests_and_sleeps (trace : list event) : list event :=
  List.filter (fun ev => match ev with ECancelTask _ => false | _ => true end) trace.

(** A transport that times out in every attempt, and a one-message request. *)
Definition always_timeout : nat -> wait_outcome :=
  fun _ => WaitRaised TimeoutError true.


Definition one_message : list message :=
  [Message (Some (u "user")) (Some (u "Hello"))].

(** *** [optimize_resume]: reading the answer *)

Definition fence : pystr := u "```".

(** After the opening fence: the newline, then the shortest text that a
    newline and a closing fence follow. *)
Definition fence_body (r : pystr) : option pystr :=
  match r with
  | c :: body =>
      if c =? NL then
        match find_sub (NL :: fence) body with
        | Some (g, _) => Some g
        | None => None
        end
      else None
  | [] => None
  end.

(** A match of the fence pattern at the start of [t]: the optional [json]
    is tried first, then left out. *)
Definition match_fence (t : pystr) : option pystr :=
  match strip_prefix fence t with
  | None => None
  | Some r =>
      match (match strip_prefix (u "json") r with
             | Some r' => fence_body r'
             | None => None
             end) with
      | Some g => Some g
      | None => fence_body r
      end
  end.

(** Group 1 of [re.search] with the fence pattern
    (three backquotes, an optional [json], a newline, [(.*?)], a newline,
    three backquotes) under [re.DOTALL]: the leftmost match. *)
Fixpoint search_fence (t : pystr) : option pystr :=
  match match_fence t with
  | Some g => Some g
  | None => match t with
            | [] => None
            | _ :: r => search_fence r
            end
  end.

(** Group 1 of [re.search(r'({.*})', t, re.DOTALL)]: from the first brace
    that a closing brace follows to the last closing brace. *)
Fixpoint search_braces (t : pystr) : option pystr :=
  match t with
  | [] => None
  | c :: r =>
      if c =? 123 then
        match last_index_of 125 r with
        | Some k => Some (c :: List.firstn (S k) r)
        | None => search_braces r
        end
      else search_braces r
  end.

(** [x < y] on numbers, an [int] compared exactly with a [float]. *)
Definition py_lt (x y : pyval) : bool :=
  match x, y with
  | VInt a, VInt b => (a <? b)%Z
  | VInt a, VFloat g => float_lt (float_of_Z a) g
  | VFloat f, VInt b => float_lt f (float_of_Z b)
  | VFloat f, VFloat g => float_lt f g
  | _, _ => false
  end.

(** [min(a, b)] and [max(a, b)]: the first argument stays unless the second
    is smaller (greater). *)
Definition py_min (a b : pyval) : pyval := if py_lt b a then b else a.
Definition py_max (a b : pyval) : pyval := if py_lt a b then b else a.

Definition is_ValueError (e : exn) : bool :=
  match e with ValueError _ | JSONDecodeError _ => true | _ => false end.

Definition is_TypeError (e : exn) : bool :=
  match e with TypeError _ => true | _ => false end.

Definition k_status := u "status".
Definition k_error := u "error".
Definition k_optimized_text := u "optimized_text".
Definition k_score := u "score".
Definition k_suggestions := u "suggestions".
Definition k_keywords_matched := u "keywords_matched".
Definition k_missing_keywords := u "missing_keywords".

Definition zero_score : pyval := VFloat (FFin 0%Q).

Definition required_fields : list pystr :=
  [k_optimized_text; k_score; k_suggestions].

(** A response that is [s] inside a fenced code block: the opening fence
    ([opener], with or without the language), a newline, [s], a newline, the
    closing fence. *)
Definition fenced (opener s : pystr) : pystr :=
  opener ++ NL :: s ++ NL :: fence.

(** A decoder that knows one text only, the empty object. *)
Definition empty_object_loads (s : pystr) : res pyval :=
  if eqs s (u "{}") then Ret (VDict ∅)
  else Raise (JSONDecodeError (u "Expecting value")).

Section Interpretation.

(** The library functions: [json.loads] (it raises [JSONDecodeError]),
    [float] on an [int] beyond 2^53 (rounded, or [OverflowError]) and
    [float] on a [str] (or [ValueError]). *)
Variable json_loads : pystr -> res pyval.
Variable float_of_big_int : Z -> res pyfloat.
Variable float_of_str : pystr -> res pyfloat.

(** Lines 434-450, on the stripped response. *)
Definition parse_response (response : pystr) : res pyval :=
  match json_loads response with
  | Raise (JSONDecodeError _) =>
      match (match search_fence response with
             | Some g => Some g
             | None => search_braces response
             end) with
      | Some g => json_loads (strip g)
      | None => Raise (ValueError (u "No valid JSON found in the response"))
      end
  | r => r
  end.

(** [float(v)] *)
Definition to_float (v : pyval) : res pyfloat :=
  match v with
  | VInt z =>
      if (Z.abs z <=? 2 ^ 53)%Z then Ret (float_of_Z z) else float_of_big_int z
  | VBool b => Ret (float_of_Z (if b then 1 else 0))
  | VFloat f => Ret f
  | VStr s => float_of_str s
  | _ => Raise (TypeError (u "float() argument must be a string or a real number, not '"
                           ++ type_name v ++ u "'"))
  end.

(** [field not in result], negated. *)
Definition has_field (result : pyval) (field : pystr) : res bool :=
  match result with
  | VDict d => Ret (match d !! field with Some _ => true | None => false end)
  | VList l =>
      Ret (existsb (fun v => match v with VStr s => eqs s field | _ => false end) l)
  | VStr s => Ret (contains field s)
  | v => Raise (TypeError (u "argument of type '" ++ type_name v
                           ++ u "' is not iterable"))
  end.

Fixpoint check_required (result : pyval) (fields : list pystr) : res unit :=
  match fields with
  | [] => Ret tt
  | f :: fs =>
      b ← has_field result f;
      if b : bool then check_required result fs
      else Raise (ValueError (u "Missing required field in response: " ++ f))
  end.

(** [max(0, min(100, float(score)))], and [0.0] when [float] raises
    [ValueError] or [TypeError]. *)
Definition clamp_score (score : pyval) : res pyval :=
  match to_float score with
  | Ret f => Ret (py_max (VInt 0) (py_min (VInt 100) (VFloat f)))
  | Raise e => if is_ValueError e || is_TypeError e then Ret zero_score else Raise e
  end.

(** The list the comprehension builds from a string of suggestions. *)
Definition suggestion_lines (s : pystr) : list pyval :=
  map VStr (List.filter (fun l => match strip l with [] => false | _ => true end)
              (split NL s)).

Definition normalize_suggestions (d : pydict) : res pydict :=
  match d !! k_suggestions with
  | Some (VList _) => Ret d
  | Some (VStr s) => Ret (<[k_suggestions := VList (suggestion_lines s)]> d)
  | None => Ret (<[k_suggestions := VList []]> d)
  | Some v => Raise (AttributeError (u "'" ++ type_name v
                                     ++ u "' object has no attribute 'split'"))
  end.

(** Lines 452-474: the checks on the parsed value and the dictionary that is
    returned. *)
Definition finish_result (result : pyval) : res pydict :=
  _ ← check_required result required_fields;
  match result with
  | VDict d =>
      score ← clamp_score (default VNone (d !! k_score));
      d ← normalize_suggestions (<[k_score := score]> d);
      let d := <[k_keywords_matched :=
                   default (VList []) (d !! k_keywords_matched)]> d in
      let d := <[k_missing_keywords :=
                   default (VList []) (d !! k_missing_keywords)]> d in
      Ret (<[k_status := VStr (u "success")]> d)
  | VList _ => Raise (TypeError (u "list indices must be integers or slices, not str"))
  | _ => Raise (TypeError (u "'str' object does not support item assignment"))
  end.

(** The dictionaries of the error paths. *)
Definition early_error (resume_text error_msg : pystr) : pydict :=
  <[k_status := VStr (u "error")]>
  (<[k_error := VStr error_msg]>
  (<[k_optimized_text := VStr resume_text]>
  (<[k_score := zero_score]>
  (<[k_suggestions := VList [VStr error_msg]]> ∅)))).

Definition parse_error (resume_text : pystr) (e : exn) : pydict :=
  <[k_optimized_text := VStr resume_text]>
  (<[k_score := zero_score]>
  (<[k_suggestions := VList [VStr (u "Failed to parse optimization response: "
                                     ++ str_exn e ++ u ". Showing original resume.")]]>
  (<[k_status := VStr (u "error")]>
  (<[k_error := VStr (u "Failed to parse Groq API response: " ++ str_exn e)]>
  (<[k_keywords_matched := VList []]>
  (<[k_missing_keywords := VList []]> ∅)))))).

Definition request_error (resume_text : pystr) (e : exn) : pydict :=
  <[k_optimized_text := VStr resume_text]>
  (<[k_score := zero_score]>
  (<[k_suggestions := VList [VStr (u "Error during optimization: " ++ str_exn e)]]>
  (<[k_status := VStr (u "error")]> ∅))).

(** Lines 431-489: the second inner [try] with its handler.  The handler
    logs [response[:500]], which raises when the response is [None]. *)
Definition interpret (resume_text : pystr) (response : option pystr) : res pydict :=
  try_except
    (match response with
     | None => Raise (AttributeError (u "'NoneType' object has no attribute 'strip'"))
     | Some r =>
         result ← parse_response (strip r);
         finish_result result
     end)
    (fun e =>
       match response with
       | None => Raise (TypeError (u "'NoneType' object is not subscriptable"))
       | Some _ => Ret (parse_error resume_text e)
       end).

(** [not resume_text or len(resume_text.strip()) < 50] *)
Definition too_short (resume_text : pystr) : bool :=
  match resume_text with
  | [] => true
  | _ :: _ => (List.length (strip resume_text) <? 50)%nat
  end.

(** The formatted prompt goes out with the request and nothing of the result
    is computed from it; it is a parameter. *)
Variable prompt : pystr -> pystr -> pystr.
Variable system_prompt : pystr.

Definition prompt_messages (resume_text job_description : pystr) : list message :=
  [ Message (Some (u "system")) (Some system_prompt);
    Message (Some (u "user")) (Some (prompt resume_text job_description)) ].

(** [await asyncio.wait_for(self._make_request(...), timeout=120)]:
    [expired] says that the two minutes ran out first. *)
Definition timed_request (configured expired : bool) (api : nat -> wait_outcome)
    (messages : list message) : res (option pystr) :=
  if expired then Raise TimeoutError
  else fst (_make_request configured api messages).

Definition optimize_resume (configured expired : bool) (api : nat -> wait_outcome)
    (resume_text job_description : pystr) : res pydict :=
  if too_short resume_text then
    Ret (early_error resume_text (u "Resume text is too short or empty"))
  else if negb configured then
    Ret (early_error resume_text
           (u "Groq client is not enabled or not properly initialized"))
  else
    try_except
      (response ←
         match timed_request configured expired api
                 (prompt_messages resume_text job_description) with
         | Raise TimeoutError =>
             Raise (PlainException (u "Request to Groq API timed out after 2 minutes"))
         | r => r
         end;
       interpret resume_text response)
      (fun e => Ret (request_error resume_text e)).

End Interpretation.

(** A score is in range when it is a number between 0 and 100. *)
Definition score_in_range (v : pyval) : Prop :=
  match v with
  | VInt z => (0 <= z <= 100)%Z
  | VFloat (FFin q) => (0 <= q <= 100)%Q
  | _ => False
  end.

Definition list_or_str (v : pyval) : bool :=
  match v with VList _ | VStr _ => true | _ => false end.

(** What the clamp gives: one of the bounds as an [int], or a finite [float]
    between them. *)
Definition clamped (v : pyval) : Prop :=
  v = VInt 0 \/ v = VInt 100 \/ exists q, v = VFloat (FFin q) /\ (0 <= q <= 100)%Q.

(** The clamp as the claim has it: the number of [0, 100] nearest to the
    score.  The bounds are the [int]s [0] and [100]; an infinity ends at the
    bound on its side and a NaN at [100]. *)
Definition clamp_to_range (f : pyfloat) : pyval :=
  match f with
  | FFin q =>
      if Qle_bool q 0 then VInt 0
      else if Qle_bool 100 q then VInt 100
      else VFloat (FFin q)
  | FNegInf => VInt 0
  | FPosInf | FNaN => VInt 100
  end.

(** What every returned dictionary satisfies, and what the error paths
    return. *)
Definition result_invariant (d : pydict) : Prop :=
  (exists sc, d !! k_score = Some sc /\ score_in_range sc) /\
  (d !! k_status = Some (VStr (u "success"))
   \/ d !! k_status = Some (VStr (u "error"))).

Definition unchanged_on_error (resume_text : pystr) (d : pydict) : Prop :=
  d !! k_optimized_text = Some (VStr resume_text) /\
  d !! k_score = Some zero_score.

(** A call returns a dictionary that satisfies [P], or lets through what is
    no [Exception] (a cancellation). *)
Definition returns (P : pydict -> Prop) (r : res pydict) : Prop :=
  match r with
  | Ret d => P d
  | Raise e => is_Exception e = false
  end.

(** The error paths of [optimize_resume]: the text is too short, the client
    is not enabled, the request raised, or the response cannot be parsed. *)
Definition unparsable (json_loads : pystr -> res pyval)
    (response : option pystr) : Prop :=
  match response with
  | None => True
  | Some r => exists e, parse_response json_loads (strip r) = Raise e
  end.

Definition error_path (json_loads : pystr -> res pyval) (configured : bool)
    (request : res (option pystr)) (resume_text : pystr) : Prop :=
  too_short resume_text = true \/ configured = false \/
  match request with
  | Raise _ => True
  | Ret response => unparsable json_loads response
  end.

(** The shape of a dictionary the client returns. *)
Definition client_result (json_loads : pystr -> res pyval) (configured : bool)
    (request : res (option pystr)) (resume_text : pystr) (d : pydict) : Prop :=
  (exists sc, d !! k_score = Some sc /\ clamped sc) /\
  (exists t, d !! k_optimized_text = Some t) /\
  (exists l, d !! k_suggestions = Some (VList l)) /\
  ((d !! k_status = Some (VStr (u "success"))
    /\ ~ error_path json_loads configured request resume_text)
   \/ (d !! k_status = Some (VStr (u "error"))
       /\ unchanged_on_error resume_text d)).

(** An answer without a score, its text, and a decoder that knows this text
    only; conversions that always refuse. *)
Definition partial_result : pydict :=
  <[k_optimized_text := VStr (u "Better resume")]>
  (<[k_suggestions := VList [VStr (u "Add numbers")]]> ∅).

Definition quoted (s : string) : pystr := 34 :: u s ++ [34].

Definition partial_text : pystr :=
  u "{" ++ quoted "optimized_text" ++ u ": " ++ quoted "Better resume" ++ u ", "
  ++ quoted "suggestions" ++ u ": [" ++ quoted "Add numbers" ++ u "]}".

Definition partial_loads (s : pystr) : res pyval :=
  if eqs s partial_text then Ret (VDict partial_result)
  else Raise (JSONDecodeError (u "Expecting value")).

Definition no_big_int (z : Z) : res pyfloat :=
  Raise (OverflowError (u "int too large to convert to float")).

Definition no_float_str (s : pystr) : res pyfloat :=
  Raise (ValueError (u "could not convert string to float")).

(** A full answer with a score out of range and suggestions in one string
    of two lines (in the JSON text the newline is the escape [\n]). *)
Definition full_result : pydict :=
  <[k_optimized_text := VStr (u "Better resume")]>
  (<[k_score := VInt 150]>
  (<[k_suggestions := VStr (u "Add numbers" ++ NL :: u "Use verbs")]> ∅)).

Definition full_text : pystr :=
  u "{" ++ quoted "optimized_text" ++ u ": " ++ quoted "Better resume" ++ u ", "
  ++ quoted "score" ++ u ": 150, " ++ quoted "suggestions" ++ u ": "
  ++ 34 :: u "Add numbers" ++ [92; 110] ++ u "Use verbs" ++ 34 :: u "}".

Definition full_loads (s : pystr) : res pyval :=
  if eqs s full_text then Ret (VDict full_result)
  else Raise (JSONDecodeError (u "Expecting value")).

Definition long_resume : pystr := List.repeat 120 60.

(** The characters of a text that are not white space. *)
Definition non_whitespace (s : pystr) : nat :=
  List.length (List.filter (fun c => negb (isspace c)) s).

(** Thirty letters with a space after each but the last: 59 characters. *)
Definition wide_resume : pystr :=
  flat_map (fun _ => [120; 32]) (seq 0 29) ++ [120].

(** A complete answer, its decoder, and a transport that delivers it. *)
Definition good_result : pydict :=
  <[k_optimized_text := VStr (u "Better resume")]>
  (<[k_score := VInt 85]>
  (<[k_suggestions := VList [VStr (u "Add numbers")]]> ∅)).

Definition good_text : pystr :=
  u "{" ++ quoted "optimized_text" ++ u ": " ++ quoted "Better resume" ++ u ", "
  ++ quoted "score" ++ u ": 85, " ++ quoted "suggestions" ++ u ": ["
  ++ quoted "Add numbers" ++ u "]}".

Definition good_loads (s : pystr) : res pyval :=
  if eqs s good_text then Ret (VDict good_result)
  else Raise (JSONDecodeError (u "Expecting value")).

Definition answering : nat -> wait_outcome :=
  fun _ => Completed (Choices [Some good_text]).

End GroqClient.

(** ** [optimizer.py]: class [ResumeOptimizer] *)

Module ResumeOptimizer.
Import GroqClient.

Section Optimizer.

Variable float_of_big_int : Z -> res pyfloat.
Variable float_of_str : pystr -> res pyfloat.

(** [v[:5]] *)
Definition first_five (v : pyval) : res pyval :=
  match v with
  | VList l => Ret (VList (List.firstn 5 l))
  | VStr s => Ret (VStr (List.firstn 5 s))
  | _ => Raise (TypeError (u "'" ++ type_name v ++ u "' object is not subscriptable"))
  end.

Definition service_error (resume_text : pystr) (suggestion error_msg : pystr) : pydict :=
  <[k_optimized_text := VStr resume_text]>
  (<[k_score := zero_score]>
  (<[k_suggestions := VList [VStr suggestion]]>
  (<[k_status := VStr (u "error")]>
  (<[k_error := VStr error_msg]> ∅)))).

(** [groq_client] is the [optimize_resume] method of the client the service
    was built with, or [None] when there is no client. *)
Definition optimize_resume (groq_client : option (pystr -> pystr -> res pydict))
    (resume_text job_description : pystr) : res pydict :=
  if too_short resume_text then
    Ret (service_error resume_text (u "Resume text is too short or empty")
           (u "Resume text is too short or empty"))
  else
    match groq_client with
    | None =>
        Ret (service_error resume_text
               (u "Resume optimization service is not properly configured")
               (u "Resume optimization service is not properly configured"))
    | Some client_optimize =>
        try_except
          (result ← client_optimize resume_text job_description;
           if negb (forallb (fun key => match result !! key with
                                        | Some _ => true
                                        | None => false
                                        end) required_fields)
           then Raise (ValueError (u "Invalid response from optimization service"))
           else
             f ← to_float float_of_big_int float_of_str
                   (default VNone (result !! k_score));
             suggestions ← first_five (default VNone (result !! k_suggestions));
             Ret (<[k_optimized_text := default VNone (result !! k_optimized_text)]>
                  (<[k_score := py_min (py_max (VFloat f) (VInt 0)) (VInt 100)]>
                  (<[k_suggestions := suggestions]>
                  (<[k_status := VStr (u "success")]> ∅)))))
          (fun e =>
             Ret (service_error resume_text
                    (u "Error during optimization. Please try again.") (str_exn e)))
    end.

End Optimizer.

End ResumeOptimizer.

(** ** [cv_generator.py]: class [CVGenerator] *)

Module CVGenerator.

(** *** [_generate_fallback_cv] *)

(** A key of the CV data that holds text: the dictionary lacks it, or it
    holds [None] (as [request.model_dump()] has it for every optional field
    that was not sent), or it holds a value whose text is [s]: a [str], or
    the [float] of [gpa] as an f-string shows it. *)
Inductive field :=
| Absent
| IsNone
| Text (s : pystr).

Record personal_info := PersonalInfo {
  name : field;
  email : field;
  phone : field;
  linkedin : field;
  github : field;
  location : field;
  summary : field
}.

(** The description of a job: a list of [str], or one [str]. *)
Inductive description :=
| DescList (items : list pystr)
| DescText (text : pystr).

(** [None] for [job_description]: the key is not there. *)
Record job := Job {
  title : field;
  company : field;
  job_start_date : field;
  job_end_date : field;
  current : bool;
  job_location : field;
  job_description : option description
}.

Record education_entry := Education {
  degree : field;
  institution : field;
  field_of_study : field;
  edu_start_date : field;
  edu_end_date : field;
  gpa : field
}.

Inductive skill_data :=
| SkillList (items : list pystr)
| SkillText (text : pystr).

(** The three lists are lists, as the request model types them; [None] for
    [skills]: the key is not there. *)
Record cv_data := CvData {
  personal : personal_info;
  work_experience : list job;
  education : list education_entry;
  skills : option skill_data
}.

(** [d.get(key, default)]: a [str], or [None] when the key holds [None]. *)
Definition get (f : field) (dflt : string) : option pystr :=
  match f with
  | Absent => Some (u dflt)
  | IsNone => None
  | Text s => Some s
  end.

(** [d[key]] for a key that is there. *)
Definition value (f : field) : option pystr :=
  match f with Text s => Some s | _ => None end.

(** [key in d] *)
Definition has_key (f : field) : bool :=
  match f with Absent => false | _ => true end.

(** A value inside an f-string: [None] shows as the text [None]. *)
Definition fstr (v : option pystr) : pystr := default (u "None") v.

(** The truth value of [d.get(key)]. *)
Definition truthy (f : field) : bool :=
  match f with Text (_ :: _) => true | _ => false end.

(** [lines.append(text) if d.get(key)] with [text] built from the value. *)
Definition when_set (f : field) (line : pystr -> pystr) : list pystr :=
  match f with Text ((_ :: _) as v) => [line v] | _ => [] end.

(** [dates += text] *)
Definition iadd (dates : option pystr) (text : pystr) : res (option pystr) :=
  match dates with
  | Some s => Ret (Some (s ++ text))
  | None =>
      Raise (TypeError (u "unsupported operand type(s) for +=: 'NoneType' and 'str'"))
  end.

Definition header_lines (p : personal_info) : list pystr :=
  [u "# " ++ fstr (get (name p) "Your Name");
   fstr (get (email p) "") ++ u " | " ++ fstr (get (phone p) "")]
  ++ when_set (linkedin p) (fun v => u "LinkedIn: " ++ v)
  ++ when_set (github p) (fun v => u "GitHub: " ++ v)
  ++ when_set (location p) (fun v => u "Location: " ++ v).

(** Line 163 appends the value of [summary] as it is: the item is [None]
    when the key holds [None]. *)
Definition summary_item (p : personal_info) : option pystr :=
  get (summary p) "Experienced professional with a strong background in their field.".

Definition job_dates (j : job) : res (option pystr) :=
  let dates := get (job_start_date j) "Start" in
  match job_end_date j with
  | Text ((_ :: _) as e) => iadd dates (u " to " ++ e)
  | _ => if current j then iadd dates (u " to Present") else Ret dates
  end.

Definition description_lines (d : option description) : list pystr :=
  match d with
  | Some (DescList ((_ :: _) as items)) => [] :: map (fun desc => u "- " ++ desc) items
  | Some (DescText ((_ :: _) as text)) => [[]; u "- " ++ text]
  | _ => []
  end.

Definition job_lines (j : job) : res (list pystr) :=
  dates ← job_dates j;
  Ret ([NL :: u "### " ++ fstr (get (title j) "Position") ++ u " at "
           ++ fstr (get (company j) "Company");
        u "*" ++ fstr dates ++ u "*"]
       ++ when_set (job_location j) (fun v => u "*" ++ v ++ u "*")
       ++ description_lines (job_description j)).

(** [if work_exp:] and the loop over the jobs. *)
Definition work_lines (work_exp : list job) : res (list pystr) :=
  match work_exp with
  | [] => Ret []
  | _ :: _ =>
      jobs ← mapM job_lines work_exp;
      Ret ((NL :: u "## Work Experience") :: concat jobs)
  end.

Definition education_dates (e : education_entry) : res (option pystr) :=
  dates ← match edu_end_date e with
          | Text ((_ :: _) as d) => iadd (get (edu_start_date e) "Start") (u " to " ++ d)
          | _ => Ret (get (edu_start_date e) "Start")
          end;
  match gpa e with
  | Absent => Ret dates
  | g => iadd dates (u " | GPA: " ++ fstr (value g))
  end.

Definition education_lines_of (e : education_entry) : res (list pystr) :=
  dates ← education_dates e;
  Ret [NL :: u "### " ++ fstr (get (degree e) "Degree")
          ++ match field_of_study e with
             | Text ((_ :: _) as f) => u " in " ++ f
             | _ => []
             end;
       fstr (get (institution e) "Institution");
       u "*" ++ fstr dates ++ u "*"].

Definition education_lines (edu : list education_entry) : res (list pystr) :=
  match edu with
  | [] => Ret []
  | _ :: _ =>
      entries ← mapM education_lines_of edu;
      Ret ((NL :: u "## Education") :: concat entries)
  end.

Definition skills_lines (sk : option skill_data) : list pystr :=
  match sk with
  | Some (SkillList ((_ :: _) as items)) => [NL :: u "## Skills"; join (u ", ") items]
  | Some (SkillText ((_ :: _) as text)) => [NL :: u "## Skills"; text]
  | _ => []
  end.

(** The list [lines] when the [try] block reaches its [return]: every item
    is a [str] but the one of line 163. *)
Definition fallback_lines (d : cv_data) : res (list (option pystr)) :=
  work ← work_lines (work_experience d);
  edu ← education_lines (education d);
  Ret (map Some (header_lines (personal d))
       ++ [Some (NL :: u "## Summary"); summary_item (personal d)]
       ++ map Some (work ++ edu ++ skills_lines (skills d))).

(** The items of ["\n".join(lines)], which raises at the first item that is
    no [str]. *)
Fixpoint str_items (pos : nat) (lines : list (option pystr)) : res (list pystr) :=
  match lines with
  | [] => Ret []
  | Some s :: rest => items ← str_items (S pos) rest; Ret (s :: items)
  | None :: _ =>
      Raise (TypeError (u "sequence item " ++ dec pos
                        ++ u ": expected str instance, NoneType found"))
  end.

Definition error_document : pystr :=
  u "# CV Generation Error" ++ [NL; NL]
  ++ u "Unable to generate CV. Please try again later or check your input data.".

(** The [try] block and its [except Exception] clause, which returns the
    error document. *)
Definition _generate_fallback_cv (d : cv_data) : res pystr :=
  try_except
    (lines ← fallback_lines d;
     items ← str_items 0 lines;
     Ret (join [NL] items))
    (fun _ => Ret error_document).

(** *** [_create_docx] *)

(** The document [python-docx] holds: paragraphs with a style, each a list of
    runs.  A heading is a paragraph of style [Heading n]. *)
Inductive docx_style :=
| HeadingStyle (level : nat)
| ListBullet
| NormalStyle.

Record docx_run := Run {
  run_text : pystr;
  run_size : option nat;
  run_bold : bool
}.

Record docx_paragraph := Para {
  p_style : docx_style;
  p_runs : list docx_run
}.

Definition plain_run (text : pystr) : docx_run := Run text None false.

(** [_add_heading]: level 1 is 16pt bold, level 2 is 14pt, level 3 is 12pt. *)
Definition heading_run (text : pystr) (level : nat) : docx_run :=
  match level with
  | 1%nat => Run text (Some 16%nat) true
  | 2%nat => Run text (Some 14%nat) false
  | 3%nat => Run text (Some 12%nat) false
  | _ => plain_run text
  end.

Definition _add_heading (doc : list docx_paragraph) (text : pystr) (level : nat)
  : list docx_paragraph :=
  doc ++ [Para (HeadingStyle level) [heading_run text level]].

(** [paragraph.add_run(text)] on the paragraph at index [i] of the document:
    [current_paragraph] is a reference to a paragraph of the document. *)
Definition add_run (i : nat) (text : pystr) (doc : list docx_paragraph)
  : list docx_paragraph :=
  alter (fun p => Para (p_style p) (p_runs p ++ [plain_run text])) i doc.

Record scan_state := Scan {
  doc : list docx_paragraph;
  current_paragraph : option nat
}.

(** The body of the loop over the lines. *)
Definition docx_line (st : scan_state) (raw : pystr) : scan_state :=
  let line := strip raw in
  match line with
  | [] => Scan (doc st) None
  | _ :: _ =>
      if startswith (u "### ") line then
        Scan (_add_heading (doc st) (List.skipn 4 line) 3) None
      else if startswith (u "## ") line then
        Scan (_add_heading (doc st) (List.skipn 3 line) 2) None
      else if startswith (u "# ") line then
        Scan (_add_heading (doc st) (List.skipn 2 line) 1) None
      else if startswith (u "- ") line then
        match current_paragraph st with
        | None =>
            let i := List.length (doc st) in
            Scan (add_run i (List.skipn 2 line) (doc st ++ [Para ListBullet []]))
                 (Some i)
        | Some i => Scan (add_run i (List.skipn 2 line) (doc st)) (Some i)
        end
      else
        match current_paragraph st with
        | None =>
            let i := List.length (doc st) in
            Scan (add_run i line (doc st ++ [Para NormalStyle []])) (Some i)
        | Some i => Scan (add_run i (SP :: line) (doc st)) (Some i)
        end
  end.

(** The document that [doc.save] writes. *)
Definition _create_docx (markdown_content : pystr) : list docx_paragraph :=
  doc (fold_left docx_line (split NL markdown_content) (Scan [] None)).

(** *** [_create_pdf] *)

Inductive pdf_style :=
| StyleTitle
| StyleHeading2
| StyleHeading3
| StyleNormalSpaced.

Inductive flowable :=
| Paragraph (text : pystr) (style : pdf_style)
| Spacer (width height : nat).

(** The bullet of the PDF lines as the source file has it: the characters
    U+00E2, U+20AC, U+00A2. *)
Definition pdf_bullet : pystr := [226; 8364; 162].

Definition pdf_line (raw : pystr) : list flowable :=
  let line := strip raw in
  match line with
  | [] => [Spacer 1 12]
  | _ :: _ =>
      [ if startswith (u "### ") line then
          Paragraph (u "<b>" ++ List.skipn 4 line ++ u "</b>") StyleHeading3
        else if startswith (u "## ") line then
          Paragraph (u "<u>" ++ List.skipn 3 line ++ u "</u>") StyleHeading2
        else if startswith (u "# ") line then
          Paragraph (List.skipn 2 line) StyleTitle
        else if startswith (u "- ") line then
          Paragraph (pdf_bullet ++ SP :: List.skipn 2 line) StyleNormalSpaced
        else Paragraph line StyleNormalSpaced;
        Spacer 1 6 ]
  end.

(** The list [elements] that [doc.build] lays out. *)
Definition _create_pdf (markdown_content : pystr) : list flowable :=
  flat_map pdf_line (split NL markdown_content).

(** *** [generate_cv] *)

(** A temporary file is named by a fresh identifier and its extension; the
    file system maps the files that exist to their sizes in bytes, and
    [clock] counts the writes and removals done so far. *)
Abbreviation path := (nat * pystr)%type.

Record world := World {
  files : gmap path nat;
  next_uuid : nat;
  clock : nat
}.

(** [get_temp_file(ext)] returns a fresh name and creates nothing. *)
Definition get_temp_file (ext : pystr) (w : world) : path * world :=
  ((next_uuid w, ext), World (files w) (S (next_uuid w)) (clock w)).

Definition set_file (p : path) (size : option nat) (w : world) : world :=
  World (match size with
         | Some n => <[p := n]> (files w)
         | None => delete p (files w)
         end) (next_uuid w) (clock w).

Definition tick (w : world) : world :=
  World (files w) (next_uuid w) (S (clock w)).

(** [not os.path.exists(p) or os.path.getsize(p) == 0] *)
Definition missing_or_empty (p : path) (w : world) : bool :=
  match files w !! p with
  | Some (S _) => false
  | _ => true
  end.

(** A write that fails: [open] raises and the path is left as it was, or
    the write (or the flush when the file is closed) raises and [bytes] bytes
    are in the file. *)
Inductive write_failure :=
| OpenFails (e : exn)
| WriteFails (e : exn) (bytes : nat).

(** The faults of the file system: what goes wrong when the operation
    number [n] is a write to a path, or the removal of a path.  [None]: the
    operation works. *)
Record disk := Disk {
  write_fault : nat -> path -> option write_failure;
  remove_fault : nat -> path -> option exn
}.

(** [UnicodeEncodeError], which derives from [ValueError]: the text has a
    surrogate at [pos]. *)
Definition encode_error (pos : nat) (run : pystr) : exn :=
  ValueError
    (u "'utf-8' codec can't encode "
     ++ match run with
        | [c] => u "character '\u" ++ hex4 c ++ u "' in position " ++ dec pos
        | _ => u "characters in position " ++ dec pos ++ u "-"
               ++ dec (pos + List.length run - 1)
        end
     ++ u ": surrogates not allowed").

(** What writing a document leaves at the output path: a file of some size
    or none, and the exception raised, if any. *)
Record render_outcome := Rendered {
  left_file : option nat;
  raised : option exn
}.

Definition supported (output_format : pystr) : bool :=
  eqs output_format (u "docx") || eqs output_format (u "md")
  || eqs output_format (u "pdf").

Section Driver.

(** [doc.save] of the DOCX document and [doc.build] of the PDF elements. *)
Variable docx_writer : list docx_paragraph -> render_outcome.
Variable pdf_writer : list flowable -> render_outcome.

(** The file system the service runs on. *)
Variable os : disk.

(** [os.remove(p)] *)
Definition remove (p : path) (w : world) : res unit * world :=
  match remove_fault os (clock w) p with
  | Some e => (Raise e, tick w)
  | None => (Ret tt, set_file p None (tick w))
  end.

(** [with open(p, 'w', encoding='utf-8') as f: f.write(content)]: [open]
    creates the file or empties it; [write] encodes the text at once, which
    a value that is no [str] and a surrogate stop before a byte is written;
    the bytes reach the file when it is closed. *)
Definition write_text (p : path) (content : option pystr) (w : world)
  : res unit * world :=
  match write_fault os (clock w) p with
  | Some (OpenFails e) => (Raise e, tick w)
  | fault =>
      match content with
      | None =>
          (Raise (TypeError (u "write() argument must be str, not None")),
           set_file p (Some 0%nat) (tick w))
      | Some s =>
          match surrogates_at 0 s with
          | Some (pos, run) =>
              (Raise (encode_error pos run), set_file p (Some 0%nat) (tick w))
          | None =>
              match fault with
              | Some (WriteFails e bytes) =>
                  (Raise e, set_file p (Some bytes) (tick w))
              | _ => (Ret tt, set_file p (Some (utf8_len s)) (tick w))
              end
          end
      end
  end.

Definition run_writer (o : render_outcome) (p : path) (w : world)
  : res unit * world :=
  (match raised o with Some e => Raise e | None => Ret tt end,
   set_file p (left_file o) w).

(** Lines 83-89. *)
Definition render (output_format : pystr) (markdown_content : option pystr)
    (p : path) (w : world) : res unit * world :=
  if eqs output_format (u "docx") || eqs output_format (u "pdf") then
    match markdown_content with
    | None =>
        (Raise (AttributeError (u "'NoneType' object has no attribute 'split'")), w)
    | Some md =>
        if eqs output_format (u "docx")
        then run_writer (docx_writer (_create_docx md)) p w
        else run_writer (pdf_writer (_create_pdf md)) p w
    end
  else write_text p markdown_content w.

(** Lines 100-105: the output file of the failed render is removed when it
    exists; an [Exception] of the removal is logged and [output_file] keeps
    its value. *)
Definition remove_failed_output (out : path) (w : world)
  : res unit * world * option path :=
  match files w !! out with
  | Some _ =>
      match remove out w with
      | (Ret _, w) => (Ret tt, w, None)
      | (Raise e, w) => (if is_Exception e then Ret tt else Raise e, w, Some out)
      end
  | None => (Ret tt, w, Some out)
  end.

(** Lines 78-115: the result, the file system, and the variable
    [output_file] as the [finally] clause will see it. *)
Definition render_with_fallback (output_format : pystr)
    (markdown_content : option pystr) (w : world)
  : res path * world * option path :=
  let '(out, w) := get_temp_file (u "." ++ output_format) w in
  let '(r, w) := render output_format markdown_content out w in
  let checked : res path :=
    _ ← r;
    if missing_or_empty out w
    then Raise (RuntimeError (u "Failed to generate " ++ output_format
                              ++ u " file: Output file is empty or not created"))
    else Ret out in
  match checked with
  | Ret p => (Ret p, w, Some out)
  | Raise format_error =>
      if is_Exception format_error then
        let '(removed, w, output_file) := remove_failed_output out w in
        match removed with
        | Raise e => (Raise e, w, output_file)
        | Ret _ =>
            if negb (eqs output_format (u "md")) then
              let '(md, w) := get_temp_file (u ".md") w in
              let '(written, w) := write_text md markdown_content w in
              (_ ← written; Ret md, w, Some md)
            else
              (Raise (RuntimeError (u "Failed to generate CV: "
                                    ++ str_exn format_error)),
               w, output_file)
        end
      else (Raise format_error, w, Some out)
  end.

(** The [finally] clause: a file of zero bytes is removed; an [Exception]
    of the removal is logged, and what is no [Exception] replaces the result
    of the call. *)
Definition finally_cleanup (output_file : option path) (w : world)
  : option exn * world :=
  match output_file with
  | Some p =>
      match files w !! p with
      | Some O =>
          match remove p w with
          | (Ret _, w) => (None, w)
          | (Raise e, w) => (if is_Exception e then None else Some e, w)
          end
      | _ => (None, w)
      end
  | None => (None, w)
  end.

(** The two outer handlers. *)
Definition outer_handlers (r : res path) : res path :=
  match r with
  | Ret p => Ret p
  | Raise e =>
      if is_TimeoutError e then
        Raise (RuntimeError
          (u "Failed to generate CV: CV generation timed out. "
           ++ u "Please try again with a smaller CV or different format."))
      else if is_Exception e then
        Raise (RuntimeError (u "Failed to generate CV: " ++ str_exn e))
      else Raise e
  end.

(** [ai] is what [await asyncio.wait_for(self.groq_client.generate_cv(cv_data),
    timeout=90)] does. *)
Definition generate_cv (ai : res (option pystr)) (cv : cv_data)
    (output_format : pystr) (w : world) : res path * world :=
  if negb (supported output_format) then
    (Raise (ValueError (u "Unsupported output format: " ++ output_format
                        ++ u ". Must be 'docx', 'md', or 'pdf'.")), w)
  else
    let markdown_content : res (option pystr) :=
      match ai with
      | Ret c => Ret c
      | Raise e =>
          if is_Exception e then md ← _generate_fallback_cv cv; Ret (Some md)
          else Raise e
      end in
    match markdown_content with
    | Raise e => (outer_handlers (Raise e), w)
    | Ret md =>
        let '(r, w, output_file) := render_with_fallback output_format md w in
        let '(escaped, w) := finally_cleanup output_file w in
        (match escaped with Some e => Raise e | None => outer_handlers r end, w)
    end.

End Driver.

(** *** What is counted in a document *)

(** The lines of a markdown text as the renderers read them. *)
Definition stripped_lines (markdown : pystr) : list pystr :=
  map strip (split NL markdown).

(** The section headings of a document: its [## ] lines. *)
Definition section_headings (markdown : pystr) : list pystr :=
  List.filter (startswith (u "## ")) (stripped_lines markdown).

(** The headings of a level in a DOCX document, and its list elements: the
    number of runs of each [List Bullet] paragraph. *)
Definition docx_headings (level : nat) (d : list docx_paragraph) : nat :=
  List.length
    (List.filter (fun p => match p_style p with
                           | HeadingStyle l => (l =? level)%nat
                           | _ => false
                           end) d).

Definition docx_lists (d : list docx_paragraph) : list nat :=
  map (fun p => List.length (p_runs p))
    (List.filter (fun p => match p_style p with
                           | ListBullet => true
                           | _ => false
                           end) d).

(** The paragraphs of a style among the PDF elements, and the paragraphs that
    start with the bullet. *)
Definition pdf_paragraphs (st : pdf_style) (els : list flowable) : nat :=
  List.length
    (List.filter (fun f => match f, st with
                           | Paragraph _ StyleTitle, StyleTitle
                           | Paragraph _ StyleHeading2, StyleHeading2
                           | Paragraph _ StyleHeading3, StyleHeading3
                           | Paragraph _ StyleNormalSpaced, StyleNormalSpaced => true
                           | _, _ => false
                           end) els).

Definition pdf_bullets (els : list flowable) : nat :=
  List.length
    (List.filter (fun f => match f with
                           | Paragraph t StyleNormalSpaced =>
                               startswith (pdf_bullet ++ [SP]) t
                           | _ => false
                           end) els).

(** How the scanners read a line, after [strip()]. *)
Inductive kind :=
| KBlank
| KHeading (level : nat)
| KBullet
| KText.

Definition classify (raw : pystr) : kind :=
  let line := strip raw in
  match line with
  | [] => KBlank
  | _ :: _ =>
      if startswith (u "### ") line then KHeading 3
      else if startswith (u "## ") line then KHeading 2
      else if startswith (u "# ") line then KHeading 1
      else if startswith (u "- ") line then KBullet
      else KText
  end.

Definition is_heading (level : nat) (raw : pystr) : bool :=
  match classify raw with KHeading l => (l =? level)%nat | _ => false end.

Definition is_bullet (raw : pystr) : bool :=
  match classify raw with KBullet => true | _ => false end.

(** A blank line or a heading closes the open paragraph. *)
Definition closes (raw : pystr) : bool :=
  match classify raw with KBlank | KHeading _ => true | _ => false end.

(** The lines before a list leave no paragraph open, and the line after it
    does not go on with text. *)
Definition ends_closed (lines : list pystr) : bool :=
  from_option closes true (last lines).

Definition starts_closed (lines : list pystr) : bool :=
  from_option closes true (head lines).

(** A line of text that shows as a bullet in the PDF: it starts with the
    bullet characters itself. *)
Definition looks_like_bullet (raw : pystr) : bool :=
  match classify raw with
  | KText => startswith (pdf_bullet ++ [SP]) (strip raw)
  | _ => false
  end.

(** The scan of a list of lines. *)
Definition docx_of_lines (lines : list pystr) : list docx_paragraph :=
  doc (fold_left docx_line lines (Scan [] None)).

(** The states the DOCX scan goes through: the open paragraph, if any, is
    the last one of the document, a list or a text paragraph. *)
Definition open_as (st : scan_state) (style : docx_style) : Prop :=
  exists d p, doc st = d ++ [p] /\ current_paragraph st = Some (List.length d)
              /\ p_style p = style.

Definition well_formed_scan (st : scan_state) : Prop :=
  current_paragraph st = None \/ open_as st ListBullet \/ open_as st NormalStyle.

Definition no_list_open (st : scan_state) : Prop :=
  current_paragraph st = None \/ open_as st NormalStyle.

(** *** Sample inputs *)

(** CV data with education and skills and no work experience. *)
Definition graduate_cv : cv_data :=
  CvData
    (PersonalInfo (Text (u "Jane Doe")) (Text (u "jane@example.org")) Absent
       Absent Absent Absent Absent)
    []
    [Education (Text (u "BSc")) (Text (u "Example University"))
       (Text (u "Physics")) (Text (u "2019")) (Text (u "2022")) Absent]
    (Some (SkillList [u "Python"; u "SQL"])).

(** What [request.model_dump()] gives for a request with a name, an e-mail
    address and skills, and nothing else: every optional field is there and
    holds [None]. *)
Definition request_dump : cv_data :=
  CvData
    (PersonalInfo (Text (u "Jane Doe")) (Text (u "jane@example.org")) IsNone
       IsNone IsNone IsNone IsNone)
    [] [] (Some (SkillList [u "Python"; u "SQL"])).

(** The same request with a summary. *)
Definition request_with_summary : cv_data :=
  CvData
    (PersonalInfo (Text (u "Jane Doe")) (Text (u "jane@example.org")) IsNone
       IsNone IsNone IsNone (Text (u "Physicist.")))
    [] [] (Some (SkillList [u "Python"; u "SQL"])).

(** A CV in the layout the client's prompt asks the model for, where the
    bullets follow the line of dates: one [# ] line, one [## ] line, a line
    of text, three [- ] lines. *)
Definition dated_cv : pystr :=
  u "# Jane Doe" ++ NL :: u "## Experience" ++ NL :: u "Acme, 2020 - 2024"
  ++ NL :: u "- Built X" ++ NL :: u "- Led Y" ++ NL :: u "- Ran Z".

(** The same document with a blank line before the bullets. *)
Definition spaced_cv : pystr :=
  u "# Jane Doe" ++ NL :: u "## Experience" ++ NL :: u "Acme, 2020 - 2024"
  ++ NL :: NL :: u "- Built X" ++ NL :: u "- Led Y" ++ NL :: u "- Ran Z".

(** A writer that raises and leaves no file, and one that writes a file. *)
Definition failing_writer {A} : A -> render_outcome :=
  fun _ => Rendered None (Some (OtherError (u "No space left on device"))).

Definition working_writer {A} : A -> render_outcome :=
  fun _ => Rendered (Some 2048%nat) None.

Definition empty_world : world := World ∅ 0 0.

(** A file system without faults, and one where no file can be removed. *)
Definition reliable : disk := Disk (fun _ _ => None) (fun _ _ => None).

Definition sticky : disk :=
  Disk (fun _ _ => None) (fun _ _ => Some (OtherError (u "Permission denied"))).

(** A file system that is full: every write fails with four bytes in the
    file. *)
Definition full_disk : disk :=
  Disk (fun _ _ => Some (WriteFails (OtherError (u "No space left on device")) 4))
       (fun _ _ => None).

End CVGenerator.

(** ** [groq_client.py]: the methods that generate text *)

Module GroqGenerators.
Import GroqClient CVGenerator.

(** The seconds that a trace spends in [asyncio.sleep]. *)
Definition slept (trace : list event) : nat :=
  fold_right (fun ev n => match ev with ESleep s => (s + n)%nat | _ => n end) 0%nat trace.

(** A pause of the retry loop. *)
Definition is_sleep (ev : event) : bool :=
  match ev with ESleep _ => true | _ => false end.

(** The trace of [k] failed attempts: each request and the pause after it. *)
Definition failed_attempts (k : nat) : list event :=
  flat_map (fun j => [ERequest j; ESleep (retry_delay * (j + 1))]) (seq 0 k).

(** A transport that fails once and then answers. *)
Definition answers_second : nat -> wait_outcome :=
  fun n => match n with
           | O => WaitRaised (OtherError (u "Connection error.")) true
           | _ => Completed (Choices [Some (u "  Dear team,  ")])
           end.

Section Generators.

(** The prompts go out with the request; nothing of the result is computed
    from them. *)
Variable cover_letter_prompt : pystr -> pystr -> pystr -> pystr.
Variable portfolio_prompt : pystr -> list pystr -> pystr.
Variable portfolio_system_prompt : pystr.
Variable cv_prompt : cv_data -> pystr.
Variable cv_system_prompt : pystr.

(** *** [generate_cover_letter] *)


(** *** [generate_portfolio]: the second definition of the class body, which
    is the one the class keeps *)

Definition k_message := u "message".
Definition k_details := u "details".

Definition portfolio_error (e : exn) : pydict :=
  <[k_status := VStr (u "error")]>
  (<[k_message := VStr (str_exn e)]>
  (<[k_details := VStr (u "Failed to generate portfolio content")]> ∅)).

(** [response and 'choices' in response and len(response['choices']) > 0]
    on what [_make_request] returns, a [str] or [None]: on a [str], [in] is
    the substring test and [response['choices']] raises [TypeError], so the
    branch that builds the result of a success is never entered. *)
Definition portfolio_content (response : option pystr) : res pydict :=
  match response with
  | Some ((_ :: _) as s) =>
      if contains (u "choices") s
      then Raise (TypeError (u "string indices must be integers, not 'str'"))
      else Raise (ValueError (u "Failed to generate portfolio content"))
  | _ => Raise (ValueError (u "Failed to generate portfolio content"))
  end.

Definition generate_portfolio (configured : bool) (api : nat -> wait_outcome)
    (resume_text : pystr) (sections : list pystr) : res pydict * list event :=
  if negb configured then
    (Raise (RuntimeError (u "Groq client is not properly configured")), [])
  else
    let '(r, trace) :=
      _make_request configured api
        [Message (Some (u "system")) (Some portfolio_system_prompt);
         Message (Some (u "user")) (Some (portfolio_prompt resume_text sections))] in
    (try_except (response ← r; portfolio_content response)
       (fun e => Ret (portfolio_error e)),
     trace).

(** *** [_format_simple_cv] *)

(** One job: the heading, the dates when one of the two keys is there, the
    description.  Nothing ends the last line of the description. *)
Definition simple_job (exp : job) : pystr :=
  u "### " ++ fstr (get (title exp) "Position") ++ u " at "
  ++ fstr (get (company exp) "Company") ++ [NL]
  ++ (if has_key (job_start_date exp) || has_key (job_end_date exp) then
        fstr (get (job_start_date exp) "") ++ u " - "
        ++ fstr (get (job_end_date exp) (if current exp then "Present" else ""))
        ++ [NL; NL]
      else [])
  ++ match job_description exp with
     | Some (DescList items) =>
         join [NL] (map (fun item => u "- " ++ item)
                      (List.filter (fun item => match item with
                                                | [] => false
                                                | _ :: _ => true
                                                end) items))
     | Some (DescText text) => u "- " ++ text
     | None => []
     end.

Definition simple_education (edu : education_entry) : pystr :=
  u "### " ++ fstr (get (degree edu) "Degree") ++ [NL]
  ++ (if has_key (institution edu) then fstr (value (institution edu)) ++ [NL]
      else [])
  ++ (if has_key (edu_start_date edu) || has_key (edu_end_date edu) then
        fstr (get (edu_start_date edu) "") ++ u " - "
        ++ fstr (get (edu_end_date edu) "") ++ [NL]
      else [])
  ++ (if has_key (gpa edu) then u "GPA: " ++ fstr (value (gpa edu)) ++ [NL]
      else []).

(** [", ".join(skills)]: the items of a list, the characters of a [str]. *)
Definition simple_skills (sk : option skill_data) : pystr :=
  match sk with
  | Some (SkillList items) => join (u ", ") items
  | Some (SkillText text) => join (u ", ") (map (fun c => [c]) text)
  | None => []
  end.

(** The first block.  [portfolio] is the key ['portfolio'] of
    [personal_info], which the fallback CV of [CVGenerator] does not read. *)
Definition simple_personal (portfolio : field) (p : personal_info) : pystr :=
  u "# Personal Information" ++ [NL]
  ++ u "Name: " ++ fstr (get (name p) "") ++ [NL]
  ++ u "Email: " ++ fstr (get (email p) "") ++ [NL]
  ++ u "Phone: " ++ fstr (get (phone p) "") ++ [NL]
  ++ u "Location: " ++ fstr (get (location p) "") ++ [NL]
  ++ u "LinkedIn: " ++ fstr (get (linkedin p) "") ++ [NL]
  ++ u "Portfolio: " ++ fstr (get portfolio "") ++ [NL].

Definition _format_simple_cv (portfolio : field) (cv : cv_data) : pystr :=
  simple_personal portfolio (personal cv)
  ++ (NL :: u "# Work Experience" ++ [NL])
  ++ concat (map simple_job (work_experience cv))
  ++ (NL :: u "# Education" ++ [NL])
  ++ concat (map simple_education (education cv))
  ++ (NL :: u "# Skills" ++ [NL])
  ++ simple_skills (skills cv).

(** *** [generate_cv] *)

Definition generate_cv (configured : bool) (api : nat -> wait_outcome)
    (portfolio : field) (cv : cv_data) : res (option pystr) * list event :=
  if negb configured then
    (Raise (RuntimeError (u "Groq client is not available")), [])
  else
    let '(r, trace) :=
      _make_request configured api
        [Message (Some (u "system")) (Some cv_system_prompt);
         Message (Some (u "user")) (Some (cv_prompt cv))] in
    (try_except r (fun _ => Ret (Some (_format_simple_cv portfolio cv))), trace).

End Generators.

(** The first answer of a transport: the content of the first choice of the
    first attempt that does not fail. *)
Definition answer_of (o : wait_outcome) : option (option pystr) :=
  match o with
  | Completed (Choices (c :: _)) => Some c
  | _ => None
  end.

End GroqGenerators.

(** ** [optimizer.py]: [ResumeOptimizer.get_ats_score] *)

Module AtsScore.
Import GroqClient.

(** [NameError] derives from [Exception]. *)
Definition NameError (msg : pystr) : exn := OtherError msg.

(** The client the service was built with: [enabled], the truth value of
    [client], and what the API does in each attempt. *)
Record client := Client {
  enabled : bool;
  has_client : bool;
  api : nat -> wait_outcome
}.

(** The names that the module [optimizer.py] binds: it imports [logging],
    five names of [typing] and [GroqClient], and defines [logger],
    [ResumeOptimizer] and [resume_optimizer].  The name [json] is not among
    them (and is no builtin): evaluating it raises [NameError]. *)
Definition optimizer_globals : list pystr :=
  [u "logging"; u "Dict"; u "Any"; u "Tuple"; u "List"; u "GroqClient";
   u "logger"; u "ResumeOptimizer"; u "resume_optimizer"].

Definition global_name (name : pystr) : res unit :=
  if existsb (eqs name) optimizer_globals then Ret tt
  else Raise (NameError (u "name '" ++ name ++ u "' is not defined")).

Definition ats_unavailable : pydict :=
  <[k_score := zero_score]>
  (<[k_suggestions := VList [VStr (u "ATS scoring service is not available")]]>
  (<[k_status := VStr (u "error")]>
  (<[k_error := VStr (u "ATS scoring service is not available")]> ∅))).

Definition ats_unparsable : pydict :=
  <[k_score := VInt 0]>
  (<[k_suggestions := VList [VStr (u "Could not parse ATS feedback")]]>
  (<[k_missing_keywords := VList []]>
  (<[k_status := VStr (u "error")]>
  (<[k_error := VStr (u "Invalid response format from AI")]> ∅)))).

Definition ats_failure (e : exn) : pydict :=
  <[k_score := VInt 0]>
  (<[k_suggestions := VList [VStr (u "Error during ATS analysis. Please try again.")]]>
  (<[k_missing_keywords := VList []]>
  (<[k_status := VStr (u "error")]>
  (<[k_error := VStr (str_exn e)]> ∅)))).

(** [result.get(key, default)] *)
Definition result_get (result : pyval) (key : pystr) (dflt : pyval) : res pyval :=
  match result with
  | VDict d => Ret (default dflt (d !! key))
  | v => Raise (AttributeError (u "'" ++ type_name v
                                ++ u "' object has no attribute 'get'"))
  end.

Section Ats.

(** What [json.loads] would do, were the name bound. *)
Variable json_loads : pystr -> res pyval.

(** The system prompt and the prompt go out with the request. *)
Variable ats_system_prompt : pystr.
Variable ats_prompt : pystr -> pystr.

(** The inner [try]: [json.loads(response)] starts by evaluating the name
    [json], and so does the clause [except json.JSONDecodeError] when the
    body has raised. *)
Definition read_ats_answer (response : option pystr) : res pydict :=
  match (_ ← global_name (u "json");
         result ← match response with
                  | Some r => json_loads r
                  | None => Raise (TypeError
                      (u "the JSON object must be str, bytes or bytearray, not NoneType"))
                  end;
         score ← result_get result k_score (VInt 0);
         suggestions ← result_get result k_suggestions (VList []);
         missing ← result_get result k_missing_keywords (VList []);
         Ret (<[k_score := score]>
              (<[k_suggestions := suggestions]>
              (<[k_missing_keywords := missing]>
              (<[k_status := VStr (u "success")]> ∅))))) with
  | Ret d => Ret d
  | Raise e =>
      _ ← global_name (u "json");
      match e with
      | JSONDecodeError _ => Ret ats_unparsable
      | _ => Raise e
      end
  end.

(** [groq_client] is [None] when the service was built without a client. *)
Definition get_ats_score (groq_client : option client) (resume_text : pystr)
  : res pydict :=
  match groq_client with
  | None => Ret ats_unavailable
  | Some c =>
      if negb (enabled c) then Ret ats_unavailable
      else
        try_except
          (response ←
             fst (_make_request (enabled c && has_client c) (api c)
                    [Message (Some (u "system")) (Some ats_system_prompt);
                     Message (Some (u "user")) (Some (ats_prompt resume_text))]);
           read_ats_answer response)
          (fun e => Ret (ats_failure e))
  end.

End Ats.

(** A decoder that accepts every text as an object with a score, and a
    client whose API answers at once. *)
Definition eager_loads (s : pystr) : res pyval :=
  Ret (VDict (<[k_score := VInt 90]> ∅)).

Definition answering_client : client :=
  Client true true (fun _ => Completed (Choices [Some (u "{}")])).

(** A result of the client with seven suggestions and the lists of keywords,
    and what the service makes of it. *)
Definition seven_suggestions : pydict :=
  <[k_optimized_text := VStr (u "Better resume")]>
  (<[k_score := VInt 85]>
  (<[k_suggestions := VList (map (fun n => VStr [48 + n]) [1; 2; 3; 4; 5; 6; 7])]>
  (<[k_keywords_matched := VList [VStr (u "python")]]>
  (<[k_missing_keywords := VList [VStr (u "sql")]]>
  (<[k_status := VStr (u "success")]> ∅))))).

Definition service_seven : pydict :=
  <[k_optimized_text := VStr (u "Better resume")]>
  (<[k_score := VFloat (FFin (inject_Z 85))]>
  (<[k_suggestions := VList (map (fun n => VStr [48 + n]) [1; 2; 3; 4; 5])]>
  (<[k_status := VStr (u "success")]> ∅))).

End AtsScore.

(** ** DOCX text: [resume_parser.extract_text_from_docx] and
    [ResumeProcessor._extract_text_from_docx] *)

Module DocxText.

(** [document] is what [docx.Document(file_path)] gives: the texts of the
    paragraphs, or the exception of a file that cannot be opened. *)

(** [resume_parser.extract_text_from_docx]: the paragraphs with text, joined
    by newlines; [None] stands for a failed extraction. *)
Definition extract_text_from_docx (has_required_deps : bool)
    (document : res (list pystr)) : res (option pystr) :=
  if negb has_required_deps then Ret None
  else
    try_except
      (paragraphs ← document;
       Ret (Some (join [NL]
                    (List.filter (fun text => match text with
                                              | [] => false
                                              | _ :: _ => true
                                              end) paragraphs))))
      (fun _ => Ret None).

(** [ResumeProcessor._extract_text_from_docx]: all the paragraphs; the
    [except] clause logs and raises again. *)
Definition _extract_text_from_docx (document : res (list pystr)) : res pystr :=
  paragraphs ← document;
  Ret (join [NL] paragraphs).

(** No line break inside the text of a paragraph. *)
Definition one_line (text : pystr) : bool :=
  forallb (fun c => negb (c =? NL)) text.

(** The lines of the text that joins [paragraphs]: the paragraphs, or the one
    empty line of the empty text when there is none. *)
Definition lines_of (paragraphs : list pystr) : list pystr :=
  match paragraphs with
  | [] => [[]]
  | _ :: _ => paragraphs
  end.

Definition letter_paragraphs : list pystr :=
  [u "Jane Doe"; []; u "Engineer"; []; []; u "Python, SQL"].

End DocxText.

(** ** [resume_processor.py]: from the file to the analysis *)

Module ResumeAnalysis.
Import ResumeProcessor GroqClient DocxText.

(** [FileNotFoundError] derives from [Exception]. *)
Definition FileNotFoundError (msg : pystr) : exn := OtherError msg.

(** A file as the service meets it: its path, whether it exists, what the
    PDF reader, the DOCX reader and reading it as text do, and what
    [_get_file_stats] returns. *)
Record resume_file := ResumeFile {
  file_path : pystr;
  on_disk : bool;
  pdf_reader : res (list page);
  docx_document : res (list pystr);
  text_content : res pystr;
  file_stats : pydict
}.

(** [not file_path or not os.path.exists(file_path)] *)
Definition missing (f : resume_file) : bool :=
  match file_path f with
  | [] => true
  | _ :: _ => negb (on_disk f)
  end.

(** [not text or not text.strip()] *)
Definition blank (text : pystr) : bool :=
  match strip text with [] => true | _ :: _ => false end.

Definition extension_map : list (pystr * pystr) :=
  [(u ".pdf", u "application/pdf");
   (u ".doc", u "application/msword");
   (u ".docx",
    u "application/vnd.openxmlformats-officedocument.wordprocessingml.document");
   (u ".txt", u "text/plain");
   (u ".rtf", u "application/rtf");
   (u ".odt", u "application/vnd.oasis.opendocument.text")].

(** [d.get(key)] on a dictionary written as the list of its items. *)
Fixpoint assoc (key : pystr) (items : list (pystr * pystr)) : option pystr :=
  match items with
  | [] => None
  | (k, v) :: rest => if eqs k key then Some v else assoc key rest
  end.

Definition k_file_info := u "file_info".
Definition k_content := u "content".
Definition k_analysis := u "analysis".

Definition error_result (error_msg : pystr) : pydict := {[ k_error := VStr error_msg ]}.

(** The method [_basic_text_extraction] that [_analyze_with_ai] calls in its
    handlers is defined nowhere: the attribute lookup raises. *)
Definition _basic_text_extraction {A} : res A :=
  Raise (AttributeError
           (u "'ResumeProcessor' object has no attribute '_basic_text_extraction'")).

(** The placeholders of the basic extraction. *)
Definition _extract_contact_info (text : pystr) : pyval :=
  VDict (<[u "email" := VStr []]> (<[u "phone" := VStr []]>
        (<[u "linkedin" := VStr []]> ∅))).

(** The first three sentences; [split] never gives an empty list, so the
    empty summary of the [else] is never returned. *)
Definition _extract_summary (text : pystr) : pystr :=
  match split 46 text with
  | [] => []
  | sentences => strip (join (u ". ") (List.firstn 3 sentences)) ++ [46]
  end.

(** The full stops of a text. *)
Definition full_stops (s : pystr) : nat :=
  List.length (List.filter (N.eqb 46) s).

Definition _extract_experience (text : pystr) : pyval :=
  VList [VDict (<[u "title" := VStr (u "Software Engineer")]>
               (<[u "company" := VStr (u "Example Inc.")]>
               (<[u "duration" := VStr (u "2020-Present")]> ∅)))].

Definition _extract_education (text : pystr) : pyval :=
  VList [VDict (<[u "degree" := VStr (u "B.S. Computer Science")]>
               (<[u "institution" := VStr (u "University of Example")]> ∅))].

Definition _extract_projects (text : pystr) : pyval :=
  VList [VDict (<[u "name" := VStr (u "Portfolio Website")]>
               (<[u "description" := VStr (u "A personal portfolio website")]> ∅))].

Definition common_skills : list (pystr * list pystr) :=
  [(u "languages", [u "Python"; u "JavaScript"; u "SQL"]);
   (u "technologies", [u "Docker"; u "AWS"; u "FastAPI"]);
   (u "tools", [u "Git"; u "VS Code"])].

Section Analysis.

(** The library: [str.lower], [mimetypes.guess_type(path)[0]],
    [Path(path).suffix], [template.format(text=value)] and [json.loads]. *)
Variable lower : pystr -> pystr.
Variable guess_type : pystr -> option pystr.
Variable suffix : pystr -> pystr.
Variable str_format : pystr -> pystr -> res pystr.
Variable json_loads : pystr -> res pyval.

(** The module-level client: whether it is configured and what its API
    does. *)
Variable configured : bool.
Variable api : nat -> wait_outcome.

(** The f-string of the prompt and the system prompt. *)
Variable analysis_prompt : pystr -> pystr.
Variable analysis_system_prompt : pystr.

Definition _get_file_type (path : pystr) : pystr :=
  let ext := lower (suffix path) in
  match guess_type path with
  | Some ((_ :: _) as mime_type) => mime_type
  | _ => default (u "application/octet-stream") (assoc ext extension_map)
  end.

(** The outer [except Exception] returns the empty text; the bare [except]
    of the last branch catches whatever reading the file raises. *)
Definition _extract_text (f : resume_file) (file_type : pystr) : res pystr :=
  try_except
    (if missing f then
       Raise (FileNotFoundError (u "File not found: " ++ file_path f))
     else if contains (u "pdf") (lower file_type) then
       _extract_text_from_pdf (pdf_reader f)
     else if contains (u "msword") (lower file_type)
             || contains (u "wordprocessingml") (lower file_type) then
       _extract_text_from_docx (docx_document f)
     else if contains (u "text/plain") (lower file_type) then
       text_content f
     else
       match text_content f with
       | Ret text => Ret text
       | Raise _ => Raise (ValueError (u "Unsupported file type: " ++ file_type))
       end)
    (fun _ => Ret []).

Definition _extract_skills (text : pystr) : pyval :=
  VDict (list_to_map
           (map (fun kv => (fst kv, VList (map VStr (snd kv))))
              (List.filter
                 (fun kv => existsb (fun skill => contains (lower skill) (lower text))
                              (snd kv))
                 common_skills))).

Definition _extract_basic_info (text : pystr) : pyval :=
  VDict (<[u "personal_info" := _extract_contact_info text]>
        (<[u "summary" := VStr (_extract_summary text)]>
        (<[u "work_experience" := _extract_experience text]>
        (<[u "education" := _extract_education text]>
        (<[u "skills" := _extract_skills text]>
        (<[u "projects" := _extract_projects text]> ∅)))))).

(** The inner [try] body: a [str] answer is searched for a fenced block and
    decoded; an answer that is no [str] is taken as it is. *)
Definition read_analysis (response : option pystr) : res pyval :=
  result ← match response with
           | Some r => json_loads (default r (search_fence r))
           | None => Ret VNone
           end;
  match result with
  | VDict _ => Ret result
  | _ => Raise (ValueError (u "Expected a dictionary response"))
  end.

Definition _analyze_with_ai (text : pystr) : res pyval :=
  if blank text then Ret (_extract_basic_info [])
  else
    try_except
      (user_prompt ← str_format (analysis_prompt text) (List.firstn (N.to_nat 10000) text);
       response ←
         fst (_make_request configured api
                [Message (Some (u "system")) (Some analysis_system_prompt);
                 Message (Some (u "user")) (Some user_prompt)]);
       match read_analysis response with
       | Ret result => Ret result
       | Raise e => if is_ValueError e then _basic_text_extraction else Raise e
       end)
      (fun _ => _basic_text_extraction).

(** [any(supported in file_type.lower() for supported in [...])] *)
Definition supported_type (file_type : pystr) : bool :=
  existsb (fun supported => contains supported (lower file_type))
    [u "pdf"; u "msword"; u "wordprocessingml"; u "text/plain"].

Definition process_resume (f : resume_file) : res pydict :=
  if missing f then Ret (error_result (u "File not found: " ++ file_path f))
  else
    try_except
      (let file_type := _get_file_type (file_path f) in
       if negb (supported_type file_type) then
         Ret (error_result (u "Unsupported file type: " ++ file_type))
       else
         text ← _extract_text f file_type;
         if blank text then
           Ret (error_result (u "No text could be extracted from the file: "
                              ++ file_path f))
         else
           let text := _clean_extracted_text text in
           analysis ← _analyze_with_ai text;
           Ret (<[k_file_info := VDict (file_stats f)]>
                (<[k_content := VStr text]>
                (<[k_analysis := analysis]> ∅))))
      (fun e => Ret (error_result (u "Error processing resume " ++ file_path f
                                   ++ u ": " ++ str_exn e))).

End Analysis.

(** A PDF of two pages on disk, an API that answers with a fenced object,
    and a library that decodes this answer only. *)
Definition two_page_pdf : resume_file :=
  ResumeFile (u "cv.pdf") true
    (Ret [PageText (u "JANE  DOE"); PageText (u "Engineer")])
    (Raise (OtherError (u "File is not a zip file")))
    (Raise (OtherError (u "invalid start byte")))
    ∅.

Definition ascii_lower (s : pystr) : pystr :=
  map (fun c => if (65 <=? c) && (c <=? 90) then c + 32 else c) s.

Definition pdf_by_name (path : pystr) : option pystr := Some (u "application/pdf").

Definition fenced_object : pystr := fenced (u "```json") (u "{}").

Definition object_api : nat -> wait_outcome :=
  fun _ => Completed (Choices [Some fenced_object]).

Definition plain_format (template value : pystr) : res pystr := Ret template.

End ResumeAnalysis.

(** ** What is counted in the documents and in the file system *)

Module CVObservations.
Import CVGenerator.






(** No file bears a name that [get_temp_file] has yet to give out. *)
Definition fresh (w : world) : Prop :=
  forall n ext, (next_uuid w <= n)%nat -> files w !! (n, ext) = None.

End CVObservations.

(** ** PDF pages with text *)

Module PdfPages.
Import ResumeProcessor.

(** A page that yields text. *)
Definition has_text (p : page) : bool :=
  match p with PageText (_ :: _) => true | _ => false end.

(** Two pages of text, the second with white space at its end. *)
Definition text_pages : list page :=
  [PageText (u "  Jane Doe"); PageText (u "Engineer " ++ [NL])].

End PdfPages.

(** ** [portfolio_builder.py]: the calls of [_make_request] *)

Module PortfolioBuilder.
Import GroqClient GroqGenerators.

Definition k_section := u "section".
Definition k_suggested_sections := u "suggested_sections".

Definition builder_error (message : pystr) : pydict :=
  <[k_status := VStr (u "error")]> (<[k_message := VStr message]> ∅).

(** [not response or 'content' not in response] on what [_make_request]
    returns, a [str] or [None]: [in] is the substring test. *)
Definition lacks_content (response : option pystr) : bool :=
  match response with
  | Some ((_ :: _) as s) => negb (contains (u "content") s)
  | _ => true
  end.

(** [response['content']]: a [str] is indexed by integers only. *)
Definition content_of (response : option pystr) : res pyval :=
  match response with
  | Some _ => Raise (TypeError (u "string indices must be integers, not 'str'"))
  | None => Raise (TypeError (u "'NoneType' object is not subscriptable"))
  end.

Section Builder.

Variable json_loads : pystr -> res pyval.
Variable ai_system_prompt : pystr.

(** [prompt] is what building the prompt gives ([json.dumps] of the resume
    data is part of it). *)
Definition enhance_content (configured : bool) (api : nat -> wait_outcome)
    (prompt : res pystr) (section : pystr) : res pydict :=
  try_except
    (user_prompt ← prompt;
     response ←
       fst (_make_request configured api
              [Message (Some (u "system")) (Some ai_system_prompt);
               Message (Some (u "user")) (Some user_prompt)]);
     if lacks_content response then
       Ret (builder_error (u "Failed to generate enhanced content"))
     else
       enhanced ← content_of response;
       Ret (<[k_status := VStr (u "success")]>
            (<[u "content" := enhanced]> (<[k_section := VStr section]> ∅))))
    (fun e => Ret (builder_error (str_exn e))).

Definition suggest_sections (configured : bool) (api : nat -> wait_outcome)
    (prompt : res pystr) : res pydict :=
  try_except
    (user_prompt ← prompt;
     response ←
       fst (_make_request configured api
              [Message (Some (u "system")) (Some ai_system_prompt);
               Message (Some (u "user")) (Some user_prompt)]);
     if lacks_content response then
       Ret (builder_error (u "Failed to generate section suggestions"))
     else
       match (text ← content_of response;
              sections ← match text with
                         | VStr s => json_loads (strip s)
                         | v => Raise (AttributeError
                                         (u "'" ++ type_name v
                                          ++ u "' object has no attribute 'strip'"))
                         end;
              match sections with
              | VList _ =>
                  Ret (<[k_status := VStr (u "success")]>
                       (<[k_suggested_sections := sections]> ∅))
              | _ => Raise (ValueError (u "Expected a list of sections"))
              end) with
       | Ret d => Ret d
       | Raise e =>
           if is_ValueError e
           then Ret (builder_error (u "Failed to parse section suggestions"))
           else Raise e
       end)
    (fun e => Ret (builder_error (str_exn e))).

End Builder.

End PortfolioBuilder.

(** * Properties *)

(** ** The clean-up of extracted text *)

Module CleanFacts.
Import ResumeProcessor.

Lemma sub_ws_spaced b s : spaced b (sub_ws_from b s) = true.
Proof.
  revert b. induction s as [|c r IH]; intros b; simpl; [reflexivity|].
  destruct (isspace c) eqn:Hc.
  - destruct b; simpl; [apply IH|].
    change (isspace SP) with true. simpl. apply IH.
  - simpl. rewrite Hc. apply IH.
Qed.

Lemma sub_ws_fixed b s : spaced b s = true -> sub_ws_from b s = s.
Proof.
  revert b. induction s as [|c r IH]; intros b H; simpl in *; [reflexivity|].
  destruct (isspace c) eqn:Hc.
  - apply andb_true_iff in H as [H Hr]. apply andb_true_iff in H as [Hsp Hb].
    apply N.eqb_eq in Hsp. subst c. destruct b; [discriminate|].
    f_equal. now apply IH.
  - f_equal. now apply IH.
Qed.

Lemma spaced_weaken s : spaced true s = true -> spaced false s = true.
Proof.
  destruct s as [|c r]; simpl; [reflexivity|].
  destruct (isspace c); [|trivial].
  rewrite andb_false_r. discriminate.
Qed.

Lemma spaced_lstrip b s : spaced b s = true -> spaced true (lstrip s) = true.
Proof.
  revert b. induction s as [|c r IH]; intros b H; simpl in *; [reflexivity|].
  destruct (isspace c) eqn:Hc.
  - apply andb_true_iff in H as [_ Hr]. now apply (IH true).
  - simpl. now rewrite Hc.
Qed.

Lemma spaced_rstrip b s : spaced b s = true -> spaced b (rstrip s) = true.
Proof.
  revert b. induction s as [|c r IH]; intros b H; [reflexivity|].
  cbn [rstrip]. destruct (forallb isspace (c :: r)); [reflexivity|].
  simpl in *. destruct (isspace c).
  - apply andb_true_iff in H as [H Hr]. rewrite H. now apply IH.
  - now apply IH.
Qed.

Lemma rstrip_not_blank s :
  forallb isspace s = false -> forallb isspace (rstrip s) = false.
Proof.
  induction s as [|c r IH]; intros H; [discriminate|].
  cbn [rstrip]. rewrite H. simpl in *.
  destruct (isspace c); [|reflexivity]. now apply IH.
Qed.

Lemma rstrip_rstrip s : rstrip (rstrip s) = rstrip s.
Proof.
  induction s as [|c r IH]; [reflexivity|].
  cbn [rstrip]. destruct (forallb isspace (c :: r)) eqn:H; [reflexivity|].
  cbn [rstrip]. rewrite IH.
  assert (Hb : forallb isspace (c :: rstrip r) = false).
  { simpl in *. destruct (isspace c); [|reflexivity]. now apply rstrip_not_blank. }
  now rewrite Hb.
Qed.

Lemma lstrip_spaced s : spaced true s = true -> lstrip s = s.
Proof.
  destruct s as [|c r]; simpl; [reflexivity|].
  destruct (isspace c); [|reflexivity].
  rewrite andb_false_r. discriminate.
Qed.

Lemma strip_sub_ws_tidy t : tidy (strip (sub_ws t)).
Proof.
  split.
  - apply spaced_rstrip, (spaced_lstrip false), sub_ws_spaced.
  - apply rstrip_rstrip.
Qed.

Lemma tidy_strip s : tidy s -> strip s = s.
Proof. intros [Hs Hr]. unfold strip. now rewrite lstrip_spaced. Qed.

Lemma tidy_strip_sub_ws s : tidy s -> strip (sub_ws s) = s.
Proof.
  intros H. unfold sub_ws.
  rewrite sub_ws_fixed by (apply spaced_weaken, H). now apply tidy_strip.
Qed.

Lemma spaced_sub_formfeed b s : spaced b s = true -> sub_formfeed s = s.
Proof.
  revert b. induction s as [|c r IH]; intros b H; simpl in *; [reflexivity|].
  destruct (N.eqb_spec c 12) as [->|Hne]; simpl.
  - change (isspace 12) with true in H. simpl in H. discriminate.
  - f_equal. destruct (isspace c).
    + apply andb_true_iff in H as [_ Hr]. now apply (IH true).
    + now apply (IH false).
Qed.

Lemma spaced_no_newline b s :
  spaced b s = true -> forallb (fun c => negb (c =? NL)) s = true.
Proof.
  revert b. induction s as [|c r IH]; intros b H; simpl in *; [reflexivity|].
  destruct (N.eqb_spec c NL) as [->|Hne]; simpl.
  - change (isspace NL) with true in H. simpl in H. discriminate.
  - destruct (isspace c).
    + apply andb_true_iff in H as [_ Hr]. now apply (IH true).
    + now apply (IH false).
Qed.

Lemma sub_headers_no_newline n s :
  forallb (fun c => negb (c =? NL)) s = true -> sub_headers_from n s = s.
Proof.
  revert s. induction n as [|n IH]; intros s H; [reflexivity|].
  destruct s as [|c r]; [reflexivity|]. simpl in *.
  apply andb_true_iff in H as [Hc Hr].
  apply negb_true_iff in Hc. rewrite Hc. f_equal. now apply IH.
Qed.

Lemma sub_newlines_no_newline s :
  forallb (fun c => negb (c =? NL)) s = true -> sub_newlines_from 0 s = s.
Proof.
  induction s as [|c r IH]; intros H; [reflexivity|]. simpl in *.
  apply andb_true_iff in H as [Hc Hr].
  apply negb_true_iff in Hc. rewrite Hc. simpl. f_equal. now apply IH.
Qed.

Lemma spaced_sub_bullet b s : spaced b s = true -> spaced b (sub_bullet s) = true.
Proof.
  revert b. induction s as [|c r IH]; intros b H; [reflexivity|].
  change (sub_bullet (c :: r))
    with ((if c =? 8226 then bullet_text else [c]) ++ sub_bullet r).
  destruct (N.eqb_spec c 8226) as [->|Hne].
  - change (isspace 8226) with false in H. simpl in H. simpl. now apply IH.
  - simpl in *. destruct (isspace c).
    + apply andb_true_iff in H as [H Hr]. rewrite H. now apply IH.
    + now apply IH.
Qed.

Lemma blank_sub_bullet s :
  forallb isspace (sub_bullet s) = forallb isspace s.
Proof.
  induction s as [|c r IH]; [reflexivity|].
  change (sub_bullet (c :: r))
    with ((if c =? 8226 then bullet_text else [c]) ++ sub_bullet r).
  destruct (N.eqb_spec c 8226) as [->|Hne]; [reflexivity|].
  simpl. now rewrite IH.
Qed.

Lemma rstrip_sub_bullet s : rstrip (sub_bullet s) = sub_bullet (rstrip s).
Proof.
  induction s as [|c r IH]; [reflexivity|].
  cbn [rstrip]. rewrite <- (blank_sub_bullet (c :: r)).
  change (sub_bullet (c :: r))
    with ((if c =? 8226 then bullet_text else [c]) ++ sub_bullet r).
  destruct (N.eqb_spec c 8226) as [->|Hne].
  - simpl. now rewrite IH.
  - cbn [app rstrip].
    destruct (forallb isspace (c :: sub_bullet r)); [reflexivity|].
    rewrite IH.
    change (sub_bullet (c :: rstrip r))
      with ((if c =? 8226 then bullet_text else [c]) ++ sub_bullet (rstrip r)).
    destruct (N.eqb_spec c 8226); [contradiction|reflexivity].
Qed.

Lemma tidy_sub_bullet s : tidy s -> tidy (sub_bullet s).
Proof.
  intros [Hs Hr]. split.
  - now apply spaced_sub_bullet.
  - now rewrite rstrip_sub_bullet, Hr.
Qed.

Lemma sub_bullet_sub_bullet s : sub_bullet (sub_bullet s) = sub_bullet s.
Proof.
  induction s as [|c r IH]; [reflexivity|].
  change (sub_bullet (c :: r))
    with ((if c =? 8226 then bullet_text else [c]) ++ sub_bullet r).
  unfold sub_bullet at 1. rewrite flat_map_app. fold (sub_bullet (sub_bullet r)).
  rewrite IH. f_equal.
  destruct (N.eqb_spec c 8226) as [->|Hne]; [reflexivity|].
  simpl. destruct (N.eqb_spec c 8226); [contradiction|reflexivity].
Qed.

(** The passes after the first two leave tidy text alone, the bullet
    replacement apart. *)
Lemma later_passes_tidy s :
  tidy s ->
  strip (sub_newlines (sub_headers (sub_bullet (sub_formfeed s)))) = sub_bullet s.
Proof.
  intros H. destruct H as [Hs Hr].
  rewrite (spaced_sub_formfeed true) by assumption.
  assert (Ht : tidy (sub_bullet s)) by (apply tidy_sub_bullet; now split).
  pose proof (spaced_no_newline _ _ (proj1 Ht)) as Hn.
  unfold sub_headers, sub_newlines.
  rewrite sub_headers_no_newline, sub_newlines_no_newline by assumption.
  now apply tidy_strip.
Qed.

Lemma clean_shape t :
  exists s, tidy s /\ _clean_extracted_text t = sub_bullet s.
Proof.
  destruct t as [|c r].
  - exists []. repeat split.
  - exists (strip (sub_ws (c :: r))). split; [apply strip_sub_ws_tidy|].
    unfold _clean_extracted_text. apply later_passes_tidy, strip_sub_ws_tidy.
Qed.

(** C4: normalization is idempotent: cleaning cleaned text changes nothing. *)
Theorem clean_extracted_text_idempotent (t : pystr) :
  _clean_extracted_text (_clean_extracted_text t) = _clean_extracted_text t.
Proof.
  destruct (clean_shape t) as (s & Hs & ->).
  pose proof (tidy_sub_bullet s Hs) as Ht.
  destruct (sub_bullet s) as [|c r] eqn:E; [reflexivity|].
  unfold _clean_extracted_text. rewrite <- E.
  rewrite tidy_strip_sub_ws by (rewrite E; exact Ht).
  rewrite later_passes_tidy by (rewrite E; exact Ht).
  apply sub_bullet_sub_bullet.
Qed.

(** The fuel of the header pass: a match consumes text, so the length of
    the text is enough and more fuel changes nothing. *)
Lemma lstrip_length s : (List.length (lstrip s) <= List.length s)%nat.
Proof.
  induction s as [|c r IH]; simpl; [lia|].
  destruct (isspace c); simpl; lia.
Qed.

Lemma match_header_consumes r g rest :
  match_header r = Some (g, rest) -> (List.length rest <= List.length r)%nat.
Proof.
  unfold match_header. pose proof (lstrip_length r) as Hl.
  destruct (lstrip r) as [|c r2]; [discriminate|].
  destruct (is_upper c); [|discriminate].
  destruct (last_index_of NL _) as [k|]; [|discriminate].
  destruct (5 <=? k)%nat; [|discriminate].
  intros [= _ <-]. rewrite List.length_skipn. simpl in Hl. lia.
Qed.

Lemma sub_headers_fuel n m s :
  (List.length s <= n)%nat -> (List.length s <= m)%nat ->
  sub_headers_from n s = sub_headers_from m s.
Proof.
  revert m s. induction n as [|n IH]; intros m s Hn Hm.
  - destruct s; [|simpl in Hn; lia]. now destruct m.
  - destruct s as [|c r]; [now destruct m|].
    destruct m as [|m]; [simpl in Hm; lia|].
    simpl in Hn, Hm. cbn [sub_headers_from].
    destruct (c =? NL).
    + destruct (match_header r) as [[g rest]|] eqn:Hh.
      * apply match_header_consumes in Hh. f_equal. apply IH; lia.
      * f_equal. apply IH; lia.
    + f_equal. apply IH; lia.
Qed.

End CleanFacts.

(** ** The request loop *)

Module RequestFacts.
Import GroqClient.

Lemma one_attempt_retries attempt o :
  attempt <> max_retries -> fails o = true ->
  exists ev,
    one_attempt attempt o = (NextAttempt, ev) /\
    requests_and_sleeps ev = [ESleep (retry_delay * (attempt + 1))] /\
    List.filter is_request ev = [].
Proof.
  intros Hne Hf. apply Nat.eqb_neq in Hne.
  unfold one_attempt, inner_try.
  destruct o as [[|[|c cs]]|e d]; simpl in Hf; try discriminate.
  - simpl. rewrite Hne. eexists. repeat split.
  - simpl. rewrite Hne. eexists. repeat split.
  - destruct e; simpl in Hf; try discriminate; simpl; rewrite Hne;
      destruct d; eexists; repeat split.
Qed.

Lemma one_attempt_gives_up o :
  fails o = true ->
  exists ev,
    one_attempt max_retries o = (Leave (Raise (failure o)), ev) /\
    requests_and_sleeps ev = [].
Proof.
  intros Hf. unfold one_attempt, inner_try.
  destruct o as [[|[|c cs]]|e d]; simpl in Hf; try discriminate.
  - eexists. repeat split.
  - eexists. repeat split.
  - destruct e; simpl in Hf; try discriminate; simpl;
      destruct d; eexists; repeat split.
Qed.


Lemma one_attempt_no_request attempt o :
  List.filter is_request (snd (one_attempt attempt o)) = [].
Proof.
  unfold one_attempt, inner_try.
  destruct o as [[|[|c cs]]|e d]; simpl; try reflexivity;
    try (destruct (attempt =? max_retries)%nat; reflexivity).
  destruct e, d, (attempt =? max_retries)%nat; reflexivity.
Qed.

(** Whatever the transport does, the loop sends at most one request for each
    attempt number it is given. *)
Lemma attempts_loop_bounded api attempts :
  (List.length (List.filter is_request (snd (attempts_loop api attempts)))
   <= List.length attempts)%nat.
Proof.
  induction attempts as [|a rest IH]; simpl; [lia|].
  pose proof (one_attempt_no_request a (api a)) as Hn.
  destruct (one_attempt a (api a)) as [[|r] ev]; simpl in *.
  - destruct (attempts_loop api rest) as [r' ev']; simpl in *.
    rewrite List.filter_app, Hn. simpl. lia.
  - rewrite Hn. simpl. lia.
Qed.

(** X2: whatever the transport does and however the client is configured,
    [_make_request] sends at most [max_retries + 1] requests. *)
Lemma make_request_attempts_bounded configured api messages :
  (List.length (List.filter is_request (snd (_make_request configured api messages)))
   <= max_retries + 1)%nat.
Proof.
  unfold _make_request.
  destruct (negb configured); [simpl; lia|].
  destruct (negb (forallb well_formed messages)); [simpl; lia|].
  etransitivity; [apply attempts_loop_bounded|].
  now rewrite List.length_seq.
Qed.

(** C2, amended: when every attempt fails (the call times out, raises, or
    gives no usable completion), the loop makes exactly [max_retries + 1 = 3]
    requests, sleeps [retry_delay * 1] seconds after the first and
    [retry_delay * 2] after the second, and after the third raises the
    failure of that attempt (its own exception, no error that tells of
    exhausted retries), sending nothing more. *)
Theorem make_request_exhausts_retries api messages :
  forallb well_formed messages = true ->
  (forall n, fails (api n) = true) ->
  fst (_make_request true api messages) = Raise (failure (api max_retries)) /\
  requests_and_sleeps (snd (_make_request true api messages))
  = [ERequest 0; ESleep (retry_delay * 1);
     ERequest 1; ESleep (retry_delay * 2);
     ERequest 2] /\
  List.length (List.filter is_request (snd (_make_request true api messages)))
  = (max_retries + 1)%nat.
Proof.
  intros Hm Hf. unfold _make_request. rewrite Hm. simpl.
  destruct (one_attempt_retries 0 (api 0%nat)) as (e0 & -> & Hs0 & Hr0);
    [discriminate | apply Hf |].
  destruct (one_attempt_retries 1 (api 1%nat)) as (e1 & -> & Hs1 & Hr1);
    [discriminate | apply Hf |].
  destruct (one_attempt_gives_up (api 2%nat)) as (e2 & He2 & Hs2); [apply Hf|].
  pose proof (one_attempt_no_request 2 (api 2%nat)) as Hr2.
  change max_retries with 2%nat in *. rewrite He2 in *. simpl in *.
  unfold requests_and_sleeps in *.
  rewrite !List.filter_app. simpl. rewrite !List.filter_app. simpl.
  rewrite Hs0, Hs1, Hs2, Hr0, Hr1, Hr2. repeat split.
Qed.

Lemma make_request_exhausts_retries_witness :
  fst (_make_request true always_timeout one_message)
  = Raise (failure (always_timeout max_retries)) /\
  requests_and_sleeps (snd (_make_request true always_timeout one_message))
  = [ERequest 0; ESleep (retry_delay * 1);
     ERequest 1; ESleep (retry_delay * 2);
     ERequest 2] /\
  List.length (List.filter is_request
                 (snd (_make_request true always_timeout one_message)))
  = (max_retries + 1)%nat.
Proof.
  apply make_request_exhausts_retries; [reflexivity | intros n; reflexivity].
Defined.

(** C2, as the code has it: when every attempt times out, what leaves the
    call after the third attempt is the [TimeoutError] of that attempt, the
    exception that one timed-out attempt raises, and not the [RuntimeError]
    that the statement after the loop holds for exhausted retries, which only
    a loop over no attempt at all would raise. *)
Lemma exhausted_retries_raise_the_last_failure :
  fst (_make_request true always_timeout one_message) = Raise TimeoutError /\
  fst (_make_request true always_timeout one_message)
  <> Raise (RuntimeError
              (u "Failed to get a valid response from Groq API after all retries")) /\
  fst (one_attempt max_retries (always_timeout max_retries))
  = Leave (Raise TimeoutError) /\
  fst (attempts_loop always_timeout [])
  = Raise (RuntimeError
             (u "Failed to get a valid response from Groq API after all retries")).
Proof. repeat split; try reflexivity. vm_compute. discriminate. Qed.




End RequestFacts.

(** ** Reading the answer *)

Module AnswerFacts.
Import GroqClient.

Lemma eqs_eq a b : eqs a b = true <-> a = b.
Proof.
  revert b. induction a as [|x a IH]; intros [|y b]; simpl; split;
    try discriminate; try reflexivity.
  - intros H. apply andb_true_iff in H as [Hx Ha].
    apply N.eqb_eq in Hx. apply IH in Ha. now subst.
  - intros [= -> ->]. rewrite N.eqb_refl. now apply IH.
Qed.

Lemma forallb_isspace_end a c :
  isspace c = false -> forallb isspace (a ++ [c]) = false.
Proof.
  intros Hc. rewrite List.forallb_app. simpl. rewrite Hc.
  now rewrite andb_false_r.
Qed.

Lemma rstrip_end a c : isspace c = false -> rstrip (a ++ [c]) = a ++ [c].
Proof.
  intros Hc. induction a as [|x a IH]; simpl.
  - now rewrite Hc.
  - pose proof (forallb_isspace_end a c Hc) as Hf. simpl in Hf.
    rewrite Hf, andb_false_r. now rewrite IH.
Qed.

Lemma strip_fenced opener s :
  opener = fence \/ opener = fence ++ u "json" ->
  strip (fenced opener s) = fenced opener s.
Proof.
  intros Ho. unfold strip, fenced.
  assert (Hl : lstrip (opener ++ NL :: s ++ NL :: fence)
               = opener ++ NL :: s ++ NL :: fence)
    by (destruct Ho as [-> | ->]; reflexivity).
  rewrite Hl.
  change (NL :: fence) with ([NL; 96; 96] ++ [96]).
  rewrite !List.app_comm_cons, !List.app_assoc.
  now apply rstrip_end.
Qed.

Lemma find_sub_none_cons pat c r :
  find_sub pat (c :: r) = None -> find_sub pat r = None.
Proof.
  destruct pat as [|p pat]; simpl; [discriminate|].
  destruct ((p =? c) && startswith pat r); [discriminate|].
  destruct (find_sub (p :: pat) r) as [[b a]|]; [discriminate|reflexivity].
Qed.

(** The closing fence is the first newline that backquotes follow when the
    text inside has no newline before a backquote. *)
Lemma find_closing_fence s :
  find_sub [NL; 96] s = None ->
  find_sub (NL :: fence) (s ++ NL :: fence) = Some (s, []).
Proof.
  induction s as [|c r IH]; intros H; [reflexivity|].
  pose proof (find_sub_none_cons _ _ _ H) as Hr.
  specialize (IH Hr).
  change ((c :: r) ++ NL :: fence) with (c :: (r ++ NL :: fence)).
  cbn [find_sub]. rewrite IH.
  assert (Hs : startswith (NL :: fence) (c :: r ++ NL :: fence) = false).
  { cbn [find_sub startswith] in H. cbn [startswith].
    destruct (NL =? c); [|reflexivity].
    destruct r as [|x r']; [reflexivity|].
    change fence with [96; 96; 96]. cbn [app startswith andb] in *.
    destruct (96 =? x); [discriminate|reflexivity]. }
  now rewrite Hs.
Qed.

Lemma search_fence_fenced opener s :
  opener = fence \/ opener = fence ++ u "json" ->
  find_sub [NL; 96] s = None ->
  search_fence (fenced opener s) = Some s.
Proof.
  intros Ho Hs. pose proof (find_closing_fence s Hs) as Hc.
  assert (Hm : match_fence (fenced opener s) = Some s).
  { unfold match_fence, fenced.
    destruct Ho as [-> | ->]; simpl; fold fence; now rewrite Hc. }
  unfold fenced in *. destruct Ho as [-> | ->]; simpl in *; now rewrite Hm.
Qed.

Section FencedAnswers.

Variable json_loads : pystr -> res pyval.

(** What the theorem needs of [json.loads]: a text that starts with a
    backquote is not JSON; white space around a JSON text does not matter;
    and in a JSON text no backquote follows a newline (a backquote stands
    inside a string only, where a raw newline may not). *)
Hypothesis backquote_rejected :
  forall t, exists m, json_loads (96 :: t) = Raise (JSONDecodeError m).
Hypothesis strip_accepted :
  forall s v, json_loads s = Ret v -> json_loads (strip s) = Ret v.
Hypothesis no_newline_backquote :
  forall s v, json_loads s = Ret v -> find_sub [NL; 96] s = None.

(** C5: a JSON text inside a fenced code block (the fence alone or with
    [json]) is read exactly as the bare text is: the parse gives the same
    value, and so does the whole interpretation of the response. *)
Theorem fenced_json_parses_like_bare
    (fbig : Z -> res pyfloat) (fstr : pystr -> res pyfloat)
    (resume_text opener s : pystr) (v : pyval) :
  opener = fence \/ opener = fence ++ u "json" ->
  json_loads s = Ret v ->
  parse_response json_loads (strip (fenced opener s)) = Ret v /\
  parse_response json_loads (strip s) = Ret v /\
  interpret json_loads fbig fstr resume_text (Some (fenced opener s))
  = interpret json_loads fbig fstr resume_text (Some s).
Proof.
  intros Ho Hv.
  assert (Hbare : parse_response json_loads (strip s) = Ret v).
  { unfold parse_response. now rewrite (strip_accepted _ _ Hv). }
  assert (Hfenced : parse_response json_loads (strip (fenced opener s)) = Ret v).
  { rewrite strip_fenced by assumption. unfold parse_response.
    destruct (backquote_rejected (List.tl (fenced opener s))) as [m Hm].
    assert (Hf : 96 :: List.tl (fenced opener s) = fenced opener s)
      by (destruct Ho as [-> | ->]; reflexivity).
    rewrite Hf in Hm. rewrite Hm.
    rewrite search_fence_fenced by eauto.
    now apply strip_accepted. }
  repeat split; try assumption.
  unfold interpret. now rewrite Hfenced, Hbare.
Qed.

End FencedAnswers.

Lemma fenced_json_parses_like_bare_witness :
  parse_response empty_object_loads (strip (fenced (fence ++ u "json") (u "{}")))
  = Ret (VDict ∅) /\
  parse_response empty_object_loads (strip (u "{}")) = Ret (VDict ∅) /\
  interpret empty_object_loads no_big_int no_float_str long_resume
    (Some (fenced (fence ++ u "json") (u "{}")))
  = interpret empty_object_loads no_big_int no_float_str long_resume
      (Some (u "{}")).
Proof.
  apply fenced_json_parses_like_bare.
  - intros t. eexists. reflexivity.
  - intros s v H. unfold empty_object_loads in H.
    destruct (eqs s (u "{}")) eqn:E; [|discriminate].
    apply eqs_eq in E. subst s. exact H.
  - intros s v H. unfold empty_object_loads in H.
    destruct (eqs s (u "{}")) eqn:E; [|discriminate].
    apply eqs_eq in E. subst s. reflexivity.
  - right. reflexivity.
  - reflexivity.
Defined.

(** The keys of the result dictionaries are pairwise different. *)
Ltac keys := let H := fresh in intros H; vm_compute in H; discriminate H.

Ltac lookup_keys :=
  repeat first
    [ rewrite lookup_insert_eq
    | rewrite lookup_insert_ne by keys
    | rewrite lookup_empty ].

(** C6, as the code has it: a parsed object missing a required field is
    rejected as a whole.  The answer has a text and suggestions and no score:
    [finish_result] raises, and the handler returns the error dictionary,
    which holds the original resume and not the text of the answer. *)
Lemma missing_score_rejects_whole_result :
  finish_result no_big_int no_float_str (VDict partial_result)
  = Raise (ValueError (u "Missing required field in response: score"))
  /\ interpret partial_loads no_big_int no_float_str long_resume (Some partial_text)
     = Ret (parse_error long_resume
              (ValueError (u "Missing required field in response: score")))
  /\ parse_error long_resume
       (ValueError (u "Missing required field in response: score"))
     !! k_optimized_text = Some (VStr long_resume).
Proof. repeat split; vm_compute; reflexivity. Qed.

Lemma clamped_in_range v : clamped v -> score_in_range v.
Proof.
  intros [-> | [-> | (q & -> & H)]]; simpl; [lia | lia | exact H].
Qed.

Lemma clamp_clamped f : clamped (py_max (VInt 0) (py_min (VInt 100) (VFloat f))).
Proof.
  destruct f as [| | |q]; try (vm_compute; auto; fail).
  unfold py_min, py_max, py_lt, float_lt, float_of_Z.
  destruct (Qlt_le_dec q (inject_Z 100)) as [Hlt|Hge].
  - destruct (Qlt_le_dec (inject_Z 0) q) as [Hpos|Hneg].
    + right; right. exists q. split; [reflexivity|].
      split; apply Qlt_le_weak; assumption.
    + now left.
  - right; left. reflexivity.
Qed.

Lemma zero_score_clamped : clamped zero_score.
Proof.
  right; right. exists 0%Q. split; [reflexivity|]. split; discriminate.
Qed.

Lemma clamp_score_clamped fbig fstr v sc :
  clamp_score fbig fstr v = Ret sc -> clamped sc.
Proof.
  unfold clamp_score. destruct (to_float fbig fstr v) as [f|e].
  - intros [= <-]. apply clamp_clamped.
  - destruct (is_ValueError e || is_TypeError e); [|discriminate].
    intros [= <-]. apply zero_score_clamped.
Qed.

Lemma clamp_is_nearest f :
  py_max (VInt 0) (py_min (VInt 100) (VFloat f)) = clamp_to_range f.
Proof.
  destruct f as [| | |q]; try reflexivity.
  unfold py_min, py_max, py_lt, float_lt, float_of_Z, clamp_to_range.
  destruct (Qlt_le_dec q (inject_Z 100)) as [Hlt|Hge].
  - destruct (Qlt_le_dec (inject_Z 0) q) as [Hpos|Hneg].
    + destruct (Qle_bool q 0) eqn:H0.
      { apply Qle_bool_iff in H0. exfalso. exact (Qlt_not_le _ _ Hpos H0). }
      destruct (Qle_bool 100 q) eqn:H1; [|reflexivity].
      apply Qle_bool_iff in H1. exfalso. exact (Qlt_not_le _ _ Hlt H1).
    + apply Qle_bool_iff in Hneg. change (inject_Z 0) with 0%Q in Hneg.
      now rewrite Hneg.
  - cbn [py_lt]. change (0 <? 100)%Z with true. cbv iota.
    destruct (Qle_bool q 0) eqn:H0.
    { apply Qle_bool_iff in H0. exfalso.
      assert (H : (inject_Z 100 <= 0)%Q) by (eapply Qle_trans; eassumption).
      revert H. vm_compute. intros H. now apply H. }
    apply Qle_bool_iff in Hge. change (inject_Z 100) with 100%Q in Hge.
    now rewrite Hge.
Qed.

(** The score that [clamp_score] returns is the nearest number of the range,
    and [0.0] when the conversion raises. *)
Lemma clamp_score_value fbig fstr v sc :
  clamp_score fbig fstr v = Ret sc ->
  sc = match to_float fbig fstr v with
       | Ret f => clamp_to_range f
       | Raise _ => zero_score
       end.
Proof.
  unfold clamp_score. destruct (to_float fbig fstr v) as [f|e].
  - intros [= <-]. apply clamp_is_nearest.
  - destruct (is_ValueError e || is_TypeError e); [|discriminate].
    now intros [= <-].
Qed.

Lemma clamp_score_returns fbig fstr v :
  (forall e, to_float fbig fstr v = Raise e ->
             is_ValueError e || is_TypeError e = true) ->
  exists sc, clamp_score fbig fstr v = Ret sc.
Proof.
  intros H. unfold clamp_score. destruct (to_float fbig fstr v) as [f|e].
  - eauto.
  - rewrite (H e eq_refl). eauto.
Qed.

Lemma check_required_dict d :
  check_required (VDict d) required_fields
  = match d !! k_optimized_text, d !! k_score, d !! k_suggestions with
    | Some _, Some _, Some _ => Ret tt
    | None, _, _ =>
        Raise (ValueError (u "Missing required field in response: " ++ k_optimized_text))
    | _, None, _ =>
        Raise (ValueError (u "Missing required field in response: " ++ k_score))
    | _, _, None =>
        Raise (ValueError (u "Missing required field in response: " ++ k_suggestions))
    end.
Proof.
  unfold required_fields. cbn [check_required has_field mbind res_bind].
  destruct (d !! k_optimized_text), (d !! k_score), (d !! k_suggestions);
    reflexivity.
Qed.

(** The dictionary [finish_result] returns for an object that has the three
    required fields. *)
Lemma finish_result_dict fbig fstr d text score suggestions d' :
  d !! k_optimized_text = Some text ->
  d !! k_score = Some score ->
  d !! k_suggestions = Some suggestions ->
  finish_result fbig fstr (VDict d) = Ret d' ->
  d' !! k_status = Some (VStr (u "success")) /\
  d' !! k_optimized_text = Some text /\
  (exists sc, d' !! k_score = Some sc /\ clamped sc /\
              clamp_score fbig fstr score = Ret sc) /\
  list_or_str suggestions = true /\
  d' !! k_suggestions
  = Some (match suggestions with VStr s => VList (suggestion_lines s) | v => v end) /\
  d' !! k_keywords_matched = Some (default (VList []) (d !! k_keywords_matched)) /\
  d' !! k_missing_keywords = Some (default (VList []) (d !! k_missing_keywords)).
Proof.
  intros Ht Hs Hg. unfold finish_result.
  rewrite check_required_dict, Ht, Hs, Hg.
  change (default VNone (Some score)) with score. cbn [mbind res_bind].
  destruct (clamp_score fbig fstr score) as [sc|e] eqn:Hsc;
    cbn [mbind res_bind]; [|discriminate].
  pose proof (clamp_score_clamped _ _ _ _ Hsc) as Hc.
  unfold normalize_suggestions. rewrite lookup_insert_ne by keys. rewrite Hg.
  destruct suggestions; cbn [mbind res_bind]; try discriminate;
    intros [= <-]; lookup_keys; repeat split; eauto.
Qed.

Lemma finish_result_returns fbig fstr d text score suggestions :
  d !! k_optimized_text = Some text ->
  d !! k_score = Some score ->
  d !! k_suggestions = Some suggestions ->
  (forall e, to_float fbig fstr score = Raise e ->
             is_ValueError e || is_TypeError e = true) ->
  list_or_str suggestions = true ->
  exists d', finish_result fbig fstr (VDict d) = Ret d'.
Proof.
  intros Ht Hs Hg Hf Hl. unfold finish_result.
  rewrite check_required_dict, Ht, Hs, Hg.
  change (default VNone (Some score)) with score. cbn [mbind res_bind].
  destruct (clamp_score_returns fbig fstr score Hf) as [sc ->].
  cbn [mbind res_bind].
  unfold normalize_suggestions. rewrite lookup_insert_ne by keys. rewrite Hg.
  destruct suggestions; try discriminate; cbn [mbind res_bind]; eauto.
Qed.

(** C6, amended: for a parsed object, the interpreter applies its defaults
    when the three required fields are there (the score convertible or of a
    wrong type, the suggestions a list or a string): the score of the result
    is the number of [0, 100] nearest to [float(score)], and [0.0] when the
    conversion raises; a string of suggestions becomes the list of its lines
    that are not blank, absent keyword lists become empty, the status is
    success, and the text of the answer is kept.  When a required field is
    missing the answer is rejected as a whole: the error dictionary is
    returned. *)
Theorem interpret_defaults_or_rejects
    (json_loads : pystr -> res pyval) (fbig : Z -> res pyfloat)
    (fstr : pystr -> res pyfloat) (resume_text r : pystr) (d : pydict) :
  parse_response json_loads (strip r) = Ret (VDict d) ->
  (forall e, to_float fbig fstr (default VNone (d !! k_score)) = Raise e ->
             is_ValueError e || is_TypeError e = true) ->
  list_or_str (default (VList []) (d !! k_suggestions)) = true ->
  match d !! k_optimized_text, d !! k_score, d !! k_suggestions with
  | Some text, Some score, Some suggestions =>
      exists d',
        interpret json_loads fbig fstr resume_text (Some r) = Ret d' /\
        d' !! k_status = Some (VStr (u "success")) /\
        d' !! k_optimized_text = Some text /\
        d' !! k_score
        = Some (match to_float fbig fstr score with
                | Ret f => clamp_to_range f
                | Raise _ => zero_score
                end) /\
        (exists sc, d' !! k_score = Some sc /\ score_in_range sc) /\
        d' !! k_suggestions
        = Some (match suggestions with
                | VStr s => VList (suggestion_lines s)
                | v => v
                end) /\
        d' !! k_keywords_matched
        = Some (default (VList []) (d !! k_keywords_matched)) /\
        d' !! k_missing_keywords
        = Some (default (VList []) (d !! k_missing_keywords))
  | _, _, _ =>
      exists field,
        In field required_fields /\ d !! field = None /\
        interpret json_loads fbig fstr resume_text (Some r)
        = Ret (parse_error resume_text
                 (ValueError (u "Missing required field in response: " ++ field)))
  end.
Proof.
  intros Hp Hf Hl. unfold interpret. rewrite Hp. cbn [mbind res_bind].
  destruct (d !! k_optimized_text) as [text|] eqn:Ht;
    [destruct (d !! k_score) as [score|] eqn:Hs;
     [destruct (d !! k_suggestions) as [suggestions|] eqn:Hg|]|].
  - simpl in Hf, Hl.
    destruct (finish_result_returns fbig fstr d _ _ _ Ht Hs Hg Hf Hl) as [d' Hd].
    destruct (finish_result_dict fbig fstr d _ _ _ d' Ht Hs Hg Hd)
      as (H1 & H2 & (sc & H3 & Hc & Hv) & _ & H4 & H5 & H6).
    exists d'. rewrite Hd. repeat split; try assumption.
    + rewrite H3. f_equal. exact (clamp_score_value _ _ _ _ Hv).
    + exists sc. split; [assumption | now apply clamped_in_range].
  - exists k_suggestions. split; [right; right; now left|]. split; [assumption|].
    unfold finish_result. rewrite check_required_dict, Ht, Hs, Hg. reflexivity.
  - exists k_score. split; [right; now left|]. split; [assumption|].
    unfold finish_result. rewrite check_required_dict, Ht, Hs.
    destruct (d !! k_suggestions); reflexivity.
  - exists k_optimized_text. split; [now left|]. split; [assumption|].
    unfold finish_result. rewrite check_required_dict, Ht.
    destruct (d !! k_score), (d !! k_suggestions); reflexivity.
Qed.

Lemma interpret_defaults_or_rejects_witness :
  exists d',
    interpret full_loads no_big_int no_float_str long_resume (Some full_text)
    = Ret d' /\
    d' !! k_status = Some (VStr (u "success")) /\
    d' !! k_optimized_text = Some (VStr (u "Better resume")) /\
    d' !! k_score = Some (VInt 100) /\
    (exists sc, d' !! k_score = Some sc /\ score_in_range sc) /\
    d' !! k_suggestions
    = Some (VList (suggestion_lines (u "Add numbers" ++ NL :: u "Use verbs"))) /\
    d' !! k_keywords_matched = Some (VList []) /\
    d' !! k_missing_keywords = Some (VList []).
Proof.
  apply (interpret_defaults_or_rejects full_loads no_big_int no_float_str
           long_resume full_text full_result).
  - reflexivity.
  - intros e. vm_compute. discriminate.
  - reflexivity.
Defined.

(** *** The results of [optimize_resume] *)

Lemma finish_result_inv fbig fstr v d' :
  finish_result fbig fstr v = Ret d' ->
  exists d text score suggestions,
    v = VDict d /\ d !! k_optimized_text = Some text /\
    d !! k_score = Some score /\ d !! k_suggestions = Some suggestions.
Proof.
  unfold finish_result.
  destruct v as [| | | | |l|d];
    try (destruct (check_required _ required_fields); discriminate).
  rewrite check_required_dict.
  destruct (d !! k_optimized_text) as [text|] eqn:Ht; [|discriminate].
  destruct (d !! k_score) as [score|] eqn:Hs; [|discriminate].
  destruct (d !! k_suggestions) as [suggestions|] eqn:Hg; [|discriminate].
  intros _. now exists d, text, score, suggestions.
Qed.

Ltac error_dictionary :=
  repeat split;
  [ exists zero_score; split; [lookup_keys; reflexivity | apply zero_score_clamped]
  | eexists; lookup_keys; reflexivity
  | eexists; lookup_keys; reflexivity
  | right; repeat split; lookup_keys; reflexivity ].

Lemma early_error_result json_loads configured request resume_text msg :
  client_result json_loads configured request resume_text
    (early_error resume_text msg).
Proof. unfold client_result, unchanged_on_error, early_error. error_dictionary. Qed.

Lemma parse_error_result json_loads configured request resume_text e :
  client_result json_loads configured request resume_text
    (parse_error resume_text e).
Proof. unfold client_result, unchanged_on_error, parse_error. error_dictionary. Qed.

Lemma request_error_result json_loads configured request resume_text e :
  client_result json_loads configured request resume_text
    (request_error resume_text e).
Proof. unfold client_result, unchanged_on_error, request_error. error_dictionary. Qed.

Lemma interpret_result json_loads fbig fstr configured request resume_text r :
  request = Ret (Some r) -> too_short resume_text = false -> configured = true ->
  returns (client_result json_loads configured request resume_text)
    (try_except (interpret json_loads fbig fstr resume_text (Some r))
       (fun e => Ret (request_error resume_text e))).
Proof.
  intros Hreq Hshort Hconf. unfold interpret.
  destruct (parse_response json_loads (strip r)) as [v|e] eqn:Hp;
    cbn [mbind res_bind].
  - destruct (finish_result fbig fstr v) as [d'|e] eqn:Hfin.
    + destruct (finish_result_inv _ _ _ _ Hfin) as (d & t & sc & sg & -> & Ht & Hs & Hg).
      destruct (finish_result_dict _ _ _ _ _ _ _ Ht Hs Hg Hfin)
        as (H1 & H2 & (sc' & H3 & Hc & _) & Hl & H4 & _).
      simpl. repeat split; eauto.
      * destruct sg; try discriminate; eauto.
      * left. split; [assumption|].
        intros [H | [H | H]]; [congruence | congruence |].
        rewrite Hreq in H. destruct H as [e He]. congruence.
    + unfold try_except. destruct (is_Exception e) eqn:He; simpl;
        [apply parse_error_result|]. now rewrite He.
  - unfold try_except. destruct (is_Exception e) eqn:He; simpl;
      [apply parse_error_result|]. now rewrite He.
Qed.

Lemma optimize_resume_client_result
    json_loads fbig fstr prompt system_prompt configured expired api
    resume_text job_description :
  returns
    (client_result json_loads configured
       (timed_request configured expired api
          (prompt_messages prompt system_prompt resume_text job_description))
       resume_text)
    (optimize_resume json_loads fbig fstr prompt system_prompt
       configured expired api resume_text job_description).
Proof.
  unfold optimize_resume.
  destruct (too_short resume_text) eqn:Hshort; [apply early_error_result|].
  destruct configured eqn:Hconf; cbn [negb]; [|apply early_error_result].
  destruct (timed_request true expired api _) as [response|e] eqn:Hreq.
  - cbn [mbind res_bind]. destruct response as [r|].
    + now apply (interpret_result json_loads fbig fstr true _ resume_text r).
    + simpl. apply request_error_result.
  - destruct e; simpl; try apply request_error_result. reflexivity.
Qed.

Lemma to_float_clamped fbig fstr sc :
  clamped sc ->
  exists q, to_float fbig fstr sc = Ret (FFin q) /\ (0 <= q <= 100)%Q
            /\ (sc = zero_score -> q = 0%Q).
Proof.
  intros [-> | [-> | (q & -> & Hq)]].
  - exists (inject_Z 0). repeat split; try discriminate.
  - exists (inject_Z 100). repeat split; try discriminate.
  - exists q. repeat split; try apply Hq. now intros [= ->].
Qed.

(** [min(max(f, 0), 100)] leaves a float between the bounds alone. *)
Lemma service_clamp q :
  (0 <= q <= 100)%Q ->
  py_min (py_max (VFloat (FFin q)) (VInt 0)) (VInt 100) = VFloat (FFin q).
Proof.
  intros [H0 H100]. unfold py_min, py_max, py_lt, float_lt, float_of_Z.
  destruct (Qlt_le_dec q (inject_Z 0)) as [Hlt|_].
  - exfalso. apply (Qlt_not_le _ _ Hlt). exact H0.
  - destruct (Qlt_le_dec (inject_Z 100) q) as [Hgt|_]; [|reflexivity].
    exfalso. apply (Qlt_not_le _ _ Hgt). exact H100.
Qed.

Lemma service_error_result resume_text suggestion msg :
  result_invariant (ResumeOptimizer.service_error resume_text suggestion msg)
  /\ unchanged_on_error resume_text
       (ResumeOptimizer.service_error resume_text suggestion msg).
Proof.
  unfold result_invariant, unchanged_on_error, ResumeOptimizer.service_error.
  repeat split; try (lookup_keys; reflexivity).
  - exists zero_score. split; [lookup_keys; reflexivity|].
    apply clamped_in_range, zero_score_clamped.
  - right. lookup_keys. reflexivity.
Qed.

(** C10, as the code has it: the test on the input counts the characters
    of the stripped text, white space inside included.  A resume of thirty
    letters separated by spaces has fewer than 50 characters that are not
    white space and 59 characters after [strip()]: it is not an error path,
    and the answer of the model is returned with its text and its score. *)
Lemma wide_resume_is_optimized :
  (non_whitespace wide_resume < 50)%nat /\
  List.length (strip wide_resume) = 59%nat /\
  exists d,
    optimize_resume good_loads no_big_int no_float_str (fun _ _ => []) []
      true false answering wide_resume []
    = Ret d /\
    d !! k_status = Some (VStr (u "success")) /\
    d !! k_optimized_text = Some (VStr (u "Better resume")) /\
    d !! k_score = Some (VFloat (FFin (inject_Z 85))).
Proof.
  split; [vm_compute; lia|]. split; [reflexivity|].
  eexists. split; [vm_compute; reflexivity|].
  repeat split; vm_compute; reflexivity.
Qed.

(** C10, amended: every dictionary that [optimize_resume] returns, in the
    client and in the service built on it, has a score in [0, 100] and the
    status success or error (the only way out without a dictionary is a
    cancellation); and on every error path (an input of fewer than 50
    characters once stripped, a disabled or absent client, a failed request,
    an unparsable response) the optimized text is the input resume and the
    score is 0.0.  In the client the status is error on these paths, and
    whenever the status is error the text and the score are those. *)
Theorem optimize_resume_results
    (json_loads : pystr -> res pyval) (fbig : Z -> res pyfloat)
    (fstr : pystr -> res pyfloat) (prompt : pystr -> pystr -> pystr)
    (system_prompt : pystr) (configured expired : bool)
    (api : nat -> wait_outcome) (resume_text job_description : pystr) :
  returns
    (fun d =>
       result_invariant d /\
       (d !! k_status = Some (VStr (u "error")) ->
        unchanged_on_error resume_text d) /\
       (error_path json_loads configured
          (timed_request configured expired api
             (prompt_messages prompt system_prompt resume_text job_description))
          resume_text ->
        d !! k_status = Some (VStr (u "error"))))
    (optimize_resume json_loads fbig fstr prompt system_prompt
       configured expired api resume_text job_description)
  /\
  forall client,
    client = None
    \/ client = Some (optimize_resume json_loads fbig fstr prompt system_prompt
                        configured expired api) ->
    returns
      (fun d =>
         result_invariant d /\
         (client = None
          \/ error_path json_loads configured
               (timed_request configured expired api
                  (prompt_messages prompt system_prompt resume_text job_description))
               resume_text ->
          unchanged_on_error resume_text d))
      (ResumeOptimizer.optimize_resume fbig fstr client
         resume_text job_description).
Proof.
  pose proof (optimize_resume_client_result json_loads fbig fstr prompt
                system_prompt configured expired api resume_text job_description)
    as Hc.
  split.
  - destruct (optimize_resume _ _ _ _ _ _ _ _ _ _) as [d|e]; [|exact Hc].
    simpl in *. destruct Hc as ((sc & Hsc & Hcl) & _ & _ & Hst).
    split; [split|split].
    + exists sc. split; [assumption | now apply clamped_in_range].
    + destruct Hst as [[-> _] | [-> _]]; auto.
    + intros He. destruct Hst as [[Hs _] | [_ Hu]]; [|exact Hu].
      rewrite Hs in He. vm_compute in He. discriminate.
    + intros Hp. destruct Hst as [[_ Hn] | [Hs _]]; [contradiction | exact Hs].
  - intros client Hclient. unfold ResumeOptimizer.optimize_resume.
    destruct (too_short resume_text) eqn:Hshort.
    { simpl. split; [|intros _]; apply service_error_result. }
    destruct Hclient as [-> | ->].
    { simpl. split; [|intros _]; apply service_error_result. }
    destruct (optimize_resume _ _ _ _ _ _ _ _ _ _) as [d|e];
      [|simpl in *; now rewrite Hc].
    simpl in Hc. destruct Hc as ((sc & Hsc & Hcl) & (t & Ht) & (l & Hl) & Hst).
    cbn [mbind res_bind]. unfold required_fields. cbn [forallb].
    rewrite Ht, Hsc, Hl. cbn [negb andb default from_option id].
    destruct (to_float_clamped fbig fstr sc Hcl) as (q & -> & Hq & Hz).
    cbn [mbind res_bind ResumeOptimizer.first_five try_except returns].
    rewrite (service_clamp q Hq). split.
    + split.
      * exists (VFloat (FFin q)). split; [lookup_keys; reflexivity | exact Hq].
      * left. lookup_keys. reflexivity.
    + intros [Hn | Hp]; [discriminate|].
      destruct Hst as [[_ Hn] | [_ [Hu Hs]]]; [contradiction|].
      assert (sc = zero_score) as Hsz by congruence.
      rewrite (Hz Hsz). split; lookup_keys; [|reflexivity].
      congruence.
Qed.

End AnswerFacts.

(** ** The fallback CV *)

Module FallbackFacts.
Import CVGenerator.

(** With an empty [work_experience] the document has no experience heading
    at all.  The headings of the sample are Summary, Education and Skills. *)
Lemma empty_work_experience_has_no_heading :
  exists document,
    _generate_fallback_cv graduate_cv = Ret document /\
    section_headings document
    = [u "## Summary"; u "## Education"; u "## Skills"] /\
    ~ In (u "## Work Experience") (section_headings document).
Proof.
  eexists. split; [reflexivity|]. split; [vm_compute; reflexivity|].
  vm_compute. intros H. repeat (destruct H as [H|H]; [discriminate H|]).
  exact H.
Qed.

(** *** What the [try] block raises *)

Lemma mapM_raises {A B} (f : A -> res B) l e :
  mapM f l = Raise e -> exists a, In a l /\ f a = Raise e.
Proof.
  induction l as [|a l IH]; [discriminate|]. cbn [mapM].
  destruct (f a) as [b|e'] eqn:Ha; cbn [mbind res_bind].
  - destruct (mapM f l) as [bs|e'']; cbn [mbind res_bind mret res_ret];
      [discriminate|].
    intros [= ->]. destruct (IH eq_refl) as (a' & Hin & Hf).
    exists a'. split; [now right | exact Hf].
  - intros [= ->]. exists a. split; [now left | exact Ha].
Qed.

Lemma mapM_returns {A B} (f : A -> res B) l :
  Forall (fun a => exists b, f a = Ret b) l -> exists bs, mapM f l = Ret bs.
Proof.
  induction 1 as [|a l [b Hb] Hl [bs IH]]; [now exists []|].
  exists (b :: bs). cbn [mapM]. now rewrite Hb, IH.
Qed.

Lemma iadd_raises dates text e : iadd dates text = Raise e -> is_Exception e = true.
Proof. destruct dates; [discriminate|]. now intros [= <-]. Qed.

Lemma job_lines_raises j e : job_lines j = Raise e -> is_Exception e = true.
Proof.
  unfold job_lines, job_dates.
  destruct (job_end_date j) as [| |[|c t]]; destruct (current j);
    cbn [mbind res_bind];
    match goal with
    | |- context [iadd ?d ?t] =>
        destruct (iadd d t) as [v|e'] eqn:H; cbn [mbind res_bind];
        [discriminate | intros [= <-]; exact (iadd_raises _ _ _ H)]
    | |- _ => discriminate
    end.
Qed.

Lemma education_dates_raises ed e :
  education_dates ed = Raise e -> is_Exception e = true.
Proof.
  unfold education_dates.
  assert (H : forall (m : res (option pystr)),
            (forall e', m = Raise e' -> is_Exception e' = true) ->
            (dates ← m;
             match gpa ed with
             | Absent => Ret dates
             | g => iadd dates (u " | GPA: " ++ fstr (value g))
             end) = Raise e -> is_Exception e = true).
  { intros [dates|e'] Hm; cbn [mbind res_bind].
    - destruct (gpa ed); [discriminate | apply iadd_raises..].
    - intros [= <-]. now apply Hm. }
  apply H. destruct (edu_end_date ed) as [| |[|c t]]; try discriminate.
  intros e'. apply iadd_raises.
Qed.

Lemma education_lines_of_raises ed e :
  education_lines_of ed = Raise e -> is_Exception e = true.
Proof.
  unfold education_lines_of.
  destruct (education_dates ed) as [dates|e'] eqn:H; cbn [mbind res_bind];
    [discriminate|].
  intros [= <-]. exact (education_dates_raises _ _ H).
Qed.

Lemma work_lines_raises work_exp e :
  work_lines work_exp = Raise e -> is_Exception e = true.
Proof.
  unfold work_lines. destruct work_exp as [|j js]; [discriminate|].
  destruct (mapM job_lines (j :: js)) as [jobs|e'] eqn:H; cbn [mbind res_bind];
    [discriminate|].
  intros [= <-]. apply mapM_raises in H as (a & _ & Ha).
  exact (job_lines_raises _ _ Ha).
Qed.

Lemma education_lines_raises edu e :
  education_lines edu = Raise e -> is_Exception e = true.
Proof.
  unfold education_lines. destruct edu as [|x xs]; [discriminate|].
  destruct (mapM education_lines_of (x :: xs)) as [entries|e'] eqn:H;
    cbn [mbind res_bind]; [discriminate|].
  intros [= <-]. apply mapM_raises in H as (a & _ & Ha).
  exact (education_lines_of_raises _ _ Ha).
Qed.

Lemma fallback_lines_raises d e :
  fallback_lines d = Raise e -> is_Exception e = true.
Proof.
  unfold fallback_lines.
  destruct (work_lines (work_experience d)) as [work|e1] eqn:Hw;
    cbn [mbind res_bind].
  - destruct (education_lines (education d)) as [edu|e2] eqn:He;
      cbn [mbind res_bind]; [discriminate|].
    intros [= <-]. exact (education_lines_raises _ _ He).
  - intros [= <-]. exact (work_lines_raises _ _ Hw).
Qed.

Lemma str_items_raises pos lines e :
  str_items pos lines = Raise e -> is_Exception e = true.
Proof.
  revert pos. induction lines as [|[s|] rest IH]; intros pos; cbn [str_items].
  - discriminate.
  - destruct (str_items (S pos) rest) as [items|e'] eqn:H; cbn [mbind res_bind];
      [discriminate|].
    intros [= <-]. exact (IH _ H).
  - now intros [= <-].
Qed.

(** An item that is [None] stops the join. *)
Lemma str_items_none pos lines :
  In None lines -> exists e, str_items pos lines = Raise e.
Proof.
  revert pos. induction lines as [|[s|] rest IH]; intros pos Hin.
  - destruct Hin.
  - destruct Hin as [Hin|Hin]; [discriminate|].
    destruct (IH (S pos) Hin) as [e He]. exists e.
    cbn [str_items]. now rewrite He.
  - eexists. reflexivity.
Qed.

(** Items that are all [str] are joined. *)
Lemma str_items_some pos items : str_items pos (map Some items) = Ret items.
Proof.
  revert pos. induction items as [|s items IH]; intros pos; [reflexivity|].
  cbn [map str_items]. now rewrite IH.
Qed.

(** The fallback returns a text, whatever the data: the joined lines, or the
    error document when the [try] block raises. *)
Lemma fallback_cv_cases d :
  (exists lines items,
     fallback_lines d = Ret lines /\ str_items 0 lines = Ret items /\
     _generate_fallback_cv d = Ret (join [NL] items)) \/
  _generate_fallback_cv d = Ret error_document.
Proof.
  unfold _generate_fallback_cv.
  destruct (fallback_lines d) as [lines|e] eqn:Hl; cbn [mbind res_bind].
  - destruct (str_items 0 lines) as [items|e] eqn:Hi; cbn [mbind res_bind].
    + left. exists lines, items. split; [reflexivity|]. split; [exact Hi | reflexivity].
    + right. cbn [try_except]. now rewrite (str_items_raises _ _ _ Hi).
  - right. cbn [try_except]. now rewrite (fallback_lines_raises _ _ Hl).
Qed.

Lemma Ret_inj {A} (a b : A) : Ret a = Ret b -> a = b.
Proof. congruence. Qed.

(** The item of line 163 is among the lines. *)
Lemma fallback_lines_summary d lines :
  fallback_lines d = Ret lines -> In (summary_item (personal d)) lines.
Proof.
  unfold fallback_lines.
  destruct (work_lines (work_experience d)) as [work|?]; [|discriminate].
  destruct (education_lines (education d)) as [edu|?]; [|discriminate].
  cbn [mbind res_bind]. intros H. apply Ret_inj in H. subst lines.
  apply List.in_or_app. right. right. now left.
Qed.

(** C7, where the code departs from it: when the key [summary] holds [None],
    as it does in the data of every request that was sent without a summary,
    line 163 appends [None] to the lines and the join raises; the fallback
    returns the error document, which has no section at all, whatever the
    other fields are. *)
Theorem none_summary_gives_error_document (d : cv_data) :
  summary (personal d) = IsNone ->
  _generate_fallback_cv d = Ret error_document /\
  section_headings error_document = [].
Proof.
  intros Hs. split; [|vm_compute; reflexivity].
  destruct (fallback_cv_cases d) as [(lines & items & Hl & Hi & _)|H]; [|exact H].
  exfalso. apply fallback_lines_summary in Hl.
  unfold summary_item in Hl. rewrite Hs in Hl. cbn [get] in Hl.
  destruct (str_items_none 0 lines Hl) as [e He]. congruence.
Qed.

Lemma none_summary_gives_error_document_witness :
  _generate_fallback_cv request_dump = Ret error_document /\
  section_headings error_document = [].
Proof. apply none_summary_gives_error_document. reflexivity. Defined.

Lemma education_lines_returns edu :
  Forall (fun e => edu_start_date e <> IsNone) edu ->
  exists lines, education_lines edu = Ret lines.
Proof.
  intros H. unfold education_lines. destruct edu as [|x xs]; [now exists []|].
  destruct (mapM_returns education_lines_of (x :: xs)) as [entries ->].
  - eapply List.Forall_impl; [|exact H]. intros ed Hed.
    unfold education_lines_of, education_dates. cbv beta in Hed. revert Hed.
    destruct (edu_start_date ed) as [| |s]; intros Hed; [|congruence|];
      destruct (edu_end_date ed) as [| |[|c t]], (gpa ed);
      cbn [get iadd mbind res_bind]; eauto.
  - cbn [mbind res_bind]. eauto.
Qed.

(** X26 (C7 where the code keeps it): for data with an empty
    [work_experience], a summary that is not [None] and no education entry
    whose start date is [None], the fallback does not raise and returns the
    header lines, the Summary section with the summary (the default sentence
    when the key is not there), the Education section and the Skills section
    (each when it is not empty), joined by newlines; the Work Experience
    section contributes nothing, neither its heading nor a line. *)
Theorem fallback_without_work_experience (d : cv_data) :
  work_experience d = [] ->
  summary (personal d) <> IsNone ->
  Forall (fun e => edu_start_date e <> IsNone) (education d) ->
  exists edu,
    education_lines (education d) = Ret edu /\
    (education d = [] -> edu = []) /\
    _generate_fallback_cv d
    = Ret (join [NL]
             (header_lines (personal d)
              ++ [NL :: u "## Summary"; fstr (summary_item (personal d))]
              ++ edu ++ skills_lines (skills d))).
Proof.
  intros Hw Hs He.
  destruct (education_lines_returns _ He) as [edu Hedu].
  exists edu. split; [exact Hedu|]. split.
  { intros H. rewrite H in Hedu. now injection Hedu as <-. }
  unfold _generate_fallback_cv, fallback_lines. rewrite Hw, Hedu.
  cbn [work_lines mbind res_bind].
  assert (Hi : summary_item (personal d) = Some (fstr (summary_item (personal d)))).
  { unfold summary_item. destruct (summary (personal d)); [reflexivity | | reflexivity].
    contradiction. }
  assert (E : map Some (header_lines (personal d))
              ++ [Some (NL :: u "## Summary"); summary_item (personal d)]
              ++ map Some ([] ++ edu ++ skills_lines (skills d))
              = map Some (header_lines (personal d)
                          ++ [NL :: u "## Summary"; fstr (summary_item (personal d))]
                          ++ edu ++ skills_lines (skills d))).
  { rewrite !List.map_app. cbn [map app]. now rewrite <- Hi. }
  rewrite E, str_items_some. reflexivity.
Qed.

Lemma fallback_without_work_experience_witness :
  exists edu,
    education_lines (education graduate_cv) = Ret edu /\
    (education graduate_cv = [] -> edu = []) /\
    _generate_fallback_cv graduate_cv
    = Ret (join [NL]
             (header_lines (personal graduate_cv)
              ++ [NL :: u "## Summary"; fstr (summary_item (personal graduate_cv))]
              ++ edu ++ skills_lines (skills graduate_cv))).
Proof.
  apply fallback_without_work_experience.
  - reflexivity.
  - discriminate.
  - repeat constructor. discriminate.
Defined.

End FallbackFacts.

(** ** The renderers *)

Module RenderFacts.
Import CVGenerator.

(** C1, at the input where the code departs from it: in [dated_cv] the three
    bullet lines follow a line of text.  The PDF elements are one title, one
    level-2 heading and three bullet paragraphs; the DOCX document has the
    two headings and no list: the bullets are runs of the text paragraph. *)
Theorem bullets_after_text_join_the_paragraph :
  docx_headings 1 (_create_docx dated_cv) = 1%nat /\
  docx_headings 2 (_create_docx dated_cv) = 1%nat /\
  docx_lists (_create_docx dated_cv) = [] /\
  List.nth_error (_create_docx dated_cv) 2
  = Some (Para NormalStyle
            [plain_run (u "Acme, 2020 - 2024"); plain_run (u "Built X");
             plain_run (u "Led Y"); plain_run (u "Ran Z")]) /\
  pdf_paragraphs StyleTitle (_create_pdf dated_cv) = 1%nat /\
  pdf_paragraphs StyleHeading2 (_create_pdf dated_cv) = 1%nat /\
  pdf_bullets (_create_pdf dated_cv) = 3%nat.
Proof. repeat split; vm_compute; reflexivity. Qed.

(** *** The scanners line by line *)

Lemma docx_line_kind st raw :
  docx_line st raw
  = match classify raw with
    | KBlank => Scan (doc st) None
    | KHeading l =>
        Scan (_add_heading (doc st) (List.skipn (S l) (strip raw)) l) None
    | KBullet =>
        match current_paragraph st with
        | None =>
            Scan (add_run (List.length (doc st)) (List.skipn 2 (strip raw))
                    (doc st ++ [Para ListBullet []]))
                 (Some (List.length (doc st)))
        | Some i => Scan (add_run i (List.skipn 2 (strip raw)) (doc st)) (Some i)
        end
    | KText =>
        match current_paragraph st with
        | None =>
            Scan (add_run (List.length (doc st)) (strip raw)
                    (doc st ++ [Para NormalStyle []]))
                 (Some (List.length (doc st)))
        | Some i => Scan (add_run i (SP :: strip raw) (doc st)) (Some i)
        end
    end.
Proof.
  unfold docx_line, classify. destruct (strip raw) as [|c r]; [reflexivity|].
  destruct (startswith (u "### ") (c :: r)); [reflexivity|].
  destruct (startswith (u "## ") (c :: r)); [reflexivity|].
  destruct (startswith (u "# ") (c :: r)); [reflexivity|].
  destruct (startswith (u "- ") (c :: r)); reflexivity.
Qed.

Lemma add_run_last d p t :
  add_run (List.length d) t (d ++ [p])
  = d ++ [Para (p_style p) (p_runs p ++ [plain_run t])].
Proof. induction d as [|x d IH]; simpl; [reflexivity|]. f_equal. exact IH. Qed.

Lemma docx_headings_app level d1 d2 :
  docx_headings level (d1 ++ d2) = (docx_headings level d1 + docx_headings level d2)%nat.
Proof. unfold docx_headings. now rewrite List.filter_app, List.length_app. Qed.

Lemma docx_lists_app d1 d2 : docx_lists (d1 ++ d2) = docx_lists d1 ++ docx_lists d2.
Proof. unfold docx_lists. now rewrite List.filter_app, List.map_app. Qed.

(** One line: what it does to the counts, according to its kind and to the
    paragraph that is open. *)
Lemma docx_line_headings level st raw :
  well_formed_scan st ->
  well_formed_scan (docx_line st raw) /\
  docx_headings level (doc (docx_line st raw))
  = (docx_headings level (doc st) + if is_heading level raw then 1 else 0)%nat.
Proof.
  intros Hwf. rewrite docx_line_kind. unfold is_heading.
  destruct (classify raw) as [|l| |]; cbn [doc current_paragraph].
  - split; [now left | lia].
  - split; [now left|]. unfold _add_heading. rewrite docx_headings_app.
    unfold docx_headings at 2. simpl. now destruct (l =? level)%nat.
  - destruct Hwf as [-> | [(d & p & Hd & -> & Hs) | (d & p & Hd & -> & Hs)]].
    + rewrite add_run_last. cbn [doc current_paragraph]. split.
      * right; left. now exists (doc st), (Para ListBullet [plain_run (List.skipn 2 (strip raw))]).
      * rewrite docx_headings_app. unfold docx_headings at 2. simpl. lia.
    + rewrite Hd, add_run_last. cbn [doc current_paragraph]. split.
      * right; left. now eexists d, _.
      * rewrite !docx_headings_app. unfold docx_headings at 2 4. simpl.
        now rewrite Hs.
    + rewrite Hd, add_run_last. cbn [doc current_paragraph]. split.
      * right; right. now eexists d, _.
      * rewrite !docx_headings_app. unfold docx_headings at 2 4. simpl.
        now rewrite Hs.
  - destruct Hwf as [-> | [(d & p & Hd & -> & Hs) | (d & p & Hd & -> & Hs)]].
    + rewrite add_run_last. cbn [doc current_paragraph]. split.
      * right; right. now exists (doc st), (Para NormalStyle [plain_run (strip raw)]).
      * rewrite docx_headings_app. unfold docx_headings at 2. simpl. lia.
    + rewrite Hd, add_run_last. cbn [doc current_paragraph]. split.
      * right; left. now eexists d, _.
      * rewrite !docx_headings_app. unfold docx_headings at 2 4. simpl.
        now rewrite Hs.
    + rewrite Hd, add_run_last. cbn [doc current_paragraph]. split.
      * right; right. now eexists d, _.
      * rewrite !docx_headings_app. unfold docx_headings at 2 4. simpl.
        now rewrite Hs.
Qed.

(** The headings of the DOCX document are the heading lines, whatever the
    order of the lines. *)
Lemma docx_headings_count level lines st :
  well_formed_scan st ->
  docx_headings level (doc (fold_left docx_line lines st))
  = (docx_headings level (doc st)
     + List.length (List.filter (is_heading level) lines))%nat.
Proof.
  revert st. induction lines as [|raw rest IH]; intros st Hwf; simpl; [lia|].
  destruct (docx_line_headings level st raw Hwf) as [Hwf' Hc].
  rewrite IH by assumption. rewrite Hc.
  destruct (is_heading level raw); simpl; lia.
Qed.

Lemma docx_line_closes st raw :
  closes raw = true ->
  current_paragraph (docx_line st raw) = None /\
  docx_lists (doc (docx_line st raw)) = docx_lists (doc st).
Proof.
  intros H. rewrite docx_line_kind. unfold closes in H.
  destruct (classify raw) as [|l| |]; try discriminate; cbn [doc current_paragraph].
  - now split.
  - split; [reflexivity|]. unfold _add_heading. rewrite docx_lists_app.
    apply List.app_nil_r.
Qed.

Lemma docx_line_no_bullet st raw :
  no_list_open st -> is_bullet raw = false ->
  no_list_open (docx_line st raw) /\
  docx_lists (doc (docx_line st raw)) = docx_lists (doc st).
Proof.
  intros Hst Hb. destruct (closes raw) eqn:Hc.
  - destruct (docx_line_closes st raw Hc) as [Hn Hl]. split; [now left | exact Hl].
  - rewrite docx_line_kind. unfold is_bullet in Hb. unfold closes in Hc.
    destruct (classify raw) as [|l| |]; try discriminate.
    destruct Hst as [-> | (d & p & Hd & -> & Hs)].
    + rewrite add_run_last. cbn [doc current_paragraph]. split.
      * right. now exists (doc st), (Para NormalStyle [plain_run (strip raw)]).
      * rewrite docx_lists_app. apply List.app_nil_r.
    + rewrite Hd, add_run_last. cbn [doc current_paragraph]. split.
      * right. now eexists d, _.
      * rewrite !docx_lists_app. unfold docx_lists at 2 4. simpl. now rewrite Hs.
Qed.

Lemma docx_lines_no_bullet lines st :
  no_list_open st ->
  forallb (fun raw => negb (is_bullet raw)) lines = true ->
  no_list_open (fold_left docx_line lines st) /\
  docx_lists (doc (fold_left docx_line lines st)) = docx_lists (doc st).
Proof.
  revert st. induction lines as [|raw rest IH]; intros st Hst Hl; simpl;
    [now split|].
  simpl in Hl. apply andb_true_iff in Hl as [Hb Hr].
  apply negb_true_iff in Hb.
  destruct (docx_line_no_bullet st raw Hst Hb) as [Hst' Hd].
  destruct (IH _ Hst' Hr) as [H1 H2]. split; [exact H1|]. now rewrite H2.
Qed.

Lemma docx_lines_end_closed lines st :
  current_paragraph st = None -> ends_closed lines = true ->
  current_paragraph (fold_left docx_line lines st) = None.
Proof.
  intros Hst. destruct lines as [|x l] using List.rev_ind; [trivial|].
  unfold ends_closed. rewrite last_snoc. cbn [from_option]. intros Hc.
  rewrite List.fold_left_app. cbn [fold_left].
  now apply docx_line_closes.
Qed.

Lemma docx_three_bullets st b1 b2 b3 :
  current_paragraph st = None ->
  is_bullet b1 = true -> is_bullet b2 = true -> is_bullet b3 = true ->
  fold_left docx_line [b1; b2; b3] st
  = Scan (doc st ++ [Para ListBullet
                       [plain_run (List.skipn 2 (strip b1));
                        plain_run (List.skipn 2 (strip b2));
                        plain_run (List.skipn 2 (strip b3))]])
         (Some (List.length (doc st))).
Proof.
  intros Hst H1 H2 H3. unfold is_bullet in *. cbn [fold_left].
  rewrite !docx_line_kind.
  destruct (classify b1); try discriminate.
  destruct (classify b2); try discriminate.
  destruct (classify b3); try discriminate.
  rewrite Hst. cbn [doc current_paragraph].
  now rewrite !add_run_last.
Qed.

(** The elements of the PDF, line by line. *)
Lemma pdf_paragraphs_title lines :
  pdf_paragraphs StyleTitle (flat_map pdf_line lines)
  = List.length (List.filter (is_heading 1) lines).
Proof.
  unfold pdf_paragraphs. induction lines as [|raw rest IH]; [reflexivity|].
  cbn [flat_map List.filter]. rewrite List.filter_app, List.length_app, IH.
  unfold pdf_line, is_heading, classify. destruct (strip raw) as [|c r]; [reflexivity|].
  destruct (startswith (u "### ") (c :: r)); [reflexivity|].
  destruct (startswith (u "## ") (c :: r)); [reflexivity|].
  destruct (startswith (u "# ") (c :: r)); [reflexivity|].
  destruct (startswith (u "- ") (c :: r)); reflexivity.
Qed.

Lemma pdf_paragraphs_heading2 lines :
  pdf_paragraphs StyleHeading2 (flat_map pdf_line lines)
  = List.length (List.filter (is_heading 2) lines).
Proof.
  unfold pdf_paragraphs. induction lines as [|raw rest IH]; [reflexivity|].
  cbn [flat_map List.filter]. rewrite List.filter_app, List.length_app, IH.
  unfold pdf_line, is_heading, classify. destruct (strip raw) as [|c r]; [reflexivity|].
  destruct (startswith (u "### ") (c :: r)); [reflexivity|].
  destruct (startswith (u "## ") (c :: r)); [reflexivity|].
  destruct (startswith (u "# ") (c :: r)); [reflexivity|].
  destruct (startswith (u "- ") (c :: r)); reflexivity.
Qed.

Lemma pdf_bullets_count lines :
  pdf_bullets (flat_map pdf_line lines)
  = (List.length (List.filter is_bullet lines)
     + List.length (List.filter looks_like_bullet lines))%nat.
Proof.
  unfold pdf_bullets. induction lines as [|raw rest IH]; [reflexivity|].
  cbn [flat_map List.filter]. rewrite List.filter_app, List.length_app, IH.
  unfold pdf_line, is_bullet, looks_like_bullet, classify.
  destruct (strip raw) as [|c r]; [reflexivity|].
  destruct (startswith (u "### ") (c :: r)); [reflexivity|].
  destruct (startswith (u "## ") (c :: r)); [reflexivity|].
  destruct (startswith (u "# ") (c :: r)); [reflexivity|].
  destruct (startswith (u "- ") (c :: r)).
  - cbn. lia.
  - cbn [List.filter]. destruct (startswith (pdf_bullet ++ [SP]) (c :: r));
      cbn [List.length]; lia.
Qed.

Lemma filter_none {A} (P : A -> bool) (l : list A) :
  forallb (fun x => negb (P x)) l = true -> List.filter P l = [].
Proof.
  induction l as [|x l IH]; simpl; [reflexivity|].
  intros H. apply andb_true_iff in H as [Hx Hl].
  apply negb_true_iff in Hx. rewrite Hx. now apply IH.
Qed.

Lemma bullet_is_no_heading level raw :
  is_bullet raw = true -> is_heading level raw = false.
Proof. unfold is_bullet, is_heading. now destruct (classify raw). Qed.

Lemma bullet_is_no_text raw :
  is_bullet raw = true -> looks_like_bullet raw = false.
Proof. unfold is_bullet, looks_like_bullet. now destruct (classify raw). Qed.

Lemma count_around {A} (P : A -> bool) (before after : list A) b1 b2 b3 :
  P b1 = false -> P b2 = false -> P b3 = false ->
  List.length (List.filter P (before ++ [b1; b2; b3] ++ after))
  = List.length (List.filter P (before ++ after)).
Proof.
  intros H1 H2 H3. rewrite !List.filter_app. simpl. now rewrite H1, H2, H3.
Qed.

(** X1 (C1 where the code keeps it): when the three bullet lines
    stand together, the line before them is blank or a heading (or they come
    first), and the line after them is blank or a heading (or they come
    last), a document with one [# ] line and one [## ] line gives one level-1
    heading, one level-2 heading and one list element of three runs in the
    DOCX document, and one title, one level-2 heading and three bullet
    paragraphs in the PDF. *)
Theorem separated_bullets_render_alike
    (markdown : pystr) (before after : list pystr) (b1 b2 b3 : pystr) :
  split NL markdown = before ++ [b1; b2; b3] ++ after ->
  is_bullet b1 = true -> is_bullet b2 = true -> is_bullet b3 = true ->
  forallb (fun raw => negb (is_bullet raw)) (before ++ after) = true ->
  forallb (fun raw => negb (looks_like_bullet raw)) (before ++ after) = true ->
  List.length (List.filter (is_heading 1) (before ++ after)) = 1%nat ->
  List.length (List.filter (is_heading 2) (before ++ after)) = 1%nat ->
  ends_closed before = true ->
  starts_closed after = true ->
  docx_headings 1 (_create_docx markdown) = 1%nat /\
  docx_headings 2 (_create_docx markdown) = 1%nat /\
  docx_lists (_create_docx markdown) = [3%nat] /\
  pdf_paragraphs StyleTitle (_create_pdf markdown) = 1%nat /\
  pdf_paragraphs StyleHeading2 (_create_pdf markdown) = 1%nat /\
  pdf_bullets (_create_pdf markdown) = 3%nat.
Proof.
  intros Hsplit Hb1 Hb2 Hb3 Hnb Hnl Hh1 Hh2 Hend Hstart.
  unfold _create_docx, _create_pdf. rewrite Hsplit.
  assert (Hinit : well_formed_scan (Scan [] None)) by now left.
  repeat split.
  - rewrite docx_headings_count by assumption.
    rewrite count_around by now apply bullet_is_no_heading.
    now rewrite Hh1.
  - rewrite docx_headings_count by assumption.
    rewrite count_around by now apply bullet_is_no_heading.
    now rewrite Hh2.
  - rewrite List.forallb_app in Hnb. apply andb_true_iff in Hnb as [Hnb Hna].
    rewrite !List.fold_left_app.
    destruct (docx_lines_no_bullet before (Scan [] None)) as [_ Hl0];
      [now left | assumption |].
    pose proof (docx_lines_end_closed before (Scan [] None) eq_refl Hend) as Hc0.
    rewrite (docx_three_bullets _ b1 b2 b3 Hc0 Hb1 Hb2 Hb3).
    set (st1 := fold_left docx_line before (Scan [] None)) in *.
    set (st2 := Scan _ _).
    assert (Hl2 : docx_lists (doc st2) = [3%nat])
      by (unfold st2; cbn [doc]; rewrite docx_lists_app, Hl0; reflexivity).
    destruct after as [|x rest]; [exact Hl2|].
    unfold starts_closed in Hstart. cbn [head from_option] in Hstart.
    cbn [fold_left]. destruct (docx_line_closes st2 x Hstart) as [Hc3 Hl3].
    simpl in Hna. apply andb_true_iff in Hna as [_ Hna].
    destruct (docx_lines_no_bullet rest (docx_line st2 x)) as [_ Hl4];
      [now left | assumption |].
    now rewrite Hl4, Hl3.
  - rewrite pdf_paragraphs_title.
    rewrite count_around by now apply bullet_is_no_heading.
    exact Hh1.
  - rewrite pdf_paragraphs_heading2.
    rewrite count_around by now apply bullet_is_no_heading.
    exact Hh2.
  - rewrite pdf_bullets_count.
    rewrite (count_around looks_like_bullet) by now apply bullet_is_no_text.
    rewrite (filter_none looks_like_bullet) by assumption.
    pose proof (filter_none is_bullet _ Hnb) as Hf.
    rewrite List.filter_app in Hf. apply List.app_eq_nil in Hf as [Hf1 Hf2].
    rewrite !List.filter_app, Hf1, Hf2. simpl. now rewrite Hb1, Hb2, Hb3.
Qed.

Lemma separated_bullets_render_alike_witness :
  docx_headings 1 (_create_docx spaced_cv) = 1%nat /\
  docx_headings 2 (_create_docx spaced_cv) = 1%nat /\
  docx_lists (_create_docx spaced_cv) = [3%nat] /\
  pdf_paragraphs StyleTitle (_create_pdf spaced_cv) = 1%nat /\
  pdf_paragraphs StyleHeading2 (_create_pdf spaced_cv) = 1%nat /\
  pdf_bullets (_create_pdf spaced_cv) = 3%nat.
Proof.
  apply (separated_bullets_render_alike spaced_cv
           [u "# Jane Doe"; u "## Experience"; u "Acme, 2020 - 2024"; []] []
           (u "- Built X") (u "- Led Y") (u "- Ran Z"));
    reflexivity.
Defined.

End RenderFacts.

(** ** Text extraction from PDF *)

Module ExtractFacts.
Import ResumeProcessor.

Lemma collect_pages_texts pages text :
  forallb page_ok pages = true ->
  collect_pages pages text = Ret (text ++ page_texts pages).
Proof.
  revert text. induction pages as [|p rest IH]; intros text H; simpl.
  - now rewrite List.app_nil_r.
  - simpl in H. apply andb_true_iff in H as [Hp Hr].
    destruct p as [[|c t]| |e]; simpl in *.
    + now apply IH.
    + rewrite IH by assumption. now rewrite <- List.app_assoc.
    + now apply IH.
    + rewrite Hp. now apply IH.
Qed.

(** X3 (C9 in [ResumeProcessor]): the extraction goes page by page, skips
    the pages that raise or have no text, joins the texts with newlines, and
    raises exactly when no page yields text. *)
Lemma processor_extracts_page_by_page pages :
  forallb page_ok pages = true ->
  _extract_text_from_pdf (Ret pages)
  = match page_texts pages with
    | [] => Raise (ValueError (u "No text could be extracted from the PDF"))
    | _ :: _ => Ret (join [NL] (page_texts pages))
    end.
Proof.
  intros H. unfold _extract_text_from_pdf. cbn [mbind res_bind].
  rewrite (collect_pages_texts pages [] H). reflexivity.
Qed.

(** C9, at the inputs where [resume_parser.extract_text_from_pdf] departs
    from it: on a document with a page that raises it gives up the whole
    document ([None]), where [ResumeProcessor] skips the page; on a document
    whose pages have no text it returns the empty text, where
    [ResumeProcessor] raises. *)
Theorem parser_aborts_where_processor_skips :
  resume_parser.extract_text_from_pdf true (Ret damaged_pages) = Ret None /\
  _extract_text_from_pdf (Ret damaged_pages)
  = Ret (u "Alpha" ++ NL :: u "Gamma") /\
  resume_parser.extract_text_from_pdf true (Ret blank_pages) = Ret (Some []) /\
  _extract_text_from_pdf (Ret blank_pages)
  = Raise (ValueError (u "No text could be extracted from the PDF")).
Proof. repeat split; vm_compute; reflexivity. Qed.

Lemma processor_extracts_page_by_page_witness :
  _extract_text_from_pdf (Ret damaged_pages)
  = match page_texts damaged_pages with
    | [] => Raise (ValueError (u "No text could be extracted from the PDF"))
    | _ :: _ => Ret (join [NL] (page_texts damaged_pages))
    end.
Proof. apply processor_extracts_page_by_page. reflexivity. Defined.

End ExtractFacts.

(** ** The driver [generate_cv] *)

Module DriverFacts.
Import CVGenerator.

(** C8, at the input where the code departs from it: the model's answer is
    the empty text and writing the DOCX file raises.  The markdown fallback
    writes a file of zero bytes, nothing checks it, the [finally] clause
    removes it, and its path is returned as the result.  Where the file
    cannot be removed, the path of a file of zero bytes is returned. *)
Theorem empty_fallback_is_returned :
  render_with_fallback failing_writer working_writer reliable (u "docx") (Some [])
    empty_world
  = (Ret (1%nat, u ".md"),
     World {[ (1%nat, u ".md") := 0%nat ]} 2 1, Some (1%nat, u ".md")) /\
  generate_cv failing_writer working_writer reliable (Ret (Some [])) graduate_cv
    (u "docx") empty_world
  = (Ret (1%nat, u ".md"), World ∅ 2 2) /\
  generate_cv failing_writer working_writer sticky (Ret (Some [])) graduate_cv
    (u "docx") empty_world
  = (Ret (1%nat, u ".md"), World {[ (1%nat, u ".md") := 0%nat ]} 2 2).
Proof. repeat split; vm_compute; reflexivity. Qed.

Lemma utf8_len_positive c s : exists n, utf8_len (c :: s) = S n.
Proof.
  unfold utf8_len. simpl. unfold utf8_width.
  destruct (c <? 128), (c <? 2048), (c <? 65536); simpl; eauto.
Qed.

Lemma join_nonempty sep c p ps : exists c' r, join sep ((c :: p) :: ps) = c' :: r.
Proof. destruct ps; simpl; eauto. Qed.

Lemma str_items_cons pos s lines items :
  str_items pos (Some s :: lines) = Ret items -> exists rest, items = s :: rest.
Proof.
  cbn [str_items]. destruct (str_items (S pos) lines) as [rest|?];
    cbn [mbind res_bind]; [|discriminate].
  intros H. apply FallbackFacts.Ret_inj in H. eauto.
Qed.

(** The first item of the joined lines is the line of the name. *)
Lemma fallback_first_item d lines items :
  fallback_lines d = Ret lines -> str_items 0 lines = Ret items ->
  exists s rest, items = (35 :: s) :: rest.
Proof.
  unfold fallback_lines.
  destruct (work_lines (work_experience d)) as [work|?]; [|discriminate].
  destruct (education_lines (education d)) as [edu|?]; [|discriminate].
  cbn [mbind res_bind]. intros H. apply FallbackFacts.Ret_inj in H. subst lines.
  unfold header_lines. cbn [map app]. intros H.
  apply str_items_cons in H as [rest ->]. eexists _, _. reflexivity.
Qed.

Lemma fallback_cv_nonempty cv :
  exists c r, _generate_fallback_cv cv = Ret (c :: r).
Proof.
  destruct (FallbackFacts.fallback_cv_cases cv)
    as [(lines & items & Hl & Hi & ->) | ->].
  - destruct (fallback_first_item _ _ _ Hl Hi) as (s & rest & ->).
    destruct (join_nonempty [NL] 35 s rest) as (c & r & ->). eauto.
  - eexists _, _. reflexivity.
Qed.

Lemma set_file_lookup p n w : files (set_file p (Some n) w) !! p = Some n.
Proof. apply lookup_insert_eq. Qed.

Section DriverProperties.

Variable docx_writer : list docx_paragraph -> render_outcome.
Variable pdf_writer : list flowable -> render_outcome.
Variable os : disk.


Lemma write_text_keeps_counter p content w :
  next_uuid (snd (write_text os p content w)) = next_uuid w.
Proof.
  unfold write_text, set_file, tick. repeat case_match; reflexivity.
Qed.

Lemma render_keeps_counter output_format md p w :
  next_uuid (snd (render docx_writer pdf_writer os output_format md p w))
  = next_uuid w.
Proof.
  unfold render, run_writer. repeat case_match; try reflexivity.
  apply write_text_keeps_counter.
Qed.

(** A write that returns leaves the bytes of the text. *)
Lemma write_text_returns p s w w' :
  write_text os p (Some s) w = (Ret tt, w') ->
  w' = set_file p (Some (utf8_len s)) (tick w).
Proof.
  unfold write_text. repeat case_match; intros ?; simplify_eq; reflexivity.
Qed.

Lemma write_text_none p w r w' :
  write_text os p None w = (r, w') -> exists e, r = Raise e.
Proof.
  unfold write_text. repeat case_match; intros ?; simplify_eq; eauto.
Qed.

(** When the markdown text is not empty, a path that lines 78-115 return
    names a file that exists and is not empty. *)
Lemma render_with_fallback_nonempty output_format c s w p w' output_file :
  render_with_fallback docx_writer pdf_writer os output_format (Some (c :: s)) w
  = (Ret p, w', output_file) ->
  output_file = Some p /\ exists n, files w' !! p = Some (S n).
Proof.
  destruct (utf8_len_positive c s) as [n Hn].
  unfold render_with_fallback, get_temp_file.
  destruct (render _ _ _ _ _ _ _) as [r w1].
  destruct r as [[]|e]; cbn [mbind res_bind].
  - unfold missing_or_empty.
    destruct (files w1 !! _) as [[|k]|] eqn:Hk.
    + cbn [is_Exception]. destruct (remove_failed_output _ _ _) as [[rm w2] o].
      destruct rm as [[]|e]; [|discriminate].
      destruct (negb _); [|discriminate].
      destruct (write_text _ _ _ _) as [[[]|e] w3] eqn:Hw; [|discriminate].
      apply write_text_returns in Hw. subst w3. cbn [mbind res_bind].
      intros [= <- <- <-]. split; [reflexivity|]. exists n.
      rewrite set_file_lookup. f_equal. exact Hn.
    + intros [= <- <- <-]. eauto.
    + cbn [is_Exception]. destruct (remove_failed_output _ _ _) as [[rm w2] o].
      destruct rm as [[]|e]; [|discriminate].
      destruct (negb _); [|discriminate].
      destruct (write_text _ _ _ _) as [[[]|e] w3] eqn:Hw; [|discriminate].
      apply write_text_returns in Hw. subst w3. cbn [mbind res_bind].
      intros [= <- <- <-]. split; [reflexivity|]. exists n.
      rewrite set_file_lookup. f_equal. exact Hn.
  - destruct (is_Exception e); [|discriminate].
    destruct (remove_failed_output _ _ _) as [[rm w2] o].
    destruct rm as [[]|e']; [|discriminate].
    destruct (negb _); [|discriminate].
    destruct (write_text _ _ _ _) as [[[]|e'] w3] eqn:Hw; [|discriminate].
    apply write_text_returns in Hw. subst w3. cbn [mbind res_bind].
    intros [= <- <- <-]. split; [reflexivity|]. exists n.
    rewrite set_file_lookup. f_equal. exact Hn.
Qed.

(** Without a text, lines 78-115 return no path. *)
Lemma render_with_fallback_none output_format w r w' output_file :
  render_with_fallback docx_writer pdf_writer os output_format None w
  = (r, w', output_file) ->
  exists e, r = Raise e.
Proof.
  unfold render_with_fallback, get_temp_file, render.
  destruct (eqs output_format (u "docx") || eqs output_format (u "pdf")) eqn:Hf.
  - cbn [mbind res_bind is_Exception].
    destruct (remove_failed_output _ _ _) as [[rm w2] o].
    destruct rm as [[]|e]; [|intros [= <- _ _]; eauto].
    destruct (negb _); [|intros [= <- _ _]; eauto].
    destruct (write_text _ _ _ _) as [written w3] eqn:Hw.
    apply write_text_none in Hw as [e ->]. intros [= <- _ _]. eauto.
  - destruct (write_text _ _ _ _) as [written w1] eqn:Hw.
    apply write_text_none in Hw as [e ->]. cbn [mbind res_bind].
    destruct (is_Exception e); [|intros [= <- _ _]; eauto].
    destruct (remove_failed_output _ _ _) as [[rm w2] o].
    destruct rm as [[]|e']; [|intros [= <- _ _]; eauto].
    destruct (negb _); [|intros [= <- _ _]; eauto].
    destruct (write_text _ _ _ _) as [written w3] eqn:Hw.
    apply write_text_none in Hw as [e' ->]. intros [= <- _ _]. eauto.
Qed.

(** X4 (C8 where the code keeps it): when the markdown text is not empty
    (the model's answer is not the empty text), the path that [generate_cv]
    returns names a file that exists and is not empty, whatever the file
    system does. *)
Lemma returned_artifact_nonempty ai cv output_format w p w' :
  ai <> Ret (Some []) ->
  generate_cv docx_writer pdf_writer os ai cv output_format w = (Ret p, w') ->
  exists n, files w' !! p = Some (S n).
Proof.
  intros Hai. unfold generate_cv.
  destruct (negb (supported output_format)); [discriminate|].
  assert (Hmd : forall md : res (option pystr),
            md = Ret None \/ (exists e, md = Raise e) \/
            (exists c s, md = Ret (Some (c :: s))) ->
            match md with
            | Raise e => (outer_handlers (Raise e), w)
            | Ret md =>
                let '(r, w0, output_file) :=
                  render_with_fallback docx_writer pdf_writer os output_format md w in
                let '(escaped, w1) := finally_cleanup os output_file w0 in
                (match escaped with
                 | Some e => Raise e
                 | None => outer_handlers r
                 end, w1)
            end = (Ret p, w') ->
            exists n, files w' !! p = Some (S n)).
  { intros md [-> | [[e ->] | (c & s & ->)]].
    - destruct (render_with_fallback _ _ _ _ _ _) as [[r w0] output_file] eqn:Hr.
      apply render_with_fallback_none in Hr as [e ->].
      destruct (finally_cleanup _ _ _) as [[e'|] w1]; [discriminate|].
      unfold outer_handlers. intros H. repeat (case_match; simplify_eq).
    - unfold outer_handlers. intros H. repeat (case_match; simplify_eq).
    - destruct (render_with_fallback _ _ _ _ _ _) as [[r w0] output_file] eqn:Hr.
      destruct r as [p0|e].
      + destruct (render_with_fallback_nonempty _ _ _ _ _ _ _ Hr) as [-> [n Hn]].
        unfold finally_cleanup. rewrite Hn. cbn [outer_handlers].
        intros [= <- <-]. eauto.
      + destruct (finally_cleanup _ _ _) as [[e'|] w1]; [discriminate|].
        unfold outer_handlers. intros H. repeat (case_match; simplify_eq). }
  apply Hmd.
  destruct ai as [[[|c s]|]|e].
  - contradiction.
  - right; right. eauto.
  - now left.
  - destruct (is_Exception e).
    + destruct (fallback_cv_nonempty cv) as (c & r & ->).
      right; right. cbn [mbind res_bind]. eauto.
    + right; left. eauto.
Qed.


End DriverProperties.


Lemma returned_artifact_nonempty_witness :
  exists n, files (World {[ (0%nat, u ".pdf") := 2048%nat ]} 1 0)
              !! (0%nat, u ".pdf") = Some (S n).
Proof.
  apply (returned_artifact_nonempty failing_writer working_writer reliable
           (Ret (Some (u "# Jane Doe"))) graduate_cv (u "pdf") empty_world).
  - discriminate.
  - vm_compute. reflexivity.
Defined.

End DriverFacts.

(** ** Strings *)

Module PyFacts.

Lemma split_nonempty sep s : split sep s <> [].
Proof.
  destruct s as [|c r]; simpl; [discriminate|].
  destruct (c =? sep); [discriminate|]. destruct (split sep r); discriminate.
Qed.

Lemma split_cons sep c s :
  exists hd tl, split sep s = hd :: tl /\
    split sep (c :: s) = if c =? sep then [] :: hd :: tl else (c :: hd) :: tl.
Proof.
  pose proof (split_nonempty sep s) as Hne.
  cbn [split]. destruct (split sep s) as [|hd tl]; [contradiction|].
  now exists hd, tl.
Qed.

(** A text without the separator is one part. *)
Lemma split_one sep l :
  forallb (fun c => negb (c =? sep)) l = true -> split sep l = [l].
Proof.
  induction l as [|c l IH]; intros H; [reflexivity|].
  simpl in H. apply andb_true_iff in H as [Hc Hl]. apply negb_true_iff in Hc.
  cbn [split]. now rewrite Hc, (IH Hl).
Qed.

(** The first part ends at the first separator. *)
Lemma split_line sep l b :
  forallb (fun c => negb (c =? sep)) l = true ->
  split sep (l ++ sep :: b) = l :: split sep b.
Proof.
  induction l as [|c l IH]; intros H.
  - cbn [app split]. now rewrite N.eqb_refl.
  - simpl in H. apply andb_true_iff in H as [Hc Hl]. apply negb_true_iff in Hc.
    cbn [app split]. now rewrite Hc, (IH Hl).
Qed.

(** No part holds the separator. *)
Lemma split_parts sep s :
  Forall (fun p => forallb (fun c => negb (c =? sep)) p = true) (split sep s).
Proof.
  induction s as [|c s IH]; [repeat constructor|].
  destruct (split_cons sep c s) as (hd & tl & E & ->).
  rewrite E in IH. inversion IH as [|? ? Hhd Htl]; subst.
  destruct (c =? sep) eqn:Hc.
  - constructor; [reflexivity|]. now constructor.
  - constructor; [|exact Htl]. simpl. now rewrite Hc.
Qed.

(** Joining parts that do not hold the separator and splitting again gives
    the parts back; no part at all gives the one empty part of the empty
    text. *)
Lemma split_join sep parts :
  Forall (fun p => forallb (fun c => negb (c =? sep)) p = true) parts ->
  split sep (join [sep] parts) = match parts with [] => [[]] | _ :: _ => parts end.
Proof.
  induction 1 as [|p ps Hp Hps IH]; [reflexivity|].
  cbn [join]. destruct ps as [|q ps].
  - now apply split_one.
  - cbn [app]. rewrite (split_line sep p _ Hp). now rewrite IH.
Qed.

Lemma strip_blank s : strip s = [] <-> forallb isspace s = true.
Proof.
  unfold strip. induction s as [|c r IH]; [now split|].
  cbn [lstrip forallb]. destruct (isspace c) eqn:Hc; [exact IH|].
  cbn [rstrip forallb]. rewrite Hc. cbn. split; discriminate.
Qed.

End PyFacts.

Module RetryFacts.
Import GroqClient GroqGenerators.

Lemma requests_and_sleeps_app a b :
  requests_and_sleeps (a ++ b) = requests_and_sleeps a ++ requests_and_sleeps b.
Proof. apply List.filter_app. Qed.

Lemma one_attempt_answers attempt c cs :
  one_attempt attempt (Completed (Choices (c :: cs))) = (Leave (Ret c), []).
Proof. reflexivity. Qed.

Lemma attempts_loop_answers api before k after c cs :
  Forall (fun j => j <> max_retries /\ fails (api j) = true) before ->
  api k = Completed (Choices (c :: cs)) ->
  fst (attempts_loop api (before ++ k :: after)) = Ret c /\
  requests_and_sleeps (snd (attempts_loop api (before ++ k :: after)))
  = flat_map (fun j => [ERequest j; ESleep (retry_delay * (j + 1))]) before
    ++ [ERequest k].
Proof.
  intros Hb Hk. induction Hb as [|j before [Hne Hf] Hb IH]; simpl.
  - rewrite Hk, one_attempt_answers. now split.
  - destruct (RequestFacts.one_attempt_retries j (api j) Hne Hf) as (ev & -> & Hs & _).
    destruct (attempts_loop api (before ++ k :: after)) as [r ev'].
    simpl in *. destruct IH as [-> IH]. split; [reflexivity|].
    change (ERequest j :: ev ++ ev') with ([ERequest j] ++ ev ++ ev').
    rewrite !requests_and_sleeps_app, Hs, IH. reflexivity.
Qed.

(** X6: when attempt [k] is the first that does not fail, [_make_request]
    returns the content of the first choice of its completion; before it stand
    the [k] failed requests, each followed by its pause, and nothing follows
    the request of attempt [k]. *)
Theorem make_request_returns_first_answer api messages k c cs :
  forallb well_formed messages = true ->
  (k <= max_retries)%nat ->
  (forall j, (j < k)%nat -> fails (api j) = true) ->
  api k = Completed (Choices (c :: cs)) ->
  fst (_make_request true api messages) = Ret c /\
  requests_and_sleeps (snd (_make_request true api messages))
  = failed_attempts k ++ [ERequest k].
Proof.
  intros Hm Hk Hf Hc. unfold _make_request. rewrite Hm. simpl negb. cbv iota.
  replace (max_retries + 1)%nat with (k + S (max_retries - k))%nat by lia.
  rewrite List.seq_app. simpl.
  apply (attempts_loop_answers api (seq 0 k) k (seq (S k) (max_retries - k)) c cs);
    [|exact Hc].
  apply List.Forall_forall. intros j Hj. apply List.in_seq in Hj.
  split; [lia|]. apply Hf. lia.
Qed.

Lemma make_request_returns_first_answer_witness :
  fst (_make_request true answers_second one_message)
  = Ret (Some (u "  Dear team,  ")) /\
  requests_and_sleeps (snd (_make_request true answers_second one_message))
  = failed_attempts 1 ++ [ERequest 1].
Proof.
  apply (make_request_returns_first_answer answers_second one_message 1
           (Some (u "  Dear team,  ")) []).
  - reflexivity.
  - unfold max_retries. lia.
  - intros j Hj. destruct j; [reflexivity | lia].
  - reflexivity.
Defined.

Lemma slept_app a b : slept (a ++ b) = (slept a + slept b)%nat.
Proof.
  induction a as [|ev a IH]; simpl; [reflexivity|].
  rewrite IH. destruct ev; lia.
Qed.

Lemma one_attempt_slept attempt o :
  (slept (snd (one_attempt attempt o))
   <= if (attempt =? max_retries)%nat then 0 else retry_delay * (attempt + 1))%nat.
Proof.
  unfold one_attempt, inner_try.
  destruct (attempt =? max_retries)%nat eqn:Ha;
    destruct o as [[|[|c cs]]|e d]; simpl; rewrite ?Ha; simpl; try lia;
    destruct e, d; simpl; rewrite ?Ha; simpl; lia.
Qed.

Lemma attempts_loop_slept api attempts :
  (slept (snd (attempts_loop api attempts))
   <= fold_right (fun a n => ((if (a =? max_retries)%nat then 0
                               else retry_delay * (a + 1)) + n)%nat) 0%nat attempts)%nat.
Proof.
  induction attempts as [|a rest IH]; simpl; [lia|].
  pose proof (one_attempt_slept a (api a)) as H1.
  destruct (one_attempt a (api a)) as [[|r] ev]; simpl in *.
  - destruct (attempts_loop api rest) as [r' ev']; simpl in *.
    rewrite slept_app. lia.
  - lia.
Qed.

Lemma one_attempt_leaves attempt o r ev :
  one_attempt attempt o = (Leave r, ev) -> forallb (fun e => negb (is_sleep e)) ev = true.
Proof.
  unfold one_attempt, inner_try.
  destruct (attempt =? max_retries)%nat;
    destruct o as [[|[|c cs]]|e d]; simpl; try (intros [= <- <-]; reflexivity);
    try discriminate;
    destruct e, d; simpl; try (intros [= <- <-]; reflexivity); discriminate.
Qed.

Lemma one_attempt_last o :
  exists r ev, one_attempt max_retries o = (Leave r, ev).
Proof.
  unfold one_attempt, inner_try.
  destruct o as [[|[|c cs]]|e d]; simpl; eauto; destruct e, d; simpl; eauto.
Qed.

Lemma last_no_sleep ev trace s :
  forallb (fun e => negb (is_sleep e)) trace = true ->
  is_sleep ev = false ->
  last (ev :: trace) <> Some (ESleep s).
Proof.
  intros Ht Hev Hl. apply last_Some_elem_of in Hl.
  apply elem_of_cons in Hl as [<- | Hin]; [discriminate|].
  apply list_elem_of_In in Hin.
  rewrite List.forallb_forall in Ht. now apply Ht in Hin.
Qed.

Lemma attempts_loop_last api attempts s :
  attempts = [] \/ last attempts = Some max_retries ->
  last (snd (attempts_loop api attempts)) <> Some (ESleep s).
Proof.
  induction attempts as [|a rest IH]; intros Hl; [discriminate|].
  destruct Hl as [Hl|Hl]; [discriminate|]. cbn [attempts_loop].
  destruct (one_attempt a (api a)) as [[|r] ev] eqn:Ha.
  - destruct rest as [|b rest'].
    + injection Hl as ->. destruct (one_attempt_last (api max_retries)) as (r & ev0 & H).
      rewrite H in Ha. discriminate.
    + assert (Hr : last (b :: rest') = Some max_retries) by exact Hl.
      specialize (IH (or_intror Hr)).
      destruct (attempts_loop api (b :: rest')) as [r' ev'] eqn:Hloop.
      cbn [snd] in *.
      assert (Hne : ev' <> []).
      { intros ->. cbn [attempts_loop] in Hloop.
        destruct (one_attempt b (api b)) as [[|?] ?];
          [destruct (attempts_loop api rest')|]; discriminate. }
      change (ERequest a :: ev ++ ev') with ((ERequest a :: ev) ++ ev').
      rewrite last_app. destruct (last ev') as [y|] eqn:Hy; [exact IH|].
      apply last_None in Hy. contradiction.
  - cbn [snd]. apply last_no_sleep; [|reflexivity].
    exact (one_attempt_leaves _ _ _ _ Ha).
Qed.

(** X7: whatever the transport does, [_make_request] pauses for at most
    [retry_delay * 1 + retry_delay * 2 = 3] seconds in all, and it never
    pauses after its last request: no trace ends with a pause. *)
Theorem make_request_backoff_bounded configured api messages :
  (slept (snd (_make_request configured api messages)) <= 3)%nat /\
  forall s, last (snd (_make_request configured api messages)) <> Some (ESleep s).
Proof.
  split.
  - unfold _make_request.
    destruct (negb configured); [simpl; lia|].
    destruct (negb (forallb well_formed messages)); [simpl; lia|].
    etransitivity; [apply attempts_loop_slept|]. simpl. lia.
  - intros s. unfold _make_request.
    destruct (negb configured); [discriminate|].
    destruct (negb (forallb well_formed messages)); [discriminate|].
    apply attempts_loop_last. now right.
Qed.

(** X27: the statement after the loop is never reached.  For a configured
    client and well-formed messages, what [_make_request] returns or raises
    is what one of the three attempts left the loop with; the [RuntimeError]
    for exhausted retries that follows the loop is raised by no run. *)
Theorem loop_never_falls_through api messages :
  forallb well_formed messages = true ->
  exists k r ev,
    (k <= max_retries)%nat /\
    one_attempt k (api k) = (Leave r, ev) /\
    fst (_make_request true api messages) = r.
Proof.
  intros Hm. unfold _make_request. rewrite Hm. cbn [negb].
  change (seq 0 (max_retries + 1)) with [0; 1; 2]%nat. cbn [attempts_loop].
  destruct (one_attempt 0 (api 0%nat)) as [[|r0] ev0] eqn:H0.
  2: { exists 0%nat, r0, ev0. split; [unfold max_retries; lia|]. now split. }
  destruct (one_attempt 1 (api 1%nat)) as [[|r1] ev1] eqn:H1.
  2: { exists 1%nat, r1, ev1. split; [unfold max_retries; lia|]. now split. }
  destruct (one_attempt_last (api 2%nat)) as (r2 & ev2 & H2).
  change max_retries with 2%nat in H2. rewrite H2.
  exists 2%nat, r2, ev2. split; [unfold max_retries; lia|]. now split.
Qed.

Lemma loop_never_falls_through_witness :
  exists k r ev,
    (k <= max_retries)%nat /\
    one_attempt k (always_timeout k) = (Leave r, ev) /\
    fst (_make_request true always_timeout one_message) = r.
Proof. apply loop_never_falls_through. reflexivity. Defined.

End RetryFacts.

Module GeneratorFacts.
Import GroqClient CVGenerator GroqGenerators.

(** What [_make_request] returns is what the API gave: the content of the
    first choice of the completion of one of the attempts. *)
Lemma one_attempt_returns attempt o c ev :
  one_attempt attempt o = (Leave (Ret c), ev) -> answer_of o = Some c.
Proof.
  unfold one_attempt, inner_try.
  destruct o as [[|[|c0 cs]]|e d]; simpl.
  - destruct (attempt =? max_retries)%nat; discriminate.
  - destruct (attempt =? max_retries)%nat; discriminate.
  - now intros [= -> _].
  - destruct e, d, (attempt =? max_retries)%nat; simpl; discriminate.
Qed.

Lemma attempts_loop_returns api attempts c :
  fst (attempts_loop api attempts) = Ret c ->
  exists k, In k attempts /\ answer_of (api k) = Some c.
Proof.
  induction attempts as [|a rest IH]; simpl; [discriminate|].
  destruct (one_attempt a (api a)) as [[|r] ev] eqn:Ha.
  - destruct (attempts_loop api rest) as [r' ev']. simpl in *.
    intros H. destruct (IH H) as (k & Hk & Hc). eauto.
  - simpl. intros ->. apply one_attempt_returns in Ha. eauto.
Qed.

Lemma make_request_returns configured api messages c :
  fst (_make_request configured api messages) = Ret c ->
  exists k, (k <= max_retries)%nat /\ answer_of (api k) = Some c.
Proof.
  unfold _make_request.
  destruct (negb configured); [discriminate|].
  destruct (negb (forallb well_formed messages)); [discriminate|].
  intros H. apply attempts_loop_returns in H as (k & Hk & Hc).
  apply List.in_seq in Hk. exists k. split; [lia | exact Hc].
Qed.

Section GeneratorProperties.

Variable cover_letter_prompt : pystr -> pystr -> pystr -> pystr.
Variable portfolio_prompt : pystr -> list pystr -> pystr.
Variable portfolio_system_prompt : pystr.
Variable cv_prompt : cv_data -> pystr.
Variable cv_system_prompt : pystr.


(** X9: [generate_portfolio] as the class keeps it never returns a success:
    whatever the API answers, the dictionary it returns has the status
    [error]; it raises [RuntimeError] when the client is not configured. *)
Theorem generate_portfolio_never_succeeds configured api resume_text sections :
  match fst (generate_portfolio portfolio_prompt portfolio_system_prompt
               configured api resume_text sections) with
  | Ret d =>
      d !! k_status = Some (VStr (u "error")) /\
      d !! k_details = Some (VStr (u "Failed to generate portfolio content")) /\
      exists msg, d !! k_message = Some (VStr msg)
  | Raise e =>
      (configured = false /\
       e = RuntimeError (u "Groq client is not properly configured")) \/
      is_Exception e = false
  end.
Proof.
  unfold generate_portfolio.
  destruct configured; cbn [negb]; [|left; now split].
  destruct (_make_request _ _ _) as [r trace]. cbn [fst].
  assert (Hd : forall e,
             portfolio_error e !! k_status = Some (VStr (u "error")) /\
             portfolio_error e !! k_details
             = Some (VStr (u "Failed to generate portfolio content")) /\
             exists msg, portfolio_error e !! k_message = Some (VStr msg)).
  { intros e. unfold portfolio_error. split; [|split].
    - apply lookup_insert_eq.
    - rewrite lookup_insert_ne by AnswerFacts.keys.
      rewrite lookup_insert_ne by AnswerFacts.keys.
      apply lookup_insert_eq.
    - exists (str_exn e).
      rewrite lookup_insert_ne by AnswerFacts.keys.
      apply lookup_insert_eq. }
  destruct r as [response|e]; cbn [mbind res_bind].
  - unfold portfolio_content.
    destruct response as [[|c s]|]; cbn [try_except is_Exception]; try apply Hd.
    destruct (contains _ _); cbn [try_except is_Exception]; apply Hd.
  - cbn [try_except]. destruct (is_Exception e) eqn:He; [apply Hd | now right].
Qed.


End GeneratorProperties.

(** *** The lines of the simple format *)

(** A line that stands between two newlines is one of the lines after the
    first, whatever stands before. *)
Lemma line_after_newline l b :
  forallb (fun c => negb (c =? NL)) l = true ->
  In l (List.tl (split NL ((NL :: l ++ [NL]) ++ b))).
Proof.
  intros Hl. cbn [app split]. rewrite N.eqb_refl. cbn [List.tl].
  rewrite <- List.app_assoc. cbn [app].
  rewrite (PyFacts.split_line NL l b Hl). now left.
Qed.

Lemma line_after_prefix a r l :
  In l (List.tl (split NL r)) -> In l (List.tl (split NL (a ++ r))).
Proof.
  intros H. induction a as [|c a IH]; [exact H|].
  cbn [app]. destruct (PyFacts.split_cons NL c (a ++ r)) as (hd & tl & E & ->).
  rewrite E in IH. cbn [List.tl] in IH.
  destruct (c =? NL); cbn [List.tl]; [now right | exact IH].
Qed.

(** X11: the simple format always has its four section headings, each on a
    line of its own, also when the section has nothing in it. *)
Theorem simple_cv_has_every_section portfolio cv :
  List.hd_error (split NL (_format_simple_cv portfolio cv))
  = Some (u "# Personal Information") /\
  In (u "# Work Experience") (List.tl (split NL (_format_simple_cv portfolio cv))) /\
  In (u "# Education") (List.tl (split NL (_format_simple_cv portfolio cv))) /\
  In (u "# Skills") (List.tl (split NL (_format_simple_cv portfolio cv))).
Proof.
  unfold _format_simple_cv. split; [|split; [|split]].
  - unfold simple_personal. rewrite <- !List.app_assoc.
    change ([NL] ++ ?x) with (NL :: x).
    rewrite PyFacts.split_line by reflexivity. reflexivity.
  - apply line_after_prefix, line_after_newline. reflexivity.
  - do 3 apply line_after_prefix. apply line_after_newline. reflexivity.
  - do 5 apply line_after_prefix. apply line_after_newline. reflexivity.
Qed.

End GeneratorFacts.

(** ** The ATS score *)

Module AtsFacts.
Import GroqClient AtsScore.

Lemma ats_failure_result e :
  ats_failure e !! k_status = Some (VStr (u "error")) /\
  ats_failure e !! k_score = Some (VInt 0).
Proof.
  unfold ats_failure. split.
  - do 3 (rewrite lookup_insert_ne by AnswerFacts.keys). apply lookup_insert_eq.
  - apply lookup_insert_eq.
Qed.

Lemma ats_unavailable_result :
  ats_unavailable !! k_status = Some (VStr (u "error")) /\
  ats_unavailable !! k_score = Some zero_score.
Proof.
  unfold ats_unavailable. split.
  - do 2 (rewrite lookup_insert_ne by AnswerFacts.keys). apply lookup_insert_eq.
  - apply lookup_insert_eq.
Qed.

(** The inner [try] never returns: the name [json] is not bound. *)
Lemma read_ats_answer_raises json_loads response :
  read_ats_answer json_loads response
  = Raise (NameError (u "name 'json' is not defined")).
Proof. reflexivity. Qed.

(** X12: [get_ats_score] never reports a score: whatever the client is and
    whatever the API answers, the dictionary it returns has the status [error]
    and the score zero. *)
Theorem get_ats_score_never_scores json_loads ats_system_prompt ats_prompt
    groq_client resume_text :
  match get_ats_score json_loads ats_system_prompt ats_prompt groq_client
          resume_text with
  | Ret d =>
      d !! k_status = Some (VStr (u "error")) /\
      (d !! k_score = Some (VInt 0) \/ d !! k_score = Some zero_score)
  | Raise e => is_Exception e = false
  end.
Proof.
  unfold get_ats_score.
  destruct groq_client as [c|].
  2: { destruct ats_unavailable_result as [H1 H2]. split; [exact H1 | now right]. }
  destruct (negb (enabled c)).
  { destruct ats_unavailable_result as [H1 H2]. split; [exact H1 | now right]. }
  destruct (fst (_make_request _ _ _)) as [response|e]; cbn [mbind res_bind].
  - rewrite read_ats_answer_raises. cbn [try_except NameError is_Exception].
    destruct (ats_failure_result (NameError (u "name 'json' is not defined")))
      as [H1 H2].
    split; [exact H1 | now left].
  - cbn [try_except]. destruct (is_Exception e) eqn:He; [|exact He].
    destruct (ats_failure_result e) as [H1 H2]. split; [exact H1 | now left].
Qed.

End AtsFacts.

(** ** The optimizer service *)

Module ServiceFacts.
Import GroqClient ResumeOptimizer.
Import AtsScore (seven_suggestions, service_seven).

Lemma service_error_status resume_text suggestion error_msg :
  service_error resume_text suggestion error_msg !! k_status
  = Some (VStr (u "error")).
Proof.
  unfold service_error.
  do 3 (rewrite lookup_insert_ne by AnswerFacts.keys). apply lookup_insert_eq.
Qed.

(** X13: a success of the service has four keys and no more: the text and the
    score of the client's result, its first five suggestions, and the status.
    The lists of keywords of the client's result are not passed on. *)
Theorem service_success_has_four_keys fbig fstr groq_client
    resume_text job_description d :
  optimize_resume fbig fstr groq_client resume_text job_description = Ret d ->
  d !! k_status = Some (VStr (u "success")) ->
  exists client result suggestions,
    groq_client = Some client /\
    client resume_text job_description = Ret result /\
    d !! k_optimized_text = result !! k_optimized_text /\
    first_five (default VNone (result !! k_suggestions)) = Ret suggestions /\
    d !! k_suggestions = Some suggestions /\
    forall key,
      d !! key <> None ->
      key = k_optimized_text \/ key = k_score \/ key = k_suggestions
      \/ key = k_status.
Proof.
  unfold optimize_resume. intros H Hs.
  destruct (too_short resume_text).
  { injection H as <-. rewrite service_error_status in Hs. discriminate. }
  destruct groq_client as [client|].
  2: { injection H as <-. rewrite service_error_status in Hs. discriminate. }
  destruct (client resume_text job_description) as [result|e] eqn:Hc;
    cbn [mbind res_bind try_except] in H.
  2: { destruct (is_Exception e); [|discriminate].
       injection H as <-. rewrite service_error_status in Hs. discriminate. }
  destruct (forallb _ required_fields) eqn:Hreq; cbn [negb try_except is_Exception] in H.
  2: { injection H as <-. rewrite service_error_status in Hs. discriminate. }
  destruct (to_float _ _ _) as [f|e]; cbn [mbind res_bind try_except] in H.
  2: { destruct (is_Exception e); [|discriminate].
       injection H as <-. rewrite service_error_status in Hs. discriminate. }
  destruct (first_five _) as [suggestions|e] eqn:Hf;
    cbn [mbind res_bind try_except] in H.
  2: { destruct (is_Exception e); [|discriminate].
       injection H as <-. rewrite service_error_status in Hs. discriminate. }
  injection H as <-. exists client, result, suggestions.
  split; [reflexivity|]. split; [exact Hc|]. split; [|split; [exact Hf|split]].
  - rewrite lookup_insert_eq. unfold required_fields in Hreq. cbn [forallb] in Hreq.
    now destruct (result !! k_optimized_text).
  - do 2 (rewrite lookup_insert_ne by AnswerFacts.keys). apply lookup_insert_eq.
  - intros key Hk.
    destruct (decide (key = k_optimized_text)) as [->|H1]; [now left|].
    destruct (decide (key = k_score)) as [->|H2]; [now right; left|].
    destruct (decide (key = k_suggestions)) as [->|H3]; [now right; right; left|].
    destruct (decide (key = k_status)) as [->|H4]; [now right; right; right|].
    exfalso. apply Hk.
    rewrite !lookup_insert_ne by congruence. apply lookup_empty.
Qed.

(** A client that returns the complete answer with seven suggestions. *)
Lemma service_success_has_four_keys_witness :
  exists client result suggestions,
    Some (fun _ _ : pystr => Ret seven_suggestions) = Some client /\
    client long_resume [] = Ret result /\
    service_seven !! k_optimized_text = result !! k_optimized_text /\
    first_five (default VNone (result !! k_suggestions)) = Ret suggestions /\
    service_seven !! k_suggestions = Some suggestions /\
    forall key,
      service_seven !! key <> None ->
      key = k_optimized_text \/ key = k_score \/ key = k_suggestions
      \/ key = k_status.
Proof.
  apply (service_success_has_four_keys no_big_int no_float_str
           (Some (fun _ _ => Ret seven_suggestions)) long_resume [] service_seven).
  - vm_compute. reflexivity.
  - vm_compute. reflexivity.
Defined.

End ServiceFacts.

(** ** The text of a DOCX document *)

Module DocxFacts.
Import DocxText.

Lemma filter_one_line paragraphs :
  forallb one_line paragraphs = true ->
  Forall (fun p => forallb (fun c => negb (c =? NL)) p = true)
    (List.filter (fun text => match text with [] => false | _ :: _ => true end)
       paragraphs).
Proof.
  induction paragraphs as [|p ps IH]; intros H; [constructor|].
  simpl in H. apply andb_true_iff in H as [Hp Hps].
  cbn [List.filter]. destruct p; [now apply IH|].
  constructor; [exact Hp | now apply IH].
Qed.

(** X14: when no paragraph holds a line break, the lines of the text that
    [resume_parser.extract_text_from_docx] returns are the paragraphs that
    have text, in order, so the text has no empty line; the lines of the text
    of [ResumeProcessor._extract_text_from_docx] are all the paragraphs. (A
    document without such paragraphs gives the empty text, whose only line is
    empty.) *)
Theorem docx_lines_are_paragraphs paragraphs :
  forallb one_line paragraphs = true ->
  (exists text,
     extract_text_from_docx true (Ret paragraphs) = Ret (Some text) /\
     split NL text = lines_of (List.filter (fun p => negb (eqs p [])) paragraphs)) /\
  (exists text,
     _extract_text_from_docx (Ret paragraphs) = Ret text /\
     split NL text = lines_of paragraphs).
Proof.
  intros H. split.
  - eexists. split; [reflexivity|].
    replace (List.filter (fun p => negb (eqs p [])) paragraphs)
      with (List.filter (fun text : pystr => match text with
                                             | [] => false
                                             | _ :: _ => true
                                             end) paragraphs)
      by (apply List.filter_ext; now intros []).
    apply PyFacts.split_join, filter_one_line, H.
  - eexists. split; [reflexivity|].
    apply PyFacts.split_join. apply List.Forall_forall. intros p Hp.
    unfold one_line in H. rewrite List.forallb_forall in H. now apply H.
Qed.

Lemma docx_lines_are_paragraphs_witness :
  (exists text,
     extract_text_from_docx true (Ret letter_paragraphs) = Ret (Some text) /\
     split NL text
     = lines_of (List.filter (fun p => negb (eqs p [])) letter_paragraphs)) /\
  (exists text,
     _extract_text_from_docx (Ret letter_paragraphs) = Ret text /\
     split NL text = lines_of letter_paragraphs).
Proof. apply docx_lines_are_paragraphs. reflexivity. Defined.

End DocxFacts.

(** ** The cleaned text *)

Module CleanedFacts.
Import ResumeProcessor ResumeAnalysis.

Lemma sub_ws_blank b s : forallb isspace (sub_ws_from b s) = forallb isspace s.
Proof.
  revert b. induction s as [|c r IH]; intros b; [reflexivity|].
  cbn [sub_ws_from forallb]. destruct (isspace c) eqn:Hc.
  - destruct b; cbn [forallb]; rewrite ?IH; reflexivity.
  - cbn [forallb]. now rewrite Hc.
Qed.

Lemma sub_bullet_nil s : sub_bullet s = [] -> s = [].
Proof.
  destruct s as [|c r]; [reflexivity|].
  unfold sub_bullet. cbn [flat_map]. destruct (c =? 8226); discriminate.
Qed.

Lemma cleaned_text_shape text :
  _clean_extracted_text text = sub_bullet (strip (sub_ws text)) /\
  tidy (_clean_extracted_text text).
Proof.
  assert (E : _clean_extracted_text text = sub_bullet (strip (sub_ws text))).
  { destruct text as [|c r]; [reflexivity|].
    unfold _clean_extracted_text.
    apply CleanFacts.later_passes_tidy, CleanFacts.strip_sub_ws_tidy. }
  split; [exact E|].
  rewrite E. apply CleanFacts.tidy_sub_bullet, CleanFacts.strip_sub_ws_tidy.
Qed.

(** X15: the text that [_clean_extracted_text] returns is one line: it is the
    text with every run of white space made one space and the ends stripped,
    with the bullets replaced. No newline is left for the passes on section
    headers and on runs of newlines, which change nothing. *)
Theorem cleaned_text_is_one_line text :
  _clean_extracted_text text = sub_bullet (strip (sub_ws text)) /\
  tidy (_clean_extracted_text text) /\
  forallb (fun c => negb (c =? NL)) (_clean_extracted_text text) = true.
Proof.
  destruct (cleaned_text_shape text) as [E T].
  split; [exact E|]. split; [exact T|].
  exact (CleanFacts.spaced_no_newline _ _ (proj1 T)).
Qed.

(** Text that is not blank stays so. *)
Lemma cleaned_text_not_blank text :
  blank text = false -> _clean_extracted_text text <> [].
Proof.
  intros Hb Hc. unfold blank in Hb.
  assert (Hs : forallb isspace text = false).
  { destruct (forallb isspace text) eqn:E; [|reflexivity].
    apply PyFacts.strip_blank in E. now rewrite E in Hb. }
  destruct text as [|c r]; [discriminate|].
  unfold _clean_extracted_text in Hc.
  rewrite CleanFacts.later_passes_tidy in Hc by apply CleanFacts.strip_sub_ws_tidy.
  apply sub_bullet_nil in Hc. apply PyFacts.strip_blank in Hc.
  unfold sub_ws in Hc. rewrite sub_ws_blank in Hc. congruence.
Qed.

End CleanedFacts.

(** ** From the file to the analysis *)

Module AnalysisFacts.
Import ResumeProcessor GroqClient GroqGenerators DocxText ResumeAnalysis.

Section AnalysisProperties.

Variable lower : pystr -> pystr.
Variable guess_type : pystr -> option pystr.
Variable suffix : pystr -> pystr.
Variable str_format : pystr -> pystr -> res pystr.
Variable json_loads : pystr -> res pyval.
Variable configured : bool.
Variable api : nat -> wait_outcome.
Variable analysis_prompt : pystr -> pystr.
Variable analysis_system_prompt : pystr.


(** X17: for a file that exists and whose type names [pdf], [_extract_text]
    returns the texts of the pages that yield one, joined by newlines; a PDF
    without text gives the empty text and no error. *)
Theorem extract_text_of_pdf f file_type pages :
  missing f = false ->
  contains (u "pdf") (lower file_type) = true ->
  pdf_reader f = Ret pages ->
  forallb page_ok pages = true ->
  _extract_text lower f file_type = Ret (join [NL] (page_texts pages)).
Proof.
  intros Hm Hp Hr Hok. unfold _extract_text, _extract_text_from_pdf.
  rewrite Hm, Hp, Hr. cbn [mbind res_bind].
  rewrite (ExtractFacts.collect_pages_texts pages [] Hok). cbn [app].
  now destruct (page_texts pages).
Qed.

Lemma read_analysis_dict response result :
  read_analysis json_loads response = Ret result ->
  exists d r, result = VDict d /\ response = Some r /\
              json_loads (default r (search_fence r)) = Ret (VDict d).
Proof.
  unfold read_analysis. destruct response as [r|]; cbn [mbind res_bind].
  - destruct (json_loads _) as [v|e] eqn:E; cbn [mbind res_bind]; [|discriminate].
    destruct v; try discriminate. intros [= <-]. eauto.
  - discriminate.
Qed.

Lemma analyze_cases text :
  blank text = false ->
  (exists d user_prompt k r,
     _analyze_with_ai lower str_format json_loads configured api
       analysis_prompt analysis_system_prompt text = Ret (VDict d) /\
     str_format (analysis_prompt text) (List.firstn (N.to_nat 10000) text)
     = Ret user_prompt /\
     (k <= max_retries)%nat /\ answer_of (api k) = Some (Some r) /\
     json_loads (default r (search_fence r)) = Ret (VDict d)) \/
  _analyze_with_ai lower str_format json_loads configured api
    analysis_prompt analysis_system_prompt text
  = Raise (AttributeError
             (u "'ResumeProcessor' object has no attribute '_basic_text_extraction'")) \/
  (exists e,
     _analyze_with_ai lower str_format json_loads configured api
       analysis_prompt analysis_system_prompt text = Raise e /\
     is_Exception e = false).
Proof.
  intros Hb. unfold _analyze_with_ai. rewrite Hb.
  destruct (str_format _ _) as [user_prompt|e] eqn:Hf; cbn [mbind res_bind].
  2: { cbn [try_except]. destruct (is_Exception e) eqn:He; [now right; left|].
       right; right. eauto. }
  destruct (fst (_make_request _ _ _)) as [response|e] eqn:Hr; cbn [mbind res_bind].
  2: { cbn [try_except]. destruct (is_Exception e) eqn:He; [now right; left|].
       right; right. eauto. }
  destruct (read_analysis json_loads response) as [result|e] eqn:Ha.
  - apply read_analysis_dict in Ha as (d & r & -> & -> & Hj).
    apply GeneratorFacts.make_request_returns in Hr as (k & Hk & Hc).
    left. exists d, user_prompt, k, r. cbn [try_except]. repeat split; assumption.
  - destruct (is_ValueError e); cbn [try_except _basic_text_extraction is_Exception];
      [now right; left|].
    destruct (is_Exception e) eqn:He; [now right; left|].
    right; right. eauto.
Qed.

(** X18: for text that is not blank, [_analyze_with_ai] has no fallback: it
    returns the JSON object that the answer of the API (or its fenced block)
    decodes to, and in every other case (the prompt cannot be formatted, the
    request fails, the answer is no JSON or no object) it raises the
    [AttributeError] of the method [_basic_text_extraction], which the class
    does not define. *)
Theorem analysis_has_no_fallback text :
  blank text = false ->
  match _analyze_with_ai lower str_format json_loads configured api
          analysis_prompt analysis_system_prompt text with
  | Ret result =>
      exists d user_prompt k r,
        result = VDict d /\
        str_format (analysis_prompt text) (List.firstn (N.to_nat 10000) text)
        = Ret user_prompt /\
        (k <= max_retries)%nat /\ answer_of (api k) = Some (Some r) /\
        json_loads (default r (search_fence r)) = Ret (VDict d)
  | Raise e =>
      e = AttributeError
            (u "'ResumeProcessor' object has no attribute '_basic_text_extraction'")
      \/ is_Exception e = false
  end.
Proof.
  intros Hb.
  destruct (analyze_cases text Hb)
    as [(d & p & k & r & -> & H)|[->|(e & -> & He)]].
  - exists d, p, k, r. now split.
  - now left.
  - now right.
Qed.

(** X19: [process_resume] raises no [Exception]. The dictionary it returns has
    the key [error] only, or it has the file's statistics, the analysis, which
    is the JSON object of the API's answer, and the content, which is the
    cleaned text of the file and is not empty. *)
Theorem process_resume_result f :
  match process_resume lower guess_type suffix str_format json_loads
          configured api analysis_prompt analysis_system_prompt f with
  | Ret d =>
      (exists error_msg, d = error_result error_msg) \/
      (exists text analysis,
         missing f = false /\
         _extract_text lower f (_get_file_type lower guess_type suffix (file_path f))
         = Ret text /\
         blank text = false /\
         _clean_extracted_text text <> [] /\
         d !! k_file_info = Some (VDict (file_stats f)) /\
         d !! k_content = Some (VStr (_clean_extracted_text text)) /\
         d !! k_analysis = Some (VDict analysis) /\
         d !! k_error = None)
  | Raise e => is_Exception e = false
  end.
Proof.
  unfold process_resume. destruct (missing f) eqn:Hm; [left; eauto|].
  set (file_type := _get_file_type lower guess_type suffix (file_path f)).
  destruct (negb (supported_type lower file_type)); [left; eauto|].
  destruct (_extract_text lower f file_type) as [text|e] eqn:He; cbn [mbind res_bind].
  2: { cbn [try_except]. destruct (is_Exception e) eqn:Hx; [left; eauto | exact Hx]. }
  destruct (blank text) eqn:Hb; [left; eauto|].
  pose proof (CleanedFacts.cleaned_text_not_blank text Hb) as Hne.
  assert (Hc : blank (_clean_extracted_text text) = false).
  { unfold blank.
    destruct (CleanedFacts.cleaned_text_shape text) as [_ T].
    rewrite (CleanFacts.tidy_strip _ T).
    now destruct (_clean_extracted_text text). }
  destruct (analyze_cases (_clean_extracted_text text) Hc)
    as [(d & p & k & r & -> & H)|[->|(e & -> & Hx)]]; cbn [mbind res_bind try_except].
  - right. exists text, d.
    split; [first [reflexivity | assumption]|].
    split; [first [reflexivity | assumption]|].
    split; [first [reflexivity | assumption]|].
    split; [exact Hne|]. split; [|split; [|split]].
    + apply lookup_insert_eq.
    + rewrite lookup_insert_ne by AnswerFacts.keys. apply lookup_insert_eq.
    + do 2 (rewrite lookup_insert_ne by AnswerFacts.keys). apply lookup_insert_eq.
    + do 3 (rewrite lookup_insert_ne by AnswerFacts.keys). apply lookup_empty.
  - cbn [is_Exception]. left; eauto.
  - rewrite Hx. exact Hx.
Qed.

End AnalysisProperties.

Lemma extract_text_of_pdf_witness :
  _extract_text ascii_lower two_page_pdf (u "application/pdf")
  = Ret (join [NL] (page_texts [PageText (u "JANE  DOE"); PageText (u "Engineer")])).
Proof.
  apply (extract_text_of_pdf ascii_lower two_page_pdf (u "application/pdf")
           [PageText (u "JANE  DOE"); PageText (u "Engineer")]); reflexivity.
Defined.

Lemma analysis_has_no_fallback_witness :
  match _analyze_with_ai ascii_lower plain_format empty_object_loads true object_api
          (fun text => text) [] (u "Jane Doe") with
  | Ret result =>
      exists d user_prompt k r,
        result = VDict d /\
        plain_format (u "Jane Doe") (List.firstn (N.to_nat 10000) (u "Jane Doe"))
        = Ret user_prompt /\
        (k <= max_retries)%nat /\ answer_of (object_api k) = Some (Some r) /\
        empty_object_loads (default r (search_fence r)) = Ret (VDict d)
  | Raise e =>
      e = AttributeError
            (u "'ResumeProcessor' object has no attribute '_basic_text_extraction'")
      \/ is_Exception e = false
  end.
Proof.
  apply (analysis_has_no_fallback ascii_lower plain_format empty_object_loads true
           object_api (fun text => text) [] (u "Jane Doe")).
  reflexivity.
Defined.

(** *** The summary of the basic extraction *)

Lemma full_stops_app a b : full_stops (a ++ b) = (full_stops a + full_stops b)%nat.
Proof. unfold full_stops. now rewrite List.filter_app, List.length_app. Qed.

Lemma full_stops_none p :
  forallb (fun c => negb (c =? 46)) p = true -> full_stops p = 0%nat.
Proof.
  unfold full_stops. induction p as [|c p IH]; intros H; [reflexivity|].
  simpl in H. apply andb_true_iff in H as [Hc Hp]. apply negb_true_iff in Hc.
  cbn [List.filter]. rewrite N.eqb_sym, Hc. now apply IH.
Qed.

Lemma full_stops_join parts :
  Forall (fun p => forallb (fun c => negb (c =? 46)) p = true) parts ->
  full_stops (join (u ". ") parts) = Nat.pred (List.length parts).
Proof.
  induction 1 as [|p ps Hp Hps IH]; [reflexivity|].
  cbn [join]. destruct ps as [|q ps]; [now apply full_stops_none|].
  rewrite !full_stops_app, IH, (full_stops_none p Hp). reflexivity.
Qed.

Lemma full_stops_lstrip s : (full_stops (lstrip s) <= full_stops s)%nat.
Proof.
  induction s as [|c r IH]; [reflexivity|]. cbn [lstrip].
  destruct (isspace c); [|reflexivity].
  etransitivity; [exact IH|]. unfold full_stops. cbn [List.filter].
  destruct (46 =? c); simpl; lia.
Qed.

Lemma full_stops_rstrip s : (full_stops (rstrip s) <= full_stops s)%nat.
Proof.
  induction s as [|c r IH]; [reflexivity|]. cbn [rstrip].
  destruct (forallb isspace (c :: r)); [unfold full_stops; simpl; lia|].
  unfold full_stops in *. cbn [List.filter].
  destruct (46 =? c); simpl; lia.
Qed.

(** X20: the summary of the basic extraction always ends with a full stop and
    holds at most three: the two that join the first three sentences and the
    one that is added. The summary of the empty text is the full stop. *)
Theorem summary_has_at_most_three_full_stops text :
  last (_extract_summary text) = Some 46 /\
  (full_stops (_extract_summary text) <= 3)%nat /\
  _extract_summary [] = [46].
Proof.
  unfold _extract_summary.
  pose proof (PyFacts.split_nonempty 46 text) as Hne.
  pose proof (PyFacts.split_parts 46 text) as Hparts.
  destruct (split 46 text) as [|s ss]; [contradiction|].
  split; [apply last_snoc|]. split; [|reflexivity].
  rewrite full_stops_app. change (full_stops [46]) with 1%nat.
  assert (H : (full_stops (join (u ". ") (List.firstn 3 (s :: ss))) <= 2)%nat).
  { rewrite full_stops_join.
    - pose proof (List.firstn_le_length 3 (s :: ss)). lia.
    - apply Forall_take, Hparts. }
  unfold strip.
  pose proof (full_stops_rstrip (lstrip (join (u ". ") (List.firstn 3 (s :: ss))))).
  pose proof (full_stops_lstrip (join (u ". ") (List.firstn 3 (s :: ss)))).
  lia.
Qed.

End AnalysisFacts.

(** ** Every line is rendered once *)

Module LineFacts.
Import CVGenerator CVObservations.







End LineFacts.

(** ** The files that [generate_cv] leaves *)

Module FileFacts.
Import CVGenerator CVObservations.

Section FileProperties.

Variable docx_writer : list docx_paragraph -> render_outcome.
Variable pdf_writer : list flowable -> render_outcome.
Variable os : disk.

Lemma fresh_now w ext : fresh w -> files w !! (next_uuid w, ext) = None.
Proof. intros H. apply H. lia. Qed.

Lemma fresh_next w ext : fresh w -> files w !! (S (next_uuid w), ext) = None.
Proof. intros H. apply H. lia. Qed.

(** A write touches its path only. *)
Lemma write_text_frame p content w q :
  q <> p -> files (snd (write_text os p content w)) !! q = files w !! q.
Proof.
  intros Hq. unfold write_text, set_file, tick.
  repeat case_match; cbn [snd files]; rewrite ?lookup_insert_ne by congruence;
    reflexivity.
Qed.

Lemma render_frame output_format md p w q :
  q <> p ->
  files (snd (render docx_writer pdf_writer os output_format md p w)) !! q
  = files w !! q.
Proof.
  intros Hq. unfold render.
  destruct (_ || _); [|now apply write_text_frame].
  destruct md as [md|]; [|reflexivity].
  unfold run_writer, set_file.
  destruct (eqs _ _); cbn [snd files]; case_match;
    rewrite ?lookup_insert_ne, ?lookup_delete_ne by congruence; reflexivity.
Qed.

(** A write that raises leaves no file or an empty one when no write fails
    with bytes in the file; a write that returns leaves a file. *)
Lemma write_text_at p content w :
  (forall n p e k, write_fault os n p = Some (WriteFails e k) -> k = 0%nat) ->
  files w !! p = None ->
  match fst (write_text os p content w) with
  | Ret _ => True
  | Raise _ =>
      files (snd (write_text os p content w)) !! p = None \/
      files (snd (write_text os p content w)) !! p = Some 0%nat
  end.
Proof.
  intros Hk Hp. unfold write_text, set_file, tick.
  destruct (write_fault os (clock w) p) as [[e|e k]|] eqn:Hf.
  - left. exact Hp.
  - apply Hk in Hf. subst k.
    destruct content as [s|]; [destruct (surrogates_at 0 s) as [[pos run]|]|];
      cbn [fst snd files]; right; apply lookup_insert_eq.
  - destruct content as [s|]; [destruct (surrogates_at 0 s) as [[pos run]|]|];
      cbn [fst snd files]; try exact I; right; apply lookup_insert_eq.
Qed.

(** Where removals work: lines 100-105 leave no file at the output path and
    touch nothing else. *)
Lemma remove_failed_output_reliable out w :
  (forall n p, remove_fault os n p = None) ->
  exists w' o,
    remove_failed_output os out w = (Ret tt, w', o) /\
    (o = None \/ o = Some out) /\
    next_uuid w' = next_uuid w /\
    files w' !! out = None /\
    forall q, q <> out -> files w' !! q = files w !! q.
Proof.
  intros Hrm. unfold remove_failed_output, remove. rewrite Hrm.
  destruct (files w !! out) eqn:Ho.
  - eexists _, _. split; [reflexivity|]. cbn [set_file tick files next_uuid].
    split; [now left|]. split; [reflexivity|]. split; [apply lookup_delete_eq|].
    intros q Hq. now apply lookup_delete_ne.
  - eexists _, _. split; [reflexivity|]. split; [now right|].
    split; [reflexivity|]. split; [exact Ho | reflexivity].
Qed.

(** Where removals work, the [finally] clause lets the result through; it
    touches the file of [output_file] only, and leaves no empty file
    there. *)
Lemma finally_cleanup_reliable o w :
  (forall n p, remove_fault os n p = None) ->
  fst (finally_cleanup os o w) = None /\
  (forall q, o <> Some q ->
             files (snd (finally_cleanup os o w)) !! q = files w !! q) /\
  (forall p, o = Some p ->
             (files w !! p = None \/ files w !! p = Some 0%nat) ->
             files (snd (finally_cleanup os o w)) !! p = None).
Proof.
  intros Hrm. unfold finally_cleanup, remove.
  destruct o as [p|].
  2: { split; [reflexivity|]. split; [reflexivity | intros; discriminate]. }
  destruct (files w !! p) as [[|k]|] eqn:Hp.
  - rewrite Hrm. cbn [fst snd set_file tick files]. split; [reflexivity|]. split.
    + intros q Hq. apply lookup_delete_ne. congruence.
    + intros p' [= <-] _. apply lookup_delete_eq.
  - cbn [fst snd]. split; [reflexivity|]. split; [reflexivity|].
    intros p' [= <-] [H|H]; congruence.
  - cbn [fst snd]. split; [reflexivity|]. split; [reflexivity|].
    intros p' [= <-] _. exact Hp.
Qed.

(** Lines 78-115 with the [finally] clause, where removals work and no write
    fails with bytes in the file: the files other than the one returned are
    as before; when an [Exception] is raised, all are. *)
Lemma render_leaves_no_other_file output_format md w r w' output_file :
  fresh w ->
  (forall n p, remove_fault os n p = None) ->
  (forall n p e k, write_fault os n p = Some (WriteFails e k) -> k = 0%nat) ->
  render_with_fallback docx_writer pdf_writer os output_format md w
  = (r, w', output_file) ->
  match r with
  | Ret p => forall q, q <> p ->
             files (snd (finally_cleanup os output_file w')) !! q = files w !! q
  | Raise e => is_Exception e = true ->
               forall q,
                 files (snd (finally_cleanup os output_file w')) !! q = files w !! q
  end.
Proof.
  intros Hf Hrm Hk.
  pose proof (fresh_now w (u "." ++ output_format) Hf) as H0.
  pose proof (fresh_next w (u ".md") Hf) as H1.
  unfold render_with_fallback, get_temp_file.
  set (out := (next_uuid w, u "." ++ output_format)) in *.
  pose proof (fun q => render_frame output_format md out
                         (World (files w) (S (next_uuid w)) (clock w)) q) as Hframe.
  pose proof (DriverFacts.render_keeps_counter docx_writer pdf_writer os
                output_format md out
                (World (files w) (S (next_uuid w)) (clock w))) as Hc.
  destruct (render _ _ _ _ _ _ _) as [r1 w1]. cbn [snd files next_uuid] in Hframe, Hc.
  set (checked := (_ ← r1; if missing_or_empty out w1 then _ else Ret out)).
  assert (Hchecked : match checked with
                     | Ret p => p = out /\ exists n, files w1 !! out = Some (S n)
                     | Raise _ => True
                     end).
  { subst checked. destruct r1 as [[]|e]; cbn [mbind res_bind]; [|exact I].
    unfold missing_or_empty. destruct (files w1 !! out) as [[|n]|]; eauto. }
  destruct checked as [p|fe].
  - destruct Hchecked as [-> [n Hn]]. intros [= <- <- <-] q Hq.
    destruct (finally_cleanup_reliable (Some out) w1 Hrm) as (_ & Hother & _).
    rewrite Hother by congruence. now apply Hframe.
  - destruct (is_Exception fe) eqn:Hfe.
    2: { intros [= <- <- <-] He. congruence. }
    destruct (remove_failed_output_reliable out w1 Hrm)
      as (w2 & o2 & -> & Ho2 & Hn2 & Hout & Hrest).
    assert (Hsame : forall q, files w2 !! q = files w !! q).
    { intros q. destruct (decide (q = out)) as [->|Hq]; [congruence|].
      rewrite Hrest by exact Hq. now apply Hframe. }
    destruct (negb (eqs output_format (u "md"))).
    + rewrite Hn2, Hc.
      set (md_path := (S (next_uuid w), u ".md")) in *.
      pose proof (write_text_frame md_path md
                    (World (files w2) (S (S (next_uuid w))) (clock w2))) as Hwf.
      pose proof (write_text_at md_path md
                    (World (files w2) (S (S (next_uuid w))) (clock w2)) Hk) as Hwa.
      cbn [files] in Hwf, Hwa. rewrite Hsame in Hwa. specialize (Hwa H1).
      destruct (write_text _ _ _ _) as [written w3]. cbn [fst snd] in Hwf, Hwa.
      destruct (finally_cleanup_reliable (Some md_path) w3 Hrm)
        as (_ & Hother & Hempty).
      destruct written as [[]|e]; cbn [mbind res_bind].
      * intros [= <- <- <-] q Hq. rewrite Hother by congruence.
        rewrite Hwf by exact Hq. apply Hsame.
      * intros [= <- <- <-] He q.
        destruct (decide (q = md_path)) as [->|Hq].
        { rewrite (Hempty _ eq_refl Hwa). now rewrite H1. }
        rewrite Hother by congruence. rewrite Hwf by exact Hq. apply Hsame.
    + intros [= <- <- <-] He q.
      destruct (finally_cleanup_reliable o2 w2 Hrm) as (_ & Hother & Hempty).
      destruct (decide (o2 = Some q)) as [Ho|Hq].
      * destruct Ho2 as [Hn|Hs]; [congruence|].
        assert (q = out) by congruence. subst q.
        rewrite (Hempty _ Ho (or_introl Hout)). now rewrite H0.
      * rewrite Hother by exact Hq. apply Hsame.
Qed.

(** What the [finally] clause lets escape is no [Exception]. *)
Lemma finally_escapes o w e :
  fst (finally_cleanup os o w) = Some e -> is_Exception e = false.
Proof.
  unfold finally_cleanup. destruct o as [p|]; [|discriminate].
  destruct (files w !! p) as [[|k]|]; try discriminate.
  destruct (remove os p w) as [[[]|e'] w']; [discriminate|].
  cbn [fst]. destruct (is_Exception e') eqn:He; [discriminate|].
  now intros [= <-].
Qed.

Lemma outer_handlers_exception r e :
  outer_handlers r = Raise e -> is_Exception e = true ->
  (exists e0, r = Raise e0 /\ is_Exception e0 = true) /\
  exists msg, e = RuntimeError (u "Failed to generate CV: " ++ msg).
Proof.
  unfold outer_handlers. destruct r as [p|e0]; [discriminate|].
  destruct (is_TimeoutError e0) eqn:Ht.
  - intros [= <-] _. split; [exists e0; split; [reflexivity | now destruct e0]|].
    eexists. reflexivity.
  - destruct (is_Exception e0) eqn:Hx.
    + intros [= <-] _. split; [eauto|]. eexists. reflexivity.
    + intros [= <-] He. congruence.
Qed.

(** X22: where every removal works and no write fails with bytes in the
    file, [generate_cv] leaves the file system as it found it, the file it
    returns apart: when it returns a path, every other file is as before
    (the output file of a render that failed is removed before the markdown
    fallback is written); when it raises an [Exception], every file is.
    Without the two conditions a file can stay behind: the [finally]
    clause removes empty files only. *)
Theorem generate_cv_leaves_no_other_file ai cv output_format w :
  fresh w ->
  (forall n p, remove_fault os n p = None) ->
  (forall n p e k, write_fault os n p = Some (WriteFails e k) -> k = 0%nat) ->
  match fst (generate_cv docx_writer pdf_writer os ai cv output_format w) with
  | Ret p =>
      forall q, q <> p ->
        files (snd (generate_cv docx_writer pdf_writer os ai cv output_format w))
        !! q = files w !! q
  | Raise e =>
      is_Exception e = true ->
      files (snd (generate_cv docx_writer pdf_writer os ai cv output_format w))
      = files w
  end.
Proof.
  intros Hf Hrm Hk. unfold generate_cv.
  destruct (negb (supported output_format)); [cbn [fst snd]; now intros _|].
  set (markdown_content := match ai with
                           | Ret c => Ret c
                           | Raise e =>
                               if is_Exception e
                               then md ← _generate_fallback_cv cv; Ret (Some md)
                               else Raise e
                           end).
  destruct markdown_content as [md|e0].
  2: { cbn [fst snd]. destruct (outer_handlers (Raise e0)); now intros. }
  destruct (render_with_fallback _ _ _ _ _ _) as [[r w1] output_file] eqn:Hr.
  pose proof (render_leaves_no_other_file _ _ _ _ _ _ Hf Hrm Hk Hr) as H.
  destruct (finally_cleanup_reliable output_file w1 Hrm) as (Hesc & _).
  destruct (finally_cleanup os output_file w1) as [escaped w2].
  cbn [fst snd] in *. subst escaped.
  destruct (outer_handlers r) as [p|e] eqn:Ho.
  - destruct r as [p0|e0]; [|unfold outer_handlers in Ho; repeat case_match; discriminate].
    injection Ho as <-. exact H.
  - intros He. destruct (outer_handlers_exception r e Ho He) as [(e0 & -> & He0) _].
    apply map_eq. intros q. now apply H.
Qed.

(** X23: every [Exception] that [generate_cv] raises is the [ValueError] of
    an output format that is not supported, raised before anything is done,
    or a [RuntimeError] whose message starts with [Failed to generate CV: ],
    whatever the file system does. *)
Theorem generate_cv_raises_runtime_error ai cv output_format w e :
  fst (generate_cv docx_writer pdf_writer os ai cv output_format w) = Raise e ->
  is_Exception e = true ->
  (supported output_format = false /\
   e = ValueError (u "Unsupported output format: " ++ output_format
                   ++ u ". Must be 'docx', 'md', or 'pdf'.") /\
   snd (generate_cv docx_writer pdf_writer os ai cv output_format w) = w) \/
  (supported output_format = true /\
   exists msg, e = RuntimeError (u "Failed to generate CV: " ++ msg)).
Proof.
  unfold generate_cv. destruct (supported output_format); cbn [negb].
  - intros H He. right. split; [reflexivity|].
    destruct (match ai with
              | Ret c => Ret c
              | Raise e0 =>
                  if is_Exception e0
                  then md ← _generate_fallback_cv cv; Ret (Some md)
                  else Raise e0
              end) as [md|e0].
    + destruct (render_with_fallback _ _ _ _ _ _) as [[r w1] output_file].
      pose proof (finally_escapes output_file w1) as Hesc.
      destruct (finally_cleanup os output_file w1) as [[e'|] w2]; cbn [fst] in *.
      * injection H as ->. rewrite (Hesc _ eq_refl) in He. discriminate.
      * exact (proj2 (outer_handlers_exception r e H He)).
    + cbn [fst] in H. exact (proj2 (outer_handlers_exception _ e H He)).
  - intros [= <-] _. left. repeat split.
Qed.

End FileProperties.

(** Where a write fails with bytes in the file, the file stays: the render
    to DOCX raises, the markdown fallback fails after four bytes, the call
    raises and the [.md] file is left behind, for the [finally] clause
    removes empty files only. *)
Lemma partial_write_is_left_behind :
  generate_cv failing_writer working_writer full_disk
    (Ret (Some (u "# Jane Doe"))) graduate_cv (u "docx") empty_world
  = (Raise (RuntimeError (u "Failed to generate CV: No space left on device")),
     World {[ (1%nat, u ".md") := 4%nat ]} 2 1).
Proof. vm_compute. reflexivity. Qed.

Lemma generate_cv_leaves_no_other_file_witness :
  match fst (generate_cv failing_writer working_writer reliable
               (Ret (Some (u "# Jane Doe"))) graduate_cv (u "docx") empty_world) with
  | Ret p =>
      forall q, q <> p ->
        files (snd (generate_cv failing_writer working_writer reliable
                      (Ret (Some (u "# Jane Doe"))) graduate_cv (u "docx")
                      empty_world)) !! q
        = files empty_world !! q
  | Raise e =>
      is_Exception e = true ->
      files (snd (generate_cv failing_writer working_writer reliable
                    (Ret (Some (u "# Jane Doe"))) graduate_cv (u "docx")
                    empty_world))
      = files empty_world
  end.
Proof.
  apply (generate_cv_leaves_no_other_file failing_writer working_writer reliable
           (Ret (Some (u "# Jane Doe"))) graduate_cv (u "docx") empty_world).
  - intros n ext _. apply lookup_empty.
  - reflexivity.
  - discriminate.
Defined.

Lemma generate_cv_raises_runtime_error_witness :
  (supported (u "md") = false /\
   RuntimeError (u "Failed to generate CV: Failed to generate CV: "
                 ++ u "write() argument must be str, not None")
   = ValueError (u "Unsupported output format: " ++ u "md"
                 ++ u ". Must be 'docx', 'md', or 'pdf'.") /\
   snd (generate_cv failing_writer working_writer reliable (Ret None) graduate_cv
          (u "md") empty_world) = empty_world) \/
  (supported (u "md") = true /\
   exists msg,
     RuntimeError (u "Failed to generate CV: Failed to generate CV: "
                   ++ u "write() argument must be str, not None")
     = RuntimeError (u "Failed to generate CV: " ++ msg)).
Proof.
  apply (generate_cv_raises_runtime_error failing_writer working_writer reliable
           (Ret None) graduate_cv (u "md") empty_world); reflexivity.
Defined.

End FileFacts.

(** ** The portfolio builder *)

Module BuilderFacts.
Import GroqClient GroqGenerators PortfolioBuilder.

Lemma builder_error_status message :
  builder_error message !! k_status = Some (VStr (u "error")).
Proof. apply lookup_insert_eq. Qed.

Lemma content_of_raises response :
  exists msg, content_of response = Raise (TypeError msg).
Proof. destruct response; eexists; reflexivity. Qed.

(** X24: [enhance_content] and [suggest_sections] never return a success:
    whatever the API answers, the dictionary they return has the status
    [error], and they raise no [Exception]. *)
Theorem builder_calls_never_succeed json_loads ai_system_prompt configured api
    prompt section :
  match enhance_content ai_system_prompt configured api prompt section with
  | Ret d => d !! k_status = Some (VStr (u "error"))
  | Raise e => is_Exception e = false
  end /\
  match suggest_sections json_loads ai_system_prompt configured api prompt with
  | Ret d => d !! k_status = Some (VStr (u "error"))
  | Raise e => is_Exception e = false
  end.
Proof.
  unfold enhance_content, suggest_sections.
  destruct prompt as [user_prompt|e]; cbn [mbind res_bind].
  2: { cbn [try_except]. destruct (is_Exception e) eqn:He; split;
         first [apply builder_error_status | exact He]. }
  destruct (fst (_make_request _ _ _)) as [response|e]; cbn [mbind res_bind].
  2: { cbn [try_except]. destruct (is_Exception e) eqn:He; split;
         first [apply builder_error_status | exact He]. }
  destruct (content_of_raises response) as [msg ->].
  destruct (lacks_content response); cbn [mbind res_bind try_except is_ValueError
                                            is_Exception];
    split; apply builder_error_status.
Qed.

End BuilderFacts.

(** ** The two PDF extractors *)

Module PdfFacts.
Import ResumeProcessor PdfPages.

Lemma rstrip_space_end s c : isspace c = true -> rstrip (s ++ [c]) = rstrip s.
Proof.
  intros Hc. induction s as [|a s IH]; cbn [app rstrip forallb].
  - now rewrite Hc.
  - rewrite List.forallb_app. cbn [forallb]. rewrite Hc, !andb_true_r, IH.
    reflexivity.
Qed.

Lemma lstrip_space_end s c :
  isspace c = true ->
  lstrip (s ++ [c]) = if forallb isspace s then [] else lstrip s ++ [c].
Proof.
  intros Hc. induction s as [|a s IH]; cbn [app lstrip forallb].
  - now rewrite Hc.
  - destruct (isspace a); [exact IH | reflexivity].
Qed.

Lemma strip_space_end s c : isspace c = true -> strip (s ++ [c]) = strip s.
Proof.
  intros Hc. unfold strip. rewrite (lstrip_space_end s c Hc).
  destruct (forallb isspace s) eqn:Hs.
  - apply PyFacts.strip_blank in Hs. unfold strip in Hs. now rewrite Hs.
  - now apply rstrip_space_end.
Qed.

Lemma append_text_pages pages text :
  forallb has_text pages = true ->
  resume_parser.append_pages pages text
  = Ret (text ++ concat (map (fun t => t ++ [NL]) (page_texts pages))).
Proof.
  revert text. induction pages as [|p rest IH]; intros text H.
  - cbn. now rewrite List.app_nil_r.
  - cbn [forallb] in H. apply andb_true_iff in H as [Hp Hr].
    destruct p as [[|c t]| |e]; try discriminate.
    cbn [resume_parser.append_pages page_texts flat_map app map concat].
    rewrite (IH _ Hr). unfold page_texts.
    rewrite <- List.app_assoc. reflexivity.
Qed.

Lemma join_lines texts :
  texts <> [] ->
  concat (map (fun t => t ++ [NL]) texts) = join [NL] texts ++ [NL].
Proof.
  induction texts as [|t ts IH]; [contradiction|]. intros _.
  cbn [map concat join]. destruct ts as [|t' ts]; [now rewrite List.app_nil_r|].
  rewrite IH by discriminate. now rewrite <- !List.app_assoc.
Qed.

(** X25: on a document with at least one page, where every page yields text,
    the two extractors agree up to the white space at the ends:
    [resume_parser.extract_text_from_pdf] returns the stripped text of
    [ResumeProcessor._extract_text_from_pdf], which is the page texts joined
    by newlines. *)
Theorem pdf_extractors_agree_on_text_pages pages :
  pages <> [] ->
  forallb has_text pages = true ->
  _extract_text_from_pdf (Ret pages) = Ret (join [NL] (page_texts pages)) /\
  resume_parser.extract_text_from_pdf true (Ret pages)
  = Ret (Some (strip (join [NL] (page_texts pages)))).
Proof.
  intros Hne H.
  assert (Hok : forallb page_ok pages = true).
  { apply List.forallb_forall. intros p Hp.
    rewrite List.forallb_forall in H. specialize (H p Hp). now destruct p. }
  assert (Ht : page_texts pages <> []).
  { destruct pages as [|[[|c t]| |e] rest]; try contradiction; discriminate. }
  split.
  - unfold _extract_text_from_pdf. cbn [mbind res_bind].
    rewrite (ExtractFacts.collect_pages_texts pages [] Hok). cbn [app].
    destruct (page_texts pages); [contradiction | reflexivity].
  - unfold resume_parser.extract_text_from_pdf. cbn [negb mbind res_bind].
    rewrite (append_text_pages pages [] H). cbn [app mbind res_bind try_except].
    rewrite (join_lines _ Ht). now rewrite strip_space_end.
Qed.

Lemma pdf_extractors_agree_on_text_pages_witness :
  _extract_text_from_pdf (Ret text_pages) = Ret (join [NL] (page_texts text_pages)) /\
  resume_parser.extract_text_from_pdf true (Ret text_pages)
  = Ret (Some (strip (join [NL] (page_texts text_pages)))).
Proof.
  apply pdf_extractors_agree_on_text_pages; [discriminate | reflexivity].
Defined.

End PdfFacts.
